(** * DCS-mouse-reset: a shallow embedding of [DCS_reset_mouse.py]

    The script polls a joystick and, when the configured button is
    released, moves the mouse cursor to a configured fractional screen
    position.  This development embeds the script's functions over an
    explicit world (the configuration file as [configparser] parses it,
    the attached joysticks, the screen metrics, the pending pygame events,
    the cursor and the trace of external calls) and proves properties of
    [load_config], [log_available_devices], [validate_config],
    [center_mouse] and the event loop of [main].  The libraries are
    embedded as far as the script depends on them: [configparser] with
    the interpolation of values and the errors of its own, [SetCursorPos]
    with its C [int] arguments, [os.remove] with the refusal of Windows
    to delete a file that is held open.

    Conventions.
    - A Python [str] is a Rocq [string]; each character stands for the
      code point of the same number (U+0000 to U+00FF).
    - A Python [int] is a [Z].  The screen metrics come from
      [GetSystemMetrics], a C [int]: they are [Z]s known to lie in the
      signed 32-bit range.
    - A Python [float] is an IEEE-754 binary64, modelled by [spec_float]
      with [prec = 53] and [emax = 1024]; multiplication is the correctly
      rounded [SFmul].
    - [sys.exit], raised exceptions and [try]/[except] are modelled by a
      state-and-exception monad over the world.
    - A call of a library that is given valid arguments succeeds: the
      failures of Windows or of pygame that depend on the machine are
      not modelled.  What is modelled is what depends on the arguments
      and the files: the errors of [configparser], the range of the
      arguments of [SetCursorPos], the index of a joystick, the removal
      of an open file.  An interrupt from the keyboard, which can end the
      script at any point, is not modelled either: the properties are
      about the runs that are not interrupted. *)

From Stdlib Require Import ZArith Lia Bool List String Ascii.
From Stdlib Require Import DecimalString.
From Stdlib Require Import Floats.SpecFloat.
From stdpp Require Import base option list strings gmap.

Local Open Scope string_scope.
Local Open Scope Z_scope.

(** ** Exceptions *)

(** What [config.read] raises on a file that opens and is not a well
    formed configuration: the parsing errors of [configparser]
    ([MissingSectionHeaderError] derives from [ParsingError]) and the
    decoding error of the text ([UnicodeDecodeError] derives from
    [ValueError]). *)
Inductive read_error : Type :=
  | MissingSectionHeaderError (msg : string)
  | DuplicateSectionError (msg : string)
  | DuplicateOptionError (msg : string)
  | ParsingError (msg : string)
  | UnicodeDecodeError (msg : string).

(** What the reading of a value raises when its interpolation fails, with
    the option and the section read: [rest] is the text from the [%] that
    cannot be interpreted on, [reference] the name that is not an option,
    [rawval] the value as the file holds it. *)
Inductive interpolation_error : Type :=
  | InterpolationSyntaxError (opt section rest : string)
  | InterpolationMissingOptionError (opt section rawval reference : string)
  | InterpolationDepthError (opt section rawval : string).

(** The exception classes the script meets.  [SystemExit] is what
    [sys.exit] raises; it derives from [BaseException], not from
    [Exception], so [except Exception] lets it through.  The errors of
    [configparser] derive from [Exception] and from neither [KeyError] nor
    [ValueError], the decoding error apart. *)
Inductive exn : Type :=
  | KeyError (key : string)
  | ValueError (msg : string)
  | OverflowError (msg : string)
  | IndexError (msg : string)
  | PygameError (msg : string)
  | PermissionError (msg : string)
  | ReadError (e : read_error)
  | InterpolationError (e : interpolation_error)
  | SystemExit (code : Z).

Inductive result (A : Type) : Type :=
  | Ret (a : A)
  | Raise (e : exn).
Arguments Ret {A} a.
Arguments Raise {A} e.

Definition result_bind {A B} (r : result A) (k : A -> result B) : result B :=
  match r with
  | Ret a => k a
  | Raise e => Raise e
  end.

Definition is_Exception (e : exn) : bool :=
  match e with
  | SystemExit _ => false
  | _ => true
  end.

(** ** Strings *)

Module Str.

(** [str.isspace] on the code points below 256. *)
Definition isspace (c : ascii) : bool :=
  let n := N_of_ascii c in
  ((9 <=? n) && (n <=? 13) || (28 <=? n) && (n <=? 32)
   || (n =? 133) || (n =? 160))%N.

Definition is_empty (s : string) : bool :=
  match s with
  | EmptyString => true
  | String _ _ => false
  end.

Fixpoint lstrip (s : string) : string :=
  match s with
  | EmptyString => EmptyString
  | String c s' => if isspace c then lstrip s' else s
  end.

Fixpoint rstrip (s : string) : string :=
  match s with
  | EmptyString => EmptyString
  | String c s' =>
      let r := rstrip s' in
      if isspace c && is_empty r then EmptyString else String c r
  end.

(** [s.strip()] *)
Definition strip (s : string) : string := rstrip (lstrip s).

(** [s.split(sep)] for a one-character separator: the pieces between
    the separators, in order; never the empty list. *)
Fixpoint split (sep : ascii) (s : string) : list string :=
  match s with
  | EmptyString => [EmptyString]
  | String c s' =>
      if Ascii.eqb c sep then EmptyString :: split sep s'
      else match split sep s' with
           | [] => [String c EmptyString]
           | p :: ps => String c p :: ps
           end
  end.

(** [l[0]] *)
Definition item0 (l : list string) : result string :=
  match l with
  | [] => Raise (IndexError "list index out of range")
  | p :: _ => Ret p
  end.

(** [str(n)] for an [int]. *)
Definition of_Z (n : Z) : string := NilZero.string_of_int (Z.to_int n).

(** [repr(s)] for a [str] without quotes, backslashes or control
    characters, the only kind the script formats (its key names). *)
Definition repr (s : string) : string := "'" ++ s ++ "'".

(** [str.lower] on the code points below 256: the letters A to Z and the
    accented capitals U+00C0 to U+00DE, the sign U+00D7 apart. *)
Definition lower_char (c : ascii) : ascii :=
  let n := N_of_ascii c in
  if ((65 <=? n) && (n <=? 90)
      || (192 <=? n) && (n <=? 222) && negb (n =? 215))%N
  then ascii_of_N (n + 32) else c.

Fixpoint lower (s : string) : string :=
  match s with
  | EmptyString => EmptyString
  | String c s' => String (lower_char c) (lower s')
  end.

(** [c in s] *)
Fixpoint contains (c : ascii) (s : string) : bool :=
  match s with
  | EmptyString => false
  | String c' s' => Ascii.eqb c' c || contains c s'
  end.

Definition all_space (s : string) : Prop :=
  Forall (fun c => isspace c = true) (list_ascii_of_string s).

Definition has_char (c : ascii) (s : string) : Prop :=
  In c (list_ascii_of_string s).

End Str.

(** ** Floats: IEEE-754 binary64 *)

Module Float.

Definition prec : Z := 53.
Definition emax : Z := 1024.

Definition valid (f : spec_float) : bool := valid_binary prec emax f.

(** [x * y] on floats. *)
Definition mul (x y : spec_float) : spec_float := SFmul prec emax x y.

(** [x <= y] on floats; false when either is a NaN. *)
Definition le (x y : spec_float) : bool := SFleb x y.

Definition zero : spec_float := S754_zero false.
Definition one : spec_float := S754_finite false 4503599627370496 (-52).

(** The conversion of an [int] operand of a mixed [int * float]
    product: nearest-even, [OverflowError] beyond the float range. *)
Definition of_int (n : Z) : result spec_float :=
  match binary_normalize prec emax n 0 false with
  | S754_infinity _ => Raise (OverflowError "int too large to convert to float")
  | f => Ret f
  end.

(** [int(x)] for a float: truncation toward zero. *)
Definition to_int (x : spec_float) : result Z :=
  match x with
  | S754_zero _ => Ret 0
  | S754_infinity _ =>
      Raise (OverflowError "cannot convert float infinity to integer")
  | S754_nan => Raise (ValueError "cannot convert float NaN to integer")
  | S754_finite s m e => Ret (cond_Zopp s (Z.shiftl (Zpos m) e))
  end.

(** [n * x] for an [int] [n] and a [float] [x]. *)
Definition int_mul (n : Z) (x : spec_float) : result spec_float :=
  match of_int n with
  | Ret fn => Ret (mul fn x)
  | Raise e => Raise e
  end.

End Float.

(** ** The world and the monad *)

Inductive level : Type := INFO | ERROR.

(** A pygame event, as far as the script looks at it: its type and, for
    a button release, the joystick and the button. *)
Inductive event : Type :=
  | JOYBUTTONUP (joy : Z) (button : Z)
  | QUIT
  | OtherEvent (type : Z).

(** The external calls the script makes, in the order it makes them.
    [Log] is a record reaching [center_mouse.log] (its time stamp left
    out). *)
Inductive io : Type :=
  | Log (lv : level) (msg : string)
  | ConfigRead (file : string)
  | PygameInit
  | JoystickInit
  | JoystickGetCount
  | JoystickOpen (i : Z)
  | EventPump
  | EventGet
  | SetCursorPos (x y : Z)
  | Sleep (ms : Z)
  | PygameQuit.

Record joystick_hw : Type := { hw_name : string; hw_buttons : Z }.

Record world : Type := {
  (** the sections of [config.ini] with their options and the values as
      written, which [config.read] stores in [config] (the section
      [DEFAULT] holds the defaults of all sections, the option names are
      in lower case); [None] when [config.read] gets no configuration
      out of the file *)
  config_file : option (gmap string (gmap string string));
  (** why it gets none: [None] when the file is missing or cannot be
      opened, the error [config.read] ends with when the file opens and
      cannot be decoded or parsed; the script then never looks at
      [config] *)
  config_error : option read_error;
  joysticks : list joystick_hw;
  screen_width : Z;
  screen_height : Z;
  (** what the successive calls of [pygame.event.get] will return *)
  pending : list (list event);
  cursor : Z * Z;
  trace : list io
}.

(** The outcome of running a piece of the script for a bounded number of
    iterations of its [while True] loop: a value, a raised exception, or
    [Looping] when the bound was reached with the loop still going. *)
Inductive outcome (A : Type) : Type :=
  | Done (r : result A)
  | Looping.
Arguments Done {A} r.
Arguments Looping {A}.

Definition M (A : Type) : Type := world -> outcome A * world.

Definition ret {A} (a : A) : M A := fun w => (Done (Ret a), w).
Definition raise {A} (e : exn) : M A := fun w => (Done (Raise e), w).
Definition bind {A B} (c : M A) (k : A -> M B) : M B :=
  fun w =>
    match c w with
    | (Done (Ret a), w') => k a w'
    | (Done (Raise e), w') => (Done (Raise e), w')
    | (Looping, w') => (Looping, w')
    end.
Definition lift {A} (r : result A) : M A := fun w => (Done r, w).

Declare Scope py_scope.
Delimit Scope py_scope with py.
Notation "x <- c ;; k" := (bind c (fun x => k))
  (at level 100, c at next level, right associativity) : py_scope.
Notation "c ;; k" := (bind c (fun _ => k))
  (at level 100, right associativity) : py_scope.
Local Open Scope py_scope.

(** [try: body except ...: handler]; [handlers e] is the clause that
    matches [e], if any. *)
Definition try_except {A} (body : M A) (handlers : exn -> option (M A)) : M A :=
  fun w =>
    match body w with
    | (Done (Raise e), w') =>
        match handlers e with
        | Some h => h w'
        | None => (Done (Raise e), w')
        end
    | r => r
    end.

(** [try: body finally: fin] *)
Definition try_finally {A} (body : M A) (fin : M unit) : M A :=
  fun w =>
    match body w with
    | (Done r, w') =>
        match fin w' with
        | (Done (Ret _), w'') => (Done r, w'')
        | (Done (Raise e), w'') => (Done (Raise e), w'')
        | (Looping, w'') => (Looping, w'')
        end
    | (Looping, w') => (Looping, w')
    end.

Definition set_trace (w : world) (t : list io) : world :=
  {| config_file := config_file w; config_error := config_error w;
     joysticks := joysticks w;
     screen_width := screen_width w; screen_height := screen_height w;
     pending := pending w; cursor := cursor w; trace := t |}.

Definition set_cursor (w : world) (c : Z * Z) : world :=
  {| config_file := config_file w; config_error := config_error w;
     joysticks := joysticks w;
     screen_width := screen_width w; screen_height := screen_height w;
     pending := pending w; cursor := c; trace := trace w |}.

Definition set_pending (w : world) (p : list (list event)) : world :=
  {| config_file := config_file w; config_error := config_error w;
     joysticks := joysticks w;
     screen_width := screen_width w; screen_height := screen_height w;
     pending := p; cursor := cursor w; trace := trace w |}.

(** The world after the calls [l] have been made. *)
Definition add_trace (w : world) (l : list io) : world :=
  set_trace w (trace w ++ l).

Definition emit (e : io) : M unit :=
  fun w => (Done (Ret tt), add_trace w [e]).

Definition read_error_str (e : read_error) : string :=
  match e with
  | MissingSectionHeaderError m | DuplicateSectionError m | DuplicateOptionError m
  | ParsingError m | UnicodeDecodeError m => m
  end.

(** The messages of the interpolation errors; they quote their texts with
    [repr].  The script never formats them: no handler of it catches
    these errors. *)
Definition interpolation_error_str (e : interpolation_error) : string :=
  match e with
  | InterpolationSyntaxError _ _ rest =>
      match rest with
      | String "%" (String "(" _) =>
          "bad interpolation variable reference " ++ Str.repr rest
      | _ => "'%' must be followed by '%' or '(', found: " ++ Str.repr rest
      end
  | InterpolationMissingOptionError opt section rawval reference =>
      "Bad value substitution: option " ++ Str.repr opt ++ " in section "
      ++ Str.repr section ++ " contains an interpolation key " ++ Str.repr reference
      ++ " which is not a valid option name. Raw value: " ++ Str.repr rawval
  | InterpolationDepthError opt section rawval =>
      "Recursion limit exceeded in value substitution: option " ++ Str.repr opt
      ++ " in section " ++ Str.repr section
      ++ " contains an interpolation key which cannot be substituted in 10 steps. Raw value: "
      ++ Str.repr rawval
  end.

(** [str(e)] *)
Definition exn_str (e : exn) : string :=
  match e with
  | KeyError k => Str.repr k
  | ValueError m | OverflowError m | IndexError m | PygameError m
  | PermissionError m => m
  | ReadError e => read_error_str e
  | InterpolationError e => interpolation_error_str e
  | SystemExit c => Str.of_Z c
  end.

(** *** The libraries *)

Definition logging_log (lv : level) (msg : string) : M unit := emit (Log lv msg).
Definition logging_info (msg : string) : M unit := logging_log INFO msg.
Definition logging_error (msg : string) : M unit := logging_log ERROR msg.

Definition sys_exit {A} (code : Z) : M A := raise (SystemExit code).

(** [LogRedirect.write] *)
Definition LogRedirect_write (lv : level) (message : string) : M unit :=
  if Str.is_empty (Str.strip message) then ret tt
  else logging_log lv (Str.strip message).

Definition newline : string := String (ascii_of_nat 10) EmptyString.

(** [print(msg)] with [sys.stdout] redirected: the text, then the line
    end, each through [write]. *)
Definition print (msg : string) : M unit :=
  LogRedirect_write INFO msg ;; LogRedirect_write INFO newline.

Definition time_sleep (ms : Z) : M unit := emit (Sleep ms).

Definition GetSystemMetrics_CXSCREEN : M Z := fun w => (Done (Ret (screen_width w)), w).
Definition GetSystemMetrics_CYSCREEN : M Z := fun w => (Done (Ret (screen_height w)), w).

(** The range of a C [int] (and of a C [long] on Windows). *)
Definition fits_c_int (n : Z) : bool :=
  (-2147483648 <=? n) && (n <=? 2147483647).

(** [win32api.SetCursorPos((x, y))]: the two coordinates are converted to
    C [int]s, which fails on a Python [int] outside their range before
    anything is asked of Windows; then the cursor is moved. *)
Definition win32api_SetCursorPos (x y : Z) : M unit :=
  fun w =>
    if fits_c_int x && fits_c_int y then
      (Done (Ret tt), set_cursor (add_trace w [SetCursorPos x y]) (x, y))
    else (Done (Raise (OverflowError "Python int too large to convert to C long")), w).

Definition pygame_init : M unit := emit PygameInit.
Definition pygame_quit : M unit := emit PygameQuit.
Definition pygame_joystick_init : M unit := emit JoystickInit.
Definition pygame_joystick_get_count : M Z :=
  emit JoystickGetCount ;; fun w => (Done (Ret (Z.of_nat (length (joysticks w)))), w).

(** [pygame.joystick.Joystick(i)] followed by [joystick.init()] *)
Definition pygame_joystick_Joystick (i : Z) : M joystick_hw :=
  emit (JoystickOpen i) ;;
  fun w =>
    if (0 <=? i) && (i <? Z.of_nat (length (joysticks w))) then
      match joysticks w !! Z.to_nat i with
      | Some j => (Done (Ret j), w)
      | None => (Done (Raise (PygameError "Invalid joystick device number")), w)
      end
    else (Done (Raise (PygameError "Invalid joystick device number")), w).

Definition pygame_event_pump : M unit := emit EventPump.

Definition pygame_event_get : M (list event) :=
  emit EventGet ;;
  fun w =>
    match pending w with
    | [] => (Done (Ret []), w)
    | batch :: rest => (Done (Ret batch), set_pending w rest)
    end.

(** *** [configparser] *)

(** [config.read(CONFIG_FILE)]: the list of the files read, empty (false)
    when the file is missing or cannot be opened; a file that opens and
    cannot be decoded or parsed makes it raise. *)
Definition config_read (file : string) : M bool :=
  emit (ConfigRead file) ;;
  fun w =>
    match config_file w, config_error w with
    | Some _, _ => (Done (Ret true), w)
    | None, Some e => (Done (Raise (ReadError e)), w)
    | None, None => (Done (Ret false), w)
    end.

Definition DEFAULTSECT : string := "DEFAULT".
Definition MAX_INTERPOLATION_DEPTH : nat := 10.

(** The options a section shows: its own, then the defaults.  The section
    [DEFAULT] is always there. *)
Definition section_options (cfg : gmap string (gmap string string)) (section : string)
  : option (gmap string string) :=
  let defaults := default empty (cfg !! DEFAULTSECT) in
  if String.eqb section DEFAULTSECT then Some defaults
  else option_map (fun sec => union sec defaults) (cfg !! section).

(** The match of [%\(([^)]+)\)s] on a text, [s] being what follows its
    first two characters: the name between the brackets (empty when
    [s] starts with the closing bracket, which is no match). *)
Fixpoint key_name (s : string) : option string :=
  match s with
  | EmptyString => None
  | String c s' =>
      if Ascii.eqb c ")" then
        match s' with
        | String c' _ => if Ascii.eqb c' "s" then Some EmptyString else None
        | EmptyString => None
        end
      else option_map (String c) (key_name s')
  end.

(** The loop of [BasicInterpolation._interpolate_some] over the text
    [rest]: the text is copied up to each [%]; [%%] gives [%];
    [%(name)s] gives the value of the option [name] (in lower case) among
    [map], itself interpolated by [deeper] when it holds a [%]; any other
    [%] is an error.  [skip] counts the characters of [rest] that a [%%]
    or a reference has consumed already. *)
Fixpoint interpolate_scan (deeper : string -> result string)
    (opt section rawval : string) (map : gmap string string)
    (skip : nat) (rest : string) : result string :=
  match rest with
  | EmptyString => Ret EmptyString
  | String c rest' =>
      match skip with
      | S skip' => interpolate_scan deeper opt section rawval map skip' rest'
      | O =>
          if negb (Ascii.eqb c "%") then
            result_bind (interpolate_scan deeper opt section rawval map O rest')
              (fun r => Ret (String c r))
          else
            match rest' with
            | EmptyString =>
                Raise (InterpolationError (InterpolationSyntaxError opt section rest))
            | String c' t =>
                if Ascii.eqb c' "%" then
                  result_bind (interpolate_scan deeper opt section rawval map 1%nat rest')
                    (fun r => Ret (String "%" r))
                else if Ascii.eqb c' "(" then
                  match key_name t with
                  | Some (String _ _ as name) =>
                      let var := Str.lower name in
                      match map !! var with
                      | None =>
                          Raise (InterpolationError
                                   (InterpolationMissingOptionError
                                      opt section rawval var))
                      | Some v =>
                          result_bind (if Str.contains "%" v then deeper v else Ret v)
                            (fun head =>
                          result_bind
                            (interpolate_scan deeper opt section rawval map
                               (String.length name + 3)%nat rest')
                            (fun r => Ret (head ++ r)))
                      end
                  | _ => Raise (InterpolationError
                                  (InterpolationSyntaxError opt section rest))
                  end
                else Raise (InterpolationError
                              (InterpolationSyntaxError opt section rest))
            end
      end
  end.

(** [BasicInterpolation._interpolate_some] at a depth that leaves
    [depth_left] levels: beyond [MAX_INTERPOLATION_DEPTH] it raises. *)
Fixpoint interpolate_some (depth_left : nat) (opt section rawval : string)
    (map : gmap string string) (value : string) : result string :=
  match depth_left with
  | O => Raise (InterpolationError (InterpolationDepthError opt section rawval))
  | S depth_left' =>
      interpolate_scan (interpolate_some depth_left' opt section rawval map)
        opt section rawval map O value
  end.

(** [BasicInterpolation.before_get], which every reading of a value goes
    through. *)
Definition before_get (opt section : string) (map : gmap string string)
    (value : string) : result string :=
  interpolate_some MAX_INTERPOLATION_DEPTH opt section value map value.

(** The value of an option as the file holds it. *)
Definition config_raw (cfg : option (gmap string (gmap string string)))
    (section key : string) : option string :=
  match section_options (default empty cfg) section with
  | None => None
  | Some options => options !! Str.lower key
  end.

(** [config[section][key]]: [KeyError] for a section or an option that is
    not there, otherwise the value of the option, interpolated. *)
Definition config_getitem (cfg : option (gmap string (gmap string string)))
    (section key : string) : result string :=
  match section_options (default empty cfg) section with
  | None => Raise (KeyError section)
  | Some options =>
      match options !! Str.lower key with
      | None => Raise (KeyError key)
      | Some value => before_get (Str.lower key) section options value
      end
  end.

Definition config_get (section key : string) : M string :=
  fun w => (Done (config_getitem (config_file w) section key), w).

(** [l[i]] on a list, with Python's negative indices. *)
Definition list_getitem {A} (l : list A) (i : Z) : result A :=
  let j := if i <? 0 then i + Z.of_nat (length l) else i in
  if j <? 0 then Raise (IndexError "list index out of range")
  else match l !! Z.to_nat j with
       | Some a => Ret a
       | None => Raise (IndexError "list index out of range")
       end.

(** ** The script *)

Definition LOG_FILE : string := "center_mouse.log".
Definition CONFIG_FILE : string := "config.ini".

Record Settings : Type := {
  device : Z;
  button : Z;
  center_x : spec_float;
  center_y : spec_float
}.

Record DeviceInfo : Type := {
  index : Z;
  name : string;
  buttons : Z
}.

(** What [log_available_devices] returns: [False] or the list. *)
Inductive devices_result : Type :=
  | PyFalse
  | PyList (l : list DeviceInfo).

(** [not devices_info] *)
Definition py_not (d : devices_result) : bool :=
  match d with
  | PyFalse => true
  | PyList [] => true
  | PyList (_ :: _) => false
  end.

(** [for x in l: body(x)] *)
Fixpoint for_each {A} (l : list A) (body : A -> M unit) : M unit :=
  match l with
  | [] => ret tt
  | x :: l' => body x ;; for_each l' body
  end.

(** [while True: body], cut after [fuel] iterations. *)
Fixpoint while_True (fuel : nat) (body : M unit) : M unit :=
  match fuel with
  | O => fun w => (Looping, w)
  | S n => body ;; while_True n body
  end.

Section Script.

(** The builtins [int(s)] and [float(s)] on a [str]. *)
Variable py_int : string -> result Z.
Variable py_float : string -> result spec_float.

(** [config[section][key].split(';')[0].strip()] *)
Definition config_value (section key : string) : M string :=
  raw <- config_get section key ;;
  first <- lift (Str.item0 (Str.split ";" raw)) ;;
  ret (Str.strip first).

(** [0.0 <= x <= 1.0] *)
Definition in_unit (x : spec_float) : bool :=
  Float.le Float.zero x && Float.le x Float.one.

Definition load_config : M Settings :=
  ok <- config_read CONFIG_FILE ;;
  (if negb ok then
     logging_error ("Configuration file '" ++ CONFIG_FILE ++ "' not found or invalid.") ;;
     sys_exit 1
   else ret tt) ;;
  try_except
    (d <- (s <- config_value "Joystick" "device" ;; lift (py_int s)) ;;
     b <- (s <- config_value "Joystick" "button" ;; lift (py_int s)) ;;
     cx <- (s <- config_value "Mouse" "center_x" ;; lift (py_float s)) ;;
     cy <- (s <- config_value "Mouse" "center_y" ;; lift (py_float s)) ;;
     let settings :=
       {| device := d; button := b; center_x := cx; center_y := cy |} in
     (if negb (in_unit (center_x settings) && in_unit (center_y settings)) then
        raise (ValueError "center_x and center_y must be between 0.0 and 1.0.")
      else ret tt) ;;
     ret settings)
    (fun e =>
       match e with
       | KeyError _ =>
           Some (logging_error ("Missing configuration key: " ++ exn_str e) ;;
                 sys_exit 1)
       | ValueError _ | ReadError (UnicodeDecodeError _) =>
           Some (logging_error ("Invalid value in configuration: " ++ exn_str e) ;;
                 sys_exit 1)
       | _ => None
       end).

(** What [config_value] returns, as a function of the configuration. *)
Definition read_value (cfg : option (gmap string (gmap string string)))
    (section key : string) : result string :=
  result_bind (config_getitem cfg section key) (fun raw =>
  result_bind (Str.item0 (Str.split ";" raw)) (fun first =>
  Ret (Str.strip first))).

(** What the [try] block of [load_config] evaluates to, as a function of
    the configuration: the settings, or the first exception raised. *)
Definition settings_of_config (cfg : option (gmap string (gmap string string)))
  : result Settings :=
  result_bind (result_bind (read_value cfg "Joystick" "device") py_int) (fun d =>
  result_bind (result_bind (read_value cfg "Joystick" "button") py_int) (fun b =>
  result_bind (result_bind (read_value cfg "Mouse" "center_x") py_float) (fun cx =>
  result_bind (result_bind (read_value cfg "Mouse" "center_y") py_float) (fun cy =>
  if in_unit cx && in_unit cy then
    Ret {| device := d; button := b; center_x := cx; center_y := cy |}
  else Raise (ValueError "center_x and center_y must be between 0.0 and 1.0."))))).

(** The four values of the configuration are there and parse as [d],
    [b], [cx] and [cy]. *)
Definition parsed_values (cfg : option (gmap string (gmap string string)))
    (d b : Z) (cx cy : spec_float) : Prop :=
  exists vd vb vx vy,
    read_value cfg "Joystick" "device" = Ret vd /\ py_int vd = Ret d /\
    read_value cfg "Joystick" "button" = Ret vb /\ py_int vb = Ret b /\
    read_value cfg "Mouse" "center_x" = Ret vx /\ py_float vx = Ret cx /\
    read_value cfg "Mouse" "center_y" = Ret vy /\ py_float vy = Ret cy.

(** The reasons for [load_config] to fail: the file cannot be read; a
    required key is absent; a value is not a number; a centre is outside
    [0.0, 1.0]. *)
Definition file_unreadable (w : world) : Prop :=
  config_file w = None /\ config_error w = None.




(** The body of [for i in range(joystick_count)], threading
    [devices_info]. *)
Fixpoint enumerate_devices (indices : list Z) (devices_info : list DeviceInfo)
  : M (list DeviceInfo) :=
  match indices with
  | [] => ret devices_info
  | i :: rest =>
      joystick <- pygame_joystick_Joystick i ;;
      let button_count := hw_buttons joystick in
      let device_info :=
        {| index := i; name := hw_name joystick; buttons := button_count |} in
      logging_info ("Joystick " ++ Str.of_Z i ++ ": " ++ hw_name joystick
                    ++ " with " ++ Str.of_Z button_count ++ " button(s)") ;;
      enumerate_devices rest (devices_info ++ [device_info])
  end.

Definition log_available_devices : M devices_result :=
  try_except
    (pygame_init ;;
     pygame_joystick_init ;;
     joystick_count <- pygame_joystick_get_count ;;
     if joystick_count <? 1 then
       logging_info "No joysticks detected." ;;
       ret PyFalse
     else
       logging_info (Str.of_Z joystick_count ++ " joystick(s) detected:") ;;
       devices_info <- enumerate_devices (seqZ 0 joystick_count) [] ;;
       ret (PyList devices_info))
    (fun e =>
       if is_Exception e then
         Some (logging_error ("Error initializing or logging joysticks: " ++ exn_str e) ;;
               sys_exit 1)
       else None).

Definition validate_config (settings : Settings) (devices_info : list DeviceInfo)
  : M unit :=
  let device_index := device settings in
  let button_index := button settings in
  (if device_index >=? Z.of_nat (length devices_info) then
     logging_error ("Invalid joystick index in config: " ++ Str.of_Z device_index
                    ++ ". Only " ++ Str.of_Z (Z.of_nat (length devices_info))
                    ++ " device(s) detected.") ;;
     sys_exit 1
   else ret tt) ;;
  joystick_info <- lift (list_getitem devices_info device_index) ;;
  if button_index >=? buttons joystick_info then
    logging_error ("Invalid button index in config for device "
                   ++ Str.of_Z device_index ++ ": " ++ Str.of_Z button_index
                   ++ ". This joystick has " ++ Str.of_Z (buttons joystick_info)
                   ++ " buttons.") ;;
    sys_exit 1
  else ret tt.

(** [int(n * x)] *)
Definition int_of_product (n : Z) (x : spec_float) : result Z :=
  result_bind (Float.int_mul n x) Float.to_int.

Definition center_mouse (center_x_frac center_y_frac : spec_float) : M unit :=
  screen_width <- GetSystemMetrics_CXSCREEN ;;
  screen_height <- GetSystemMetrics_CYSCREEN ;;
  let first_x := 0 in
  let first_y := 0 in
  second_x <- lift (int_of_product screen_width center_x_frac) ;;
  second_y <- lift (int_of_product screen_height center_y_frac) ;;
  win32api_SetCursorPos first_x first_y ;;
  print ("Mouse moved to initial position: (" ++ Str.of_Z first_x ++ ", "
         ++ Str.of_Z first_y ++ ")") ;;
  time_sleep 50 ;;
  win32api_SetCursorPos second_x second_y ;;
  print ("Mouse moved to second position: (" ++ Str.of_Z second_x ++ ", "
         ++ Str.of_Z second_y ++ ")").

(** The body of [for event in pygame.event.get()]. *)
Definition handle_event (settings : Settings) (ev : event) : M unit :=
  (match ev with
   | JOYBUTTONUP _ event_button =>
       if event_button =? button settings then
         let log_message := "Button " ++ Str.of_Z event_button ++ " released!" in
         logging_info log_message ;;
         print log_message ;;
         center_mouse (center_x settings) (center_y settings)
       else ret tt
   | _ => ret tt
   end) ;;
  match ev with
  | QUIT =>
      let log_message := "Quit event received." in
      logging_info log_message ;;
      print log_message
  | _ => ret tt
  end.

(** One turn of the [while True] loop. *)
Definition poll_once (settings : Settings) : M unit :=
  pygame_event_pump ;;
  events <- pygame_event_get ;;
  for_each events (handle_event settings) ;;
  time_sleep 100.

Definition event_loop (fuel : nat) (settings : Settings) : M unit :=
  while_True fuel (poll_once settings).

Definition main (fuel : nat) : M unit :=
  settings <- load_config ;;
  devices_info <- log_available_devices ;;
  (if py_not devices_info then
     logging_info "Exiting: No joysticks available." ;;
     sys_exit 1
   else ret tt) ;;
  validate_config settings
    (match devices_info with PyList l => l | PyFalse => [] end) ;;
  pygame_init ;;
  pygame_joystick_init ;;
  try_finally
    (try_except
       (joystick <- pygame_joystick_Joystick (device settings) ;;
        logging_info ("Joystick initialized: " ++ hw_name joystick) ;;
        logging_info ("Monitoring button index: " ++ Str.of_Z (button settings)) ;;
        logging_info "Listening to Events now:" ;;
        event_loop fuel settings)
       (fun e =>
          if is_Exception e then
            Some (logging_error ("An unexpected error occurred: " ++ exn_str e))
          else None))
    (pygame_quit ;;
     logging_info "Pygame exited cleanly.").

End Script.

(** The options [load_config] reads. *)
Definition required_keys : list (string * string) :=
  [("Joystick", "device"); ("Joystick", "button");
   ("Mouse", "center_x"); ("Mouse", "center_y")].



(** The exit status of the process once [main] is over: 0 after a normal
    return, the code of a [SystemExit], 1 after any other exception. *)
Definition exit_status (o : outcome unit) : option Z :=
  match o with
  | Done (Ret _) => Some 0
  | Done (Raise (SystemExit c)) => Some c
  | Done (Raise _) => Some 1
  | Looping => None
  end.

(** A screen metric is a C [int]. *)
Definition is_c_int (n : Z) : Prop := -2147483648 <= n <= 2147483647.

(** [round(x)] of a float, Python's: to the nearest integer, a tie to
    the even one.  The script does not call it. *)
Definition py_round (x : spec_float) : result Z :=
  match x with
  | S754_zero _ => Ret 0
  | S754_infinity _ =>
      Raise (OverflowError "cannot convert float infinity to integer")
  | S754_nan => Raise (ValueError "cannot convert float NaN to integer")
  | S754_finite s m e =>
      Ret (cond_Zopp s
             (match e with
              | Zneg p =>
                  let d := Z.pow 2 (Zpos p) in
                  let q := Zpos m / d in
                  let r := Zpos m mod d in
                  match 2 * r ?= d with
                  | Lt => q
                  | Gt => q + 1
                  | Eq => if Z.even q then q else q + 1
                  end
              | _ => Z.shiftl (Zpos m) e
              end))
  end.

(** The target as the specification words it:
    [(round(width * fracX), round(height * fracY))]. *)
Definition rounded_target (width height : Z) (fracX fracY : spec_float)
  : result (Z * Z) :=
  result_bind (result_bind (Float.int_mul width fracX) py_round) (fun x =>
  result_bind (result_bind (Float.int_mul height fracY) py_round) (fun y =>
  Ret (x, y))).

(** ** A reading of decimal literals, to run the script on examples *)

Module Demo.

Definition digit (c : ascii) : option Z :=
  let n := Z.of_N (N_of_ascii c) in
  if (48 <=? n) && (n <=? 57) then Some (n - 48) else None.

Fixpoint digits (acc : Z) (s : string) : option Z :=
  match s with
  | EmptyString => Some acc
  | String c s' =>
      match digit c with
      | Some d => digits (10 * acc + d) s'
      | None => None
      end
  end.

(** [int(s)] on an optional sign and decimal digits. *)
Definition int (s : string) : result Z :=
  let bad := Raise (ValueError ("invalid literal for int() with base 10: "
                                ++ Str.repr s)) in
  match s with
  | EmptyString => bad
  | String "-" (String _ _ as t) =>
      match digits 0 t with Some n => Ret (- n) | None => bad end
  | _ => match digits 0 s with Some n => Ret n | None => bad end
  end.

(** 0.625, 0.5 and 1.5 as binary64. *)
Definition five_eighths : spec_float := S754_finite false 5629499534213120 (-53).
Definition half : spec_float := S754_finite false 4503599627370496 (-53).
Definition three_halves : spec_float := S754_finite false 6755399441055744 (-52).

(** [float(s)] on the few literals of the examples. *)
Definition float (s : string) : result spec_float :=
  if String.eqb s "0" then Ret (S754_zero false)
  else if String.eqb s "0.625" then Ret five_eighths
  else if String.eqb s "0.5" then Ret half
  else if String.eqb s "1" then Ret Float.one
  else if String.eqb s "1.5" then Ret three_halves
  else Raise (ValueError ("could not convert string to float: " ++ Str.repr s)).

Definition config (dev btn cx cy : string) : gmap string (gmap string string) :=
  {[ "Joystick" := {[ "device" := dev; "button" := btn ]};
     "Mouse" := {[ "center_x" := cx; "center_y" := cy ]} ]}.

Definition stick : joystick_hw := {| hw_name := "HOTAS"; hw_buttons := 3 |}.
Definition throttle : joystick_hw := {| hw_name := "Throttle"; hw_buttons := 12 |}.

Definition stick_info : DeviceInfo :=
  {| index := 0; name := "HOTAS"; buttons := 3 |}.
Definition throttle_info : DeviceInfo :=
  {| index := 1; name := "Throttle"; buttons := 12 |}.

Definition settings (dev btn : Z) : Settings :=
  {| device := dev; button := btn; center_x := five_eighths; center_y := half |}.

Definition boot (cfg : option (gmap string (gmap string string)))
    (sticks : list joystick_hw) (events : list (list event)) : world :=
  {| config_file := cfg; config_error := None; joysticks := sticks;
     screen_width := 1366; screen_height := 768;
     pending := events; cursor := (100, 100); trace := [] |}.

End Demo.

(** A text with no space at either end. *)
Definition no_outer_space (v : string) : Prop :=
  (forall c r, v = String c r -> Str.isspace c = false) /\
  (forall r c, v = r ++ String c EmptyString -> Str.isspace c = false).

(** The settings [load_config] can return: two binary64 fractions of
    [0, 1]. *)
Definition settings_ok (s : Settings) : Prop :=
  Float.valid (center_x s) = true /\ Float.valid (center_y s) = true /\
  in_unit (center_x s) = true /\ in_unit (center_y s) = true.

Definition screen_ok (w : world) : Prop :=
  is_c_int (screen_width w) /\ is_c_int (screen_height w).

(** What no call of the script changes: the configuration file, the
    joysticks and the screen metrics. *)
Definition same_setup (w w' : world) : Prop :=
  config_file w' = config_file w /\ joysticks w' = joysticks w /\
  screen_width w' = screen_width w /\ screen_height w' = screen_height w.

(** The number of calls of [pygame.event.get] in a trace. *)
Fixpoint polls (t : list io) : nat :=
  match t with
  | [] => O
  | EventGet :: t' => S (polls t')
  | _ :: t' => polls t'
  end.

(** The records a quit event leaves in the log: one from [logging.info],
    one from [print]. *)
Definition quit_records : list io :=
  [Log INFO "Quit event received."; Log INFO "Quit event received."].

(** [k] is the value of the finite float [x] with its fraction dropped:
    [|k| <= |x| < |k| + 1], and [k] has the sign of [x] or is 0. *)
Definition truncates (x : spec_float) (k : Z) : Prop :=
  match x with
  | S754_zero _ => k = 0
  | S754_finite s m e =>
      (if s then k <= 0 else 0 <= k) /\
      Z.abs k * 2 ^ Z.max 0 (- e) <= Zpos m * 2 ^ Z.max 0 e
        < (Z.abs k + 1) * 2 ^ Z.max 0 (- e)
  | _ => False
  end.

(** A float whose magnitude is at most the integer [N]; [sx] is the sign
    of a finite non-zero one. *)
Definition bounded_by (N : Z) (sx : bool) (x : spec_float) : Prop :=
  match x with
  | S754_zero _ => True
  | S754_finite s m e => s = sx /\ e <= 0 /\ Zpos m <= N * 2 ^ (- e)
  | _ => False
  end.

(** The list [log_available_devices] builds from the joysticks numbered
    from [start] on. *)
Fixpoint devices_of (js : list joystick_hw) (start : Z) : list DeviceInfo :=
  match js with
  | [] => []
  | j :: js' =>
      {| index := start; name := hw_name j; buttons := hw_buttons j |}
      :: devices_of js' (start + 1)
  end.

(** A text that [rstrip] keeps whole: not empty, its last character not
    a space. *)
Definition kept_right (s : string) : Prop :=
  Str.rstrip s = s /\ Str.is_empty s = false.

(** The calls [center_mouse] makes when the target is [(x, y)]. *)
Definition center_mouse_calls (x y : Z) : list io :=
  [ SetCursorPos 0 0;
    Log INFO "Mouse moved to initial position: (0, 0)";
    Sleep 50;
    SetCursorPos x y;
    Log INFO ("Mouse moved to second position: (" ++ Str.of_Z x ++ ", "
              ++ Str.of_Z y ++ ")") ].

(** ** The logging set-up of the script *)

Module Logging.

(** A handler of the root logger: a file handler with its stream open,
    as [basicConfig] creates them, or any other handler, known by its
    identity. *)
Inductive handler : Type :=
  | FileHandler (filename mode format : string)
  | OtherHandler (id : Z).

Definition handler_eqb (a b : handler) : bool :=
  match a, b with
  | FileHandler f m t, FileHandler f' m' t' =>
      String.eqb f f' && String.eqb m m' && String.eqb t t'
  | OtherHandler i, OtherHandler i' => i =? i'
  | _, _ => false
  end.

(** The root logger and the files: the handlers, the level ([None] for
    the default), for each file that exists its lines, and the files that
    someone else than the handlers of the root logger holds open (another
    process, or a handler that the program keeps elsewhere). *)
Record state : Type := {
  root_handlers : list handler;
  root_level : option level;
  files : gmap string (list string);
  open_files : list string
}.

(** [l.remove(h)] where [h in l]: the first occurrence goes. *)
Fixpoint remove_first (h : handler) (l : list handler) : list handler :=
  match l with
  | [] => []
  | x :: l' => if handler_eqb x h then l' else x :: remove_first h l'
  end.

(** [logging.root.removeHandler(h)]: nothing when [h] is not there.  The
    handler is not closed; its stream is closed when nothing refers to
    the handler any more. *)
Definition removeHandler (h : handler) (st : state) : state :=
  if existsb (fun x => handler_eqb x h) (root_handlers st) then
    {| root_handlers := remove_first h (root_handlers st);
       root_level := root_level st; files := files st;
       open_files := open_files st |}
  else st.

(** [os.path.exists(f)] *)
Definition os_path_exists (f : string) (st : state) : bool :=
  bool_decide (is_Some (files st !! f)).

(** The handler holds the file open. *)
Definition holds (f : string) (h : handler) : bool :=
  match h with
  | FileHandler f' _ _ => String.eqb f f'
  | OtherHandler _ => false
  end.

(** The file is held open: by someone else, by a handler of the root
    logger, or by one of the handlers [live] that the variables of the
    running function refer to. *)
Definition is_open (f : string) (live : list handler) (st : state) : bool :=
  existsb (String.eqb f) (open_files st)
  || existsb (holds f) (root_handlers st ++ live).

(** [os.remove(f)] (called only on a file that exists): Windows, the
    only system of the script, refuses to delete a file that is held
    open. *)
Definition os_remove (f : string) (live : list handler) (st : state) : result state :=
  if is_open f live st then
    Raise (PermissionError
             ("[WinError 32] The process cannot access the file because it is being used by another process: "
              ++ Str.repr f))
  else
    Ret {| root_handlers := root_handlers st; root_level := root_level st;
           files := delete f (files st); open_files := open_files st |}.

(** [logging.basicConfig(filename=f, level=lv, format=fmt, filemode=m)]:
    nothing when the root logger has a handler already; otherwise a file
    handler is installed, which opens [f] at once and keeps it open, and
    the level is set.  Opening with mode ["w"] leaves the file empty. *)
Definition basicConfig (f : string) (lv : level) (fmt m : string) (st : state) : state :=
  match root_handlers st with
  | [] =>
      {| root_handlers := [FileHandler f m fmt];
         root_level := Some lv;
         files := if String.eqb m "w" then <[f := []]> (files st)
                  else <[f := default [] (files st !! f)]> (files st);
         open_files := open_files st |}
  | _ :: _ => st
  end.

Definition LOG_FORMAT : string := "%(asctime)s - %(levelname)s - %(message)s".

(** [for handler in logging.root.handlers[:]: logging.root.removeHandler(handler)] *)
Definition remove_all_handlers (st : state) : state :=
  fold_left (fun st h => removeHandler h st) (root_handlers st) st.

(** What the variable [handler] refers to once the loop is over: the last
    handler of the list, if any.  The handlers before it are referred to
    by nothing of the script any more. *)
Definition loop_variable (st : state) : list handler :=
  match last (root_handlers st) with
  | Some h => [h]
  | None => []
  end.

Definition initialize_logging (st : state) : result state :=
  let handler := loop_variable st in
  let st1 := remove_all_handlers st in
  result_bind
    (if os_path_exists LOG_FILE st1 then os_remove LOG_FILE handler st1 else Ret st1)
    (fun st2 => Ret (basicConfig LOG_FILE INFO LOG_FORMAT "w" st2)).

End Logging.

(** ** Counting calls *)

(** The binary64 [2^-k], for [0 <= k <= 1022]: 1.0, 0.5, 0.25, ... *)
Definition pow2_fraction (k : Z) : spec_float :=
  S754_finite false 4503599627370496 (-52 - k).

(** The number of calls of [SetCursorPos] in a trace. *)
Fixpoint moves (t : list io) : nat :=
  match t with
  | [] => O
  | SetCursorPos _ _ :: t' => S (moves t')
  | _ :: t' => moves t'
  end.

(** The time slept in a trace, in milliseconds. *)
Fixpoint slept (t : list io) : Z :=
  match t with
  | [] => 0
  | Sleep ms :: t' => ms + slept t'
  | _ :: t' => slept t'
  end.

(** The number of log records in a trace. *)
Fixpoint records (t : list io) : nat :=
  match t with
  | [] => O
  | Log _ _ :: t' => S (records t')
  | _ :: t' => records t'
  end.

(** The releases of button [b] in a batch of events, whatever the
    joystick. *)
Fixpoint releases (b : Z) (batch : list event) : nat :=
  match batch with
  | [] => O
  | JOYBUTTONUP _ b' :: rest =>
      if b' =? b then S (releases b rest) else releases b rest
  | _ :: rest => releases b rest
  end.

(** The quit events in a batch. *)
Fixpoint quits (batch : list event) : nat :=
  match batch with
  | [] => O
  | QUIT :: rest => S (quits rest)
  | _ :: rest => quits rest
  end.

(** [Demo.float] with the spellings of the special floats added. *)
Definition demo_float_special (s : string) : result spec_float :=
  if String.eqb s "nan" then Ret S754_nan
  else if String.eqb s "inf" then Ret (S754_infinity false)
  else if String.eqb s "-0.0" then Ret (S754_zero true)
  else Demo.float s.

(** The world of the examples with a configuration file that opens and
    does not parse: [config.read] raises [err]. *)
Definition demo_malformed (err : read_error) : world :=
  {| config_file := None; config_error := Some err;
     joysticks := [Demo.stick];
     screen_width := 1366; screen_height := 768;
     pending := []; cursor := (100, 100); trace := [] |}.

(** A float that the range test of [load_config] cannot accept: a NaN,
    an infinity, or a negative number. *)
Definition never_in_unit (x : spec_float) : Prop :=
  match x with
  | S754_nan | S754_infinity _ | S754_finite true _ _ => True
  | _ => False
  end.

(** Where the cursor is after [n] releases of the configured button, the
    target being [target]. *)
Definition cursor_after (target : Z * Z) (n : nat) (before : Z * Z) : Z * Z :=
  match n with
  | O => before
  | S _ => target
  end.

(** The calls of the enumeration loop of [log_available_devices] over the
    joysticks [js], numbered from [start]. *)
Fixpoint enumerate_calls (js : list joystick_hw) (start : Z) : list io :=
  match js with
  | [] => []
  | j :: js' =>
      JoystickOpen start
      :: Log INFO ("Joystick " ++ Str.of_Z start ++ ": " ++ hw_name j
                   ++ " with " ++ Str.of_Z (hw_buttons j) ++ " button(s)")
      :: enumerate_calls js' (start + 1)
  end.

(** The calls of [log_available_devices] when the joysticks [js], at
    least one, are attached. *)
Definition enumeration_calls (js : list joystick_hw) : list io :=
  ([PygameInit; JoystickInit; JoystickGetCount;
    Log INFO (Str.of_Z (Z.of_nat (length js)) ++ " joystick(s) detected:")]
   ++ enumerate_calls js 0)%list.

(** The calls of [main] from the opening of a joystick that cannot be
    opened to its return. *)
Definition failed_open_calls (dev : Z) (msg : string) : list io :=
  [ PygameInit; JoystickInit; JoystickOpen dev;
    Log ERROR ("An unexpected error occurred: " ++ msg);
    PygameQuit;
    Log INFO "Pygame exited cleanly." ].

(** * Properties *)

(** ** Rounding in binary64 *)

Lemma iter_pos_nat {A} (f : A -> A) (p : positive) (x : A) :
  SpecFloat.iter_pos f p x = Nat.iter (Pos.to_nat p) f x.
Proof.
  revert x. induction p as [p IH|p IH|]; intros x.
  - rewrite Pos2Nat.inj_xI. cbn [SpecFloat.iter_pos]. rewrite !IH.
    rewrite <- Nat.iter_succ_r, <- Nat.iter_add. f_equal. lia.
  - rewrite Pos2Nat.inj_xO. cbn [SpecFloat.iter_pos]. rewrite !IH.
    rewrite <- Nat.iter_add. f_equal. lia.
  - reflexivity.
Qed.

Lemma shr_1_m (mrs : shr_record) :
  0 <= shr_m mrs -> shr_m (shr_1 mrs) = shr_m mrs / 2.
Proof.
  destruct mrs as [m r s]. cbn [shr_m]. intros Hm.
  destruct m as [|[p|p|]|p]; cbn [shr_1 shr_m]; try lia;
    Z.div_mod_to_equations; lia.
Qed.

Lemma shr_1_exact (mrs : shr_record) :
  0 <= shr_m mrs -> shr_r mrs = false -> shr_s mrs = false ->
  shr_m mrs mod 2 = 0 ->
  shr_r (shr_1 mrs) = false /\ shr_s (shr_1 mrs) = false.
Proof.
  destruct mrs as [m r s]. cbn [shr_m shr_r shr_s]. intros Hm -> -> Hmod.
  destruct m as [|[p|p|]|p]; cbn [shr_1 shr_r shr_s orb]; try lia; auto.
  - exfalso. rewrite Pos2Z.inj_xI in Hmod.
    rewrite Z.add_comm, Z.mul_comm, Z.mod_add in Hmod by lia. discriminate.
  - discriminate.
Qed.

Lemma shr_iter_m (k : nat) (mrs : shr_record) :
  0 <= shr_m mrs ->
  shr_m (Nat.iter k shr_1 mrs) = shr_m mrs / 2 ^ Z.of_nat k.
Proof.
  intros Hm. induction k as [|k IH].
  - simpl. now rewrite Z.div_1_r.
  - rewrite Nat2Z.inj_succ, Z.pow_succ_r by lia. simpl.
    rewrite shr_1_m, IH.
    + rewrite Z.div_div by lia. f_equal. lia.
    + rewrite IH. apply Z.div_pos; lia.
Qed.

Lemma shr_iter_exact (k : nat) (m : Z) :
  0 <= m -> m mod 2 ^ Z.of_nat k = 0 ->
  let r := Nat.iter k shr_1 (Build_shr_record m false false) in
  shr_r r = false /\ shr_s r = false.
Proof.
  intros Hm. induction k as [|k IH]; intros Hmod; simpl.
  - auto.
  - rewrite Nat2Z.inj_succ, Z.pow_succ_r in Hmod by lia.
    assert (Hk : m mod 2 ^ Z.of_nat k = 0).
    { apply Z.mod_divide in Hmod; [|lia]. apply Z.mod_divide; [lia|].
      destruct Hmod as [c Hc]. exists (c * 2). lia. }
    destruct (IH Hk) as [Hr Hs].
    apply shr_1_exact; auto.
    + rewrite shr_iter_m by (simpl; lia). simpl. apply Z.div_pos; lia.
    + rewrite shr_iter_m by (simpl; lia). simpl.
      apply Z.mod_divide in Hmod; [|lia]. destruct Hmod as [c Hc].
      subst m. replace (c * (2 * 2 ^ Z.of_nat k)) with ((c * 2) * 2 ^ Z.of_nat k) by lia.
      rewrite Z.div_mul by lia. apply Z.mod_mul; lia.
Qed.

Lemma digits2_pos_upper (p : positive) : Zpos p < 2 ^ Zpos (digits2_pos p).
Proof.
  induction p as [p IH|p IH|]; simpl digits2_pos;
    rewrite ?Pos2Z.inj_succ, ?Z.pow_succ_r by lia; lia.
Qed.

Lemma digits2_pos_lower (p : positive) : 2 ^ (Zpos (digits2_pos p) - 1) <= Zpos p.
Proof.
  induction p as [p IH|p IH|]; simpl digits2_pos;
    rewrite ?Pos2Z.inj_succ; try (replace (Z.succ (Zpos (digits2_pos p)) - 1)
       with (Z.succ (Zpos (digits2_pos p) - 1)) by lia; rewrite Z.pow_succ_r by lia; lia).
  simpl. lia.
Qed.

Lemma digits2_pos_le (p : positive) (k : Z) :
  0 <= k -> Zpos p < 2 ^ k -> Zpos (digits2_pos p) <= k.
Proof.
  intros Hk Hlt. pose proof (digits2_pos_lower p) as Hlo.
  destruct (Z_le_gt_dec (Zpos (digits2_pos p)) k) as [|Hgt]; [assumption|].
  exfalso. assert (2 ^ k <= 2 ^ (Zpos (digits2_pos p) - 1)) by (apply Z.pow_le_mono_r; lia).
  lia.
Qed.

Lemma round_nearest_even_bounds (m : Z) (l : location) :
  m <= round_nearest_even m l <= m + 1.
Proof.
  destruct l as [|[ | | ]]; cbn [round_nearest_even]; try lia.
  destruct (Z.even m); lia.
Qed.

Lemma fexp_nonpos (d e : Z) : d + e <= 53 -> fexp Float.prec Float.emax (d + e) <= 0.
Proof. unfold fexp, SpecFloat.emin, Float.prec, Float.emax. lia. Qed.

Lemma Zdigits2_le (m k : Z) : 0 <= m -> 0 <= k -> m < 2 ^ k -> Zdigits2 m <= k.
Proof.
  intros Hm Hk Hlt. destruct m as [|p|p]; cbn [Zdigits2]; try lia.
  now apply digits2_pos_le.
Qed.

(** The magnitude kept by one alignment step of the rounding: shifting
    and rounding to nearest never passes an integer bound that lies on
    the target grid. *)
Lemma shr_fexp_bound (m e N : Z) :
  0 <= m -> e <= 0 -> 0 <= N < 2 ^ 53 -> m <= N * 2 ^ (- e) ->
  let mrs := fst (shr_fexp Float.prec Float.emax m e loc_Exact) in
  let e' := snd (shr_fexp Float.prec Float.emax m e loc_Exact) in
  e' <= 0 /\ 0 <= shr_m mrs /\
  round_nearest_even (shr_m mrs) (loc_of_shr_record mrs) <= N * 2 ^ (- e').
Proof.
  intros Hm He HN Hle. unfold shr_fexp, shr. cbn [shr_record_of_loc].
  assert (Hd : Zdigits2 m + e <= 53).
  { assert (Zdigits2 m <= 53 - e); [|lia].
    apply Zdigits2_le; try lia.
    replace (53 - e) with (53 + - e) by lia. rewrite Z.pow_add_r by lia.
    assert (0 < 2 ^ (- e)) by (apply Z.pow_pos_nonneg; lia). nia. }
  pose proof (fexp_nonpos _ _ Hd) as Hf.
  destruct (fexp Float.prec Float.emax (Zdigits2 m + e) - e) as [|p|p] eqn:Hs;
    cbn [fst snd shr_m loc_of_shr_record round_nearest_even]; try (repeat split; lia).
  rewrite iter_pos_nat.
  set (k := Pos.to_nat p).
  assert (Hk : Z.of_nat k = Zpos p) by (subst k; apply positive_nat_Z).
  set (e' := e + Zpos p) in *.
  assert (He' : e' <= 0) by lia.
  pose proof (shr_iter_m k (Build_shr_record m false false) Hm) as Hq.
  cbn [shr_m] in Hq. rewrite Hk in Hq.
  assert (Hpow : 2 ^ (- e) = 2 ^ (- e') * 2 ^ Zpos p).
  { rewrite <- Z.pow_add_r by lia. f_equal. lia. }
  assert (Hp2 : 0 < 2 ^ Zpos p) by (apply Z.pow_pos_nonneg; lia).
  assert (Hp3 : 0 < 2 ^ (- e')) by (apply Z.pow_pos_nonneg; lia).
  set (W := N * 2 ^ (- e')).
  assert (HW : m <= W * 2 ^ Zpos p) by (subst W; rewrite Hpow in Hle; lia).
  assert (Hqle : m / 2 ^ Zpos p <= W).
  { apply Z.div_le_upper_bound; lia. }
  split; [assumption|]. split.
  { rewrite Hq. apply Z.div_pos; lia. }
  destruct (Z.eq_dec (m / 2 ^ Zpos p) W) as [Heq|Hne].
  - assert (Hmod : m mod 2 ^ Z.of_nat k = 0).
    { rewrite Hk. pose proof (Z.div_mod m (2 ^ Zpos p) ltac:(lia)) as Hdm.
      pose proof (Z.mod_pos_bound m (2 ^ Zpos p) Hp2) as Hmb.
      rewrite Heq in Hdm. lia. }
    destruct (shr_iter_exact k m Hm Hmod) as [Hr Hsx].
    destruct (Nat.iter k shr_1 (Build_shr_record m false false)) as [qm qr qs].
    cbn [shr_m shr_r shr_s] in *. subst qr qs.
    cbn [loc_of_shr_record round_nearest_even]. lia.
  - pose proof (round_nearest_even_bounds
                  (shr_m (Nat.iter k shr_1 (Build_shr_record m false false)))
                  (loc_of_shr_record (Nat.iter k shr_1 (Build_shr_record m false false)))) as Hr.
    rewrite Hq in Hr at 2. lia.
Qed.

Lemma binary_round_aux_bound (sx : bool) (m e N : Z) :
  0 <= m -> e <= 0 -> 0 <= N < 2 ^ 53 -> m <= N * 2 ^ (- e) ->
  bounded_by N sx (binary_round_aux Float.prec Float.emax sx m e loc_Exact).
Proof.
  intros Hm He HN Hle. unfold binary_round_aux.
  pose proof (shr_fexp_bound m e N Hm He HN Hle) as H1. cbv zeta in H1.
  destruct (shr_fexp Float.prec Float.emax m e loc_Exact) as [mrs' e'] eqn:E1.
  cbn [fst snd] in H1. destruct H1 as (He' & Hm' & Hr').
  set (m1 := round_nearest_even (shr_m mrs') (loc_of_shr_record mrs')) in *.
  assert (Hm1 : 0 <= m1).
  { pose proof (round_nearest_even_bounds (shr_m mrs') (loc_of_shr_record mrs')).
    subst m1. lia. }
  pose proof (shr_fexp_bound m1 e' N Hm1 He' HN Hr') as H2. cbv zeta in H2.
  destruct (shr_fexp Float.prec Float.emax m1 e' loc_Exact) as [mrs'' e''] eqn:E2.
  cbn [fst snd] in H2. destruct H2 as (He'' & Hm'' & Hr'').
  pose proof (round_nearest_even_bounds (shr_m mrs'') (loc_of_shr_record mrs'')) as Hb.
  destruct (shr_m mrs'') as [|q|q] eqn:Eq; cbn [bounded_by]; try lia; try exact I.
  replace (e'' <=? Float.emax - Float.prec) with true
    by (symmetry; apply Z.leb_le; unfold Float.emax, Float.prec; lia).
  cbn [bounded_by]. repeat split; lia.
Qed.

Lemma pos_iter_xO (n d : positive) : Zpos (Pos.iter xO n d) = Zpos n * 2 ^ Zpos d.
Proof.
  induction d as [|d IH] using Pos.peano_ind.
  - cbn [Pos.iter]. lia.
  - rewrite Pos.iter_succ, Pos2Z.inj_xO, IH, Pos2Z.inj_succ, Z.pow_succ_r by lia.
    lia.
Qed.

Lemma binary_round_bound (sx : bool) (n : positive) :
  Zpos n < 2 ^ 53 ->
  bounded_by (Zpos n) sx (binary_round Float.prec Float.emax sx n 0).
Proof.
  intros Hn. unfold binary_round, shl_align.
  destruct (fexp Float.prec Float.emax (Zpos (digits2_pos n) + 0) - 0) as [|d|d] eqn:Hs.
  - apply binary_round_aux_bound; lia.
  - apply binary_round_aux_bound; lia.
  - assert (He : fexp Float.prec Float.emax (Zpos (digits2_pos n) + 0) = Zneg d) by lia.
    rewrite He. apply binary_round_aux_bound; try lia.
    rewrite pos_iter_xO. change (- Zneg d) with (Zpos d). lia.
Qed.

Lemma of_int_bound (n : Z) :
  Z.abs n < 2 ^ 53 ->
  exists x, Float.of_int n = Ret x /\ bounded_by (Z.abs n) (n <? 0) x.
Proof.
  intros Hn. unfold Float.of_int, binary_normalize.
  destruct n as [|p|p].
  - eexists. split; [reflexivity|exact I].
  - pose proof (binary_round_bound false p Hn) as Hb. change (Z.abs (Zpos p)) with (Zpos p).
    change (Zpos p <? 0) with false.
    destruct (binary_round Float.prec Float.emax false p 0) as [s|s| |s m e];
      cbn [bounded_by] in Hb; try contradiction; eexists; (split; [reflexivity|]);
      cbn [bounded_by]; auto.
  - pose proof (binary_round_bound true p Hn) as Hb. change (Z.abs (Zneg p)) with (Zpos p).
    change (Zneg p <? 0) with true.
    destruct (binary_round Float.prec Float.emax true p 0) as [s|s| |s m e];
      cbn [bounded_by] in Hb; try contradiction; eexists; (split; [reflexivity|]);
      cbn [bounded_by]; auto.
Qed.

(** What [0.0 <= x <= 1.0] says of a valid float: it is a zero, or a
    positive [m * 2^e] with [e <= -52] and [m <= 2^(-e)]. *)
Lemma in_unit_finite (s : bool) (m : positive) (e : Z) :
  Float.valid (S754_finite s m e) = true ->
  in_unit (S754_finite s m e) = true ->
  s = false /\ e <= -52 /\ Zpos m <= 2 ^ (- e).
Proof.
  unfold Float.valid, valid_binary, bounded, canonical_mantissa, in_unit, Float.le,
    SFleb, Float.zero, Float.one, SFcompare.
  intros Hv Hu.
  apply andb_true_iff in Hv. destruct Hv as [Hc _]. apply Z.eqb_eq in Hc.
  apply andb_true_iff in Hu. destruct Hu as [H0 H1].
  destruct s; [discriminate|]. split; [reflexivity|].
  assert (Hd : Zpos (digits2_pos m) <= 53).
  { unfold fexp, SpecFloat.emin, Float.prec, Float.emax in Hc. lia. }
  assert (Hm : Zpos m < 2 ^ 53).
  { pose proof (digits2_pos_upper m).
    assert (2 ^ Zpos (digits2_pos m) <= 2 ^ 53) by (apply Z.pow_le_mono_r; lia). lia. }
  destruct (e ?= -52) eqn:Hcmp.
  - apply Z.compare_eq in Hcmp. subst e. split; [lia|].
    change (2 ^ (- -52)) with 4503599627370496.
    destruct (Pos.compare_cont Eq m 4503599627370496) eqn:Hpc; try discriminate.
    + apply Pos.compare_eq in Hpc. subst m. lia.
    + apply (proj1 (Pos.compare_lt_iff m _)), Pos2Z.pos_lt_pos in Hpc. lia.
  - rewrite Z.compare_lt_iff in Hcmp. split; [lia|].
    assert (2 ^ 53 <= 2 ^ (- e)) by (apply Z.pow_le_mono_r; lia). lia.
  - discriminate.
Qed.

Lemma in_unit_not_special (x : spec_float) :
  in_unit x = true -> x <> S754_nan /\ forall s, x <> S754_infinity s.
Proof.
  unfold in_unit, Float.le, SFleb, Float.zero, Float.one.
  destruct x as [s|s| |s m e]; cbn [SFcompare]; intros H; split; try congruence;
    try (intros s'; congruence).
  - destruct s; discriminate.
  - discriminate.
Qed.

Lemma mul_bound (N : Z) (sx : bool) (x f : spec_float) :
  0 <= N < 2 ^ 53 -> bounded_by N sx x ->
  Float.valid f = true -> in_unit f = true ->
  bounded_by N sx (Float.mul x f).
Proof.
  intros HN Hx Hv Hu. unfold Float.mul.
  destruct (in_unit_not_special f Hu) as [Hnan Hinf].
  destruct x as [s|s| |s mx ex]; cbn [bounded_by] in Hx; try contradiction;
    destruct f as [sf|sf| |sf mf ef]; try congruence;
    try (exfalso; apply (Hinf sf); reflexivity); cbn [SFmul bounded_by]; auto.
  destruct Hx as (-> & Hex & Hmx).
  destruct (in_unit_finite sf mf ef Hv Hu) as (-> & Hef & Hmf).
  rewrite xorb_false_r.
  apply binary_round_aux_bound; try lia.
  rewrite Pos2Z.inj_mul.
  replace (- (ex + ef)) with (- ex + - ef) by lia. rewrite Z.pow_add_r by lia.
  assert (0 < 2 ^ (- ex)) by (apply Z.pow_pos_nonneg; lia).
  assert (0 < 2 ^ (- ef)) by (apply Z.pow_pos_nonneg; lia).
  nia.
Qed.

Lemma to_int_bound (N : Z) (sx : bool) (x : spec_float) :
  0 <= N -> bounded_by N sx x ->
  exists k, Float.to_int x = Ret k /\
            (if sx then - N <= k <= 0 else 0 <= k <= N).
Proof.
  intros HN Hx.
  destruct x as [s|s| |s m e]; cbn [bounded_by] in Hx; try contradiction.
  - exists 0. split; [reflexivity|]. destruct sx; lia.
  - destruct Hx as (-> & He & Hm). eexists. split; [reflexivity|].
    rewrite Z.shiftl_div_pow2 by lia.
    assert (Hp : 0 < 2 ^ (- e)) by (apply Z.pow_pos_nonneg; lia).
    assert (Hq : 0 <= Zpos m / 2 ^ (- e) <= N).
    { split; [apply Z.div_pos; lia|]. apply Z.div_le_upper_bound; lia. }
    destruct sx; cbn [cond_Zopp]; lia.
Qed.

(** [int(n * x)] for a screen metric [n] and a fraction [x] of [0, 1]:
    it returns, and what it returns lies between 0 and [n]. *)
Lemma int_of_product_bound (n : Z) (x : spec_float) :
  is_c_int n -> Float.valid x = true -> in_unit x = true ->
  exists k, int_of_product n x = Ret k /\
            (0 <= n -> 0 <= k <= n) /\ (n <= 0 -> n <= k <= 0).
Proof.
  intros Hn Hv Hu. unfold is_c_int in Hn.
  assert (Habs : Z.abs n < 2 ^ 53) by (change (2 ^ 53) with 9007199254740992; lia).
  destruct (of_int_bound n Habs) as (fn & Hfn & Hb).
  assert (HN : 0 <= Z.abs n < 2 ^ 53) by lia.
  pose proof (mul_bound _ _ fn x HN Hb Hv Hu) as Hm.
  destruct (to_int_bound _ _ _ (proj1 HN) Hm) as (k & Hk & Hrange).
  exists k. split.
  - unfold int_of_product, Float.int_mul. rewrite Hfn. cbn [result_bind]. exact Hk.
  - destruct (n <? 0) eqn:Hneg.
    + apply Z.ltb_lt in Hneg. lia.
    + apply Z.ltb_ge in Hneg. lia.
Qed.

(** With a fraction of [0, 1] the target is a C [int], as the metric. *)
Lemma int_of_product_c_int (n : Z) (x : spec_float) :
  is_c_int n -> Float.valid x = true -> in_unit x = true ->
  exists k, int_of_product n x = Ret k /\ is_c_int k /\
            (0 <= n -> 0 <= k <= n) /\ (n <= 0 -> n <= k <= 0).
Proof.
  intros Hn Hv Hu. destruct (int_of_product_bound n x Hn Hv Hu) as (k & Hk & Hpos & Hneg).
  exists k. split; [exact Hk|]. split; [|split; assumption].
  unfold is_c_int in *. destruct (Z_le_gt_dec 0 n) as [H|H].
  - specialize (Hpos H). lia.
  - specialize (Hneg ltac:(lia)). lia.
Qed.

(** ** Worlds and traces *)

Lemma add_trace_add_trace (w : world) (a b : list io) :
  add_trace (add_trace w a) b = add_trace w (a ++ b).
Proof. unfold add_trace, set_trace. cbn. now rewrite <- app_assoc. Qed.

Lemma add_trace_set_cursor (w : world) (c : Z * Z) (a : list io) :
  add_trace (set_cursor w c) a = set_cursor (add_trace w a) c.
Proof. reflexivity. Qed.

Lemma add_trace_set_pending (w : world) (p : list (list event)) (a : list io) :
  add_trace (set_pending w p) a = set_pending (add_trace w a) p.
Proof. reflexivity. Qed.

Lemma set_cursor_set_cursor (w : world) (c d : Z * Z) :
  set_cursor (set_cursor w c) d = set_cursor w d.
Proof. reflexivity. Qed.

Lemma add_trace_nil (w : world) : add_trace w [] = w.
Proof. destruct w. unfold add_trace, set_trace. cbn. now rewrite app_nil_r. Qed.

(** ** Messages that [LogRedirect.write] leaves as they are *)

Lemma rstrip_cons (c : ascii) (s : string) :
  Str.rstrip (String c s)
  = if Str.isspace c && Str.is_empty (Str.rstrip s) then EmptyString
    else String c (Str.rstrip s).
Proof. reflexivity. Qed.

Lemma append_cons (c : ascii) (a b : string) :
  String c a ++ b = String c (a ++ b).
Proof. reflexivity. Qed.

Lemma append_empty_l (b : string) : EmptyString ++ b = b.
Proof. reflexivity. Qed.

Lemma kept_right_app (a b : string) : kept_right b -> kept_right (a ++ b).
Proof.
  intros [Hb Hne]. induction a as [|c a [IH1 IH2]].
  - rewrite append_empty_l. split; assumption.
  - rewrite append_cons. split; [|reflexivity].
    rewrite rstrip_cons, IH1, IH2, andb_false_r. reflexivity.
Qed.

Lemma kept_right_char (c : ascii) : Str.isspace c = false -> kept_right (String c EmptyString).
Proof.
  intros H. split; [|reflexivity]. rewrite rstrip_cons, H. reflexivity.
Qed.

Lemma print_kept (msg : string) (c : ascii) (rest : string) (w : world) :
  msg = String c rest -> Str.isspace c = false -> kept_right msg ->
  print msg w = (Done (Ret tt), add_trace w [Log INFO msg]).
Proof.
  intros Hm Hc [Hr Hne]. unfold print, bind, LogRedirect_write, Str.strip.
  assert (Hl : Str.lstrip msg = msg) by (subst msg; cbn [Str.lstrip]; now rewrite Hc).
  rewrite Hl, Hr, Hne. reflexivity.
Qed.

Ltac kept_right_tac :=
  repeat (apply kept_right_app); apply kept_right_char; reflexivity.

Lemma print_initial_position (w : world) :
  print ("Mouse moved to initial position: (" ++ Str.of_Z 0 ++ ", " ++ Str.of_Z 0 ++ ")") w
  = (Done (Ret tt), add_trace w [Log INFO "Mouse moved to initial position: (0, 0)"]).
Proof. reflexivity. Qed.

Lemma print_second_position (x y : Z) (w : world) :
  print ("Mouse moved to second position: (" ++ Str.of_Z x ++ ", " ++ Str.of_Z y ++ ")") w
  = (Done (Ret tt),
     add_trace w [Log INFO ("Mouse moved to second position: (" ++ Str.of_Z x ++ ", "
                            ++ Str.of_Z y ++ ")")]).
Proof.
  eapply print_kept; [reflexivity|reflexivity|kept_right_tac].
Qed.

Lemma print_button_released (b : Z) (w : world) :
  print ("Button " ++ Str.of_Z b ++ " released!") w
  = (Done (Ret tt), add_trace w [Log INFO ("Button " ++ Str.of_Z b ++ " released!")]).
Proof.
  eapply print_kept; [reflexivity|reflexivity|].
  change ("Button " ++ Str.of_Z b ++ " released!")
    with ("Button " ++ Str.of_Z b ++ " released" ++ "!").
  kept_right_tac.
Qed.

(** ** [center_mouse] *)

Lemma fits_c_int_spec (n : Z) : fits_c_int n = true <-> is_c_int n.
Proof. unfold fits_c_int, is_c_int. rewrite andb_true_iff, !Z.leb_le. tauto. Qed.

Lemma win32api_SetCursorPos_run (x y : Z) (w : world) :
  is_c_int x -> is_c_int y ->
  win32api_SetCursorPos x y w
  = (Done (Ret tt), set_cursor (add_trace w [SetCursorPos x y]) (x, y)).
Proof.
  intros Hx Hy. unfold win32api_SetCursorPos.
  rewrite (proj2 (fits_c_int_spec x) Hx), (proj2 (fits_c_int_spec y) Hy). reflexivity.
Qed.

Lemma center_mouse_run (fx fy : spec_float) (w : world) (x y : Z) :
  int_of_product (screen_width w) fx = Ret x ->
  int_of_product (screen_height w) fy = Ret y ->
  is_c_int x -> is_c_int y ->
  center_mouse fx fy w
  = (Done (Ret tt), set_cursor (add_trace w (center_mouse_calls x y)) (x, y)).
Proof.
  intros Hx Hy Hcx Hcy. unfold center_mouse.
  unfold bind at 1. cbn [GetSystemMetrics_CXSCREEN].
  unfold bind at 1. cbn [GetSystemMetrics_CYSCREEN].
  unfold bind at 1. unfold lift at 1. rewrite Hx.
  unfold bind at 1. unfold lift at 1. rewrite Hy.
  unfold bind at 1. rewrite win32api_SetCursorPos_run by (unfold is_c_int; lia).
  unfold bind at 1. rewrite print_initial_position.
  unfold bind at 1. unfold time_sleep, emit.
  unfold bind at 1. rewrite win32api_SetCursorPos_run by assumption.
  rewrite print_second_position.
  rewrite ?add_trace_set_cursor, ?add_trace_add_trace, ?set_cursor_set_cursor.
  rewrite ?add_trace_set_cursor, ?add_trace_add_trace, ?set_cursor_set_cursor.
  reflexivity.
Qed.

Lemma to_int_truncates (x : spec_float) (k : Z) :
  Float.to_int x = Ret k -> truncates x k.
Proof.
  destruct x as [s|s| |s m e]; cbn [Float.to_int truncates]; intros H;
    try discriminate; injection H as <-; [reflexivity|].
  assert (Hv : 0 <= Z.shiftl (Zpos m) e /\
               Z.shiftl (Zpos m) e * 2 ^ Z.max 0 (- e) <= Zpos m * 2 ^ Z.max 0 e
                 < (Z.shiftl (Zpos m) e + 1) * 2 ^ Z.max 0 (- e)).
  { destruct (Z_le_gt_dec 0 e) as [He|He].
    - rewrite Z.shiftl_mul_pow2 by lia.
      replace (Z.max 0 (- e)) with 0 by lia. replace (Z.max 0 e) with e by lia.
      assert (0 < 2 ^ e) by (apply Z.pow_pos_nonneg; lia).
      rewrite Z.pow_0_r. nia.
    - rewrite Z.shiftl_div_pow2 by lia.
      replace (Z.max 0 (- e)) with (- e) by lia. replace (Z.max 0 e) with 0 by lia.
      assert (Hp : 0 < 2 ^ (- e)) by (apply Z.pow_pos_nonneg; lia).
      rewrite Z.pow_0_r.
      pose proof (Z.div_mod (Zpos m) (2 ^ (- e)) ltac:(lia)) as Hdm.
      pose proof (Z.mod_pos_bound (Zpos m) (2 ^ (- e)) Hp) as Hmb.
      assert (0 <= Zpos m / 2 ^ (- e)) by (apply Z.div_pos; lia).
      nia. }
  destruct Hv as [Hnn Hv].
  destruct s; cbn [cond_Zopp].
  - split; [lia|]. rewrite Z.abs_opp, Z.abs_eq by lia. exact Hv.
  - split; [lia|]. rewrite Z.abs_eq by lia. exact Hv.
Qed.

(** ** Claims about [center_mouse] *)

(** C1, as the specification words it, fails: on a 1366 x 768 screen with
    the fractions 0.625 and 0.5, both in [0, 1], the rounded target is
    (854, 384) while [center_mouse] leaves the cursor at (853, 384). *)
Lemma center_mouse_target_not_rounded :
  in_unit Demo.five_eighths = true /\ in_unit Demo.half = true /\
  rounded_target 1366 768 Demo.five_eighths Demo.half = Ret (854, 384) /\
  cursor (snd (center_mouse Demo.five_eighths Demo.half (Demo.boot None [] [])))
  = (853, 384) /\
  rounded_target 1366 768 Demo.five_eighths Demo.half
  <> Ret (cursor (snd (center_mouse Demo.five_eighths Demo.half (Demo.boot None [] [])))).
Proof.
  repeat split; try (vm_compute; reflexivity).
  vm_compute. discriminate.
Qed.

(** C1, amended: for fractions of [0, 1] and any screen metrics,
    [center_mouse] returns and leaves the cursor at the products
    [width * fracX] and [height * fracY], computed in binary64, each
    truncated toward zero (Python's [int]), not rounded. *)
Theorem center_mouse_target_truncated (fx fy : spec_float) (w : world) :
  Float.valid fx = true -> Float.valid fy = true ->
  in_unit fx = true -> in_unit fy = true ->
  is_c_int (screen_width w) -> is_c_int (screen_height w) ->
  exists px py x y,
    Float.int_mul (screen_width w) fx = Ret px /\
    Float.int_mul (screen_height w) fy = Ret py /\
    truncates px x /\ truncates py y /\
    fst (center_mouse fx fy w) = Done (Ret tt) /\
    cursor (snd (center_mouse fx fy w)) = (x, y) /\
    last (trace (snd (center_mouse fx fy w)))
    = Some (Log INFO ("Mouse moved to second position: (" ++ Str.of_Z x ++ ", "
                      ++ Str.of_Z y ++ ")")) /\
    In (SetCursorPos x y) (trace (snd (center_mouse fx fy w))).
Proof.
  intros Hvx Hvy Hux Huy Hw Hh.
  destruct (int_of_product_c_int _ _ Hw Hvx Hux) as (x & Hx & Hcx & _).
  destruct (int_of_product_c_int _ _ Hh Hvy Huy) as (y & Hy & Hcy & _).
  rewrite (center_mouse_run fx fy w x y Hx Hy Hcx Hcy).
  unfold int_of_product in Hx, Hy.
  destruct (Float.int_mul (screen_width w) fx) as [px|] eqn:Hpx; [|discriminate].
  destruct (Float.int_mul (screen_height w) fy) as [py|] eqn:Hpy; [|discriminate].
  cbn [result_bind] in Hx, Hy.
  exists px, py, x, y. repeat split; try reflexivity.
  - now apply to_int_truncates.
  - now apply to_int_truncates.
  - cbn [snd set_cursor add_trace set_trace trace center_mouse_calls].
    rewrite last_app. reflexivity.
  - cbn [snd set_cursor add_trace set_trace trace center_mouse_calls].
    apply in_or_app. right. cbn. auto.
Qed.

Lemma center_mouse_target_truncated_witness :
  exists px py x y,
    Float.int_mul 1366 Demo.five_eighths = Ret px /\
    Float.int_mul 768 Demo.half = Ret py /\
    truncates px x /\ truncates py y /\
    fst (center_mouse Demo.five_eighths Demo.half (Demo.boot None [] [])) = Done (Ret tt) /\
    cursor (snd (center_mouse Demo.five_eighths Demo.half (Demo.boot None [] []))) = (x, y) /\
    last (trace (snd (center_mouse Demo.five_eighths Demo.half (Demo.boot None [] []))))
    = Some (Log INFO ("Mouse moved to second position: (" ++ Str.of_Z x ++ ", "
                      ++ Str.of_Z y ++ ")")) /\
    In (SetCursorPos x y)
       (trace (snd (center_mouse Demo.five_eighths Demo.half (Demo.boot None [] [])))).
Proof.
  apply (center_mouse_target_truncated Demo.five_eighths Demo.half (Demo.boot None [] []));
    try reflexivity; unfold is_c_int; cbn; lia.
Defined.

(** C4: every invocation of [center_mouse] with fractions of [0, 1]
    moves the cursor to (0, 0) first, whatever the cursor's position and
    whatever the target, then pauses 50 ms, and only then moves it to the
    target: these are its calls, in this order, and no others. *)
Theorem center_mouse_origin_first (fx fy : spec_float) (w : world) :
  Float.valid fx = true -> Float.valid fy = true ->
  in_unit fx = true -> in_unit fy = true ->
  is_c_int (screen_width w) -> is_c_int (screen_height w) ->
  exists x y,
    int_of_product (screen_width w) fx = Ret x /\
    int_of_product (screen_height w) fy = Ret y /\
    fst (center_mouse fx fy w) = Done (Ret tt) /\
    trace (snd (center_mouse fx fy w))
    = (trace w ++
       [ SetCursorPos 0 0;
         Log INFO "Mouse moved to initial position: (0, 0)";
         Sleep 50;
         SetCursorPos x y;
         Log INFO ("Mouse moved to second position: (" ++ Str.of_Z x ++ ", "
                   ++ Str.of_Z y ++ ")") ])%list /\
    (cursor w = (x, y) ->
     In (SetCursorPos 0 0) (trace (snd (center_mouse fx fy w)))).
Proof.
  intros Hvx Hvy Hux Huy Hw Hh.
  destruct (int_of_product_c_int _ _ Hw Hvx Hux) as (x & Hx & Hcx & _).
  destruct (int_of_product_c_int _ _ Hh Hvy Huy) as (y & Hy & Hcy & _).
  exists x, y. rewrite (center_mouse_run fx fy w x y Hx Hy Hcx Hcy).
  repeat split; try assumption.
  intros _. cbn [snd set_cursor add_trace set_trace trace center_mouse_calls].
  apply in_or_app. right. left. reflexivity.
Qed.

Lemma center_mouse_origin_first_witness :
  exists x y,
    int_of_product 1366 Demo.five_eighths = Ret x /\
    int_of_product 768 Demo.half = Ret y /\
    fst (center_mouse Demo.five_eighths Demo.half (Demo.boot None [] [])) = Done (Ret tt) /\
    trace (snd (center_mouse Demo.five_eighths Demo.half (Demo.boot None [] [])))
    = ([] ++
       [ SetCursorPos 0 0;
         Log INFO "Mouse moved to initial position: (0, 0)";
         Sleep 50;
         SetCursorPos x y;
         Log INFO ("Mouse moved to second position: (" ++ Str.of_Z x ++ ", "
                   ++ Str.of_Z y ++ ")") ])%list /\
    ((100, 100) = (x, y) ->
     In (SetCursorPos 0 0)
        (trace (snd (center_mouse Demo.five_eighths Demo.half (Demo.boot None [] []))))).
Proof.
  apply (center_mouse_origin_first Demo.five_eighths Demo.half (Demo.boot None [] []));
    try reflexivity; unfold is_c_int; cbn; lia.
Defined.

(** C10: for fractions of [0, 1] and non-negative screen metrics, the
    target [center_mouse] moves the cursor to satisfies
    [0 <= second_x <= width] and [0 <= second_y <= height]. *)
Theorem center_mouse_target_on_screen (fx fy : spec_float) (w : world) :
  Float.valid fx = true -> Float.valid fy = true ->
  in_unit fx = true -> in_unit fy = true ->
  is_c_int (screen_width w) -> is_c_int (screen_height w) ->
  0 <= screen_width w -> 0 <= screen_height w ->
  exists second_x second_y,
    int_of_product (screen_width w) fx = Ret second_x /\
    int_of_product (screen_height w) fy = Ret second_y /\
    center_mouse fx fy w
    = (Done (Ret tt),
       set_cursor (add_trace w (center_mouse_calls second_x second_y))
                  (second_x, second_y)) /\
    0 <= second_x <= screen_width w /\
    0 <= second_y <= screen_height w.
Proof.
  intros Hvx Hvy Hux Huy Hw Hh Hw0 Hh0.
  destruct (int_of_product_c_int _ _ Hw Hvx Hux) as (x & Hx & Hcx & Hxr & _).
  destruct (int_of_product_c_int _ _ Hh Hvy Huy) as (y & Hy & Hcy & Hyr & _).
  exists x, y. rewrite (center_mouse_run fx fy w x y Hx Hy Hcx Hcy).
  repeat split; try assumption; try (apply Hxr; assumption); apply Hyr; assumption.
Qed.

Lemma center_mouse_target_on_screen_witness :
  exists second_x second_y,
    int_of_product 1366 Demo.five_eighths = Ret second_x /\
    int_of_product 768 Demo.half = Ret second_y /\
    center_mouse Demo.five_eighths Demo.half (Demo.boot None [] [])
    = (Done (Ret tt),
       set_cursor (add_trace (Demo.boot None [] [])
                     (center_mouse_calls second_x second_y))
                  (second_x, second_y)) /\
    0 <= second_x <= 1366 /\
    0 <= second_y <= 768.
Proof.
  apply (center_mouse_target_on_screen Demo.five_eighths Demo.half (Demo.boot None [] []));
    try reflexivity; unfold is_c_int; cbn; lia.
Defined.

(** ** Claims about [validate_config] *)

Lemma list_getitem_in_range {A} (l : list A) (i : Z) :
  - Z.of_nat (length l) <= i < Z.of_nat (length l) ->
  exists a, list_getitem l i = Ret a /\
            l !! Z.to_nat (if i <? 0 then i + Z.of_nat (length l) else i) = Some a.
Proof.
  intros Hi. unfold list_getitem.
  set (j := if i <? 0 then i + Z.of_nat (length l) else i).
  assert (Hj : 0 <= j < Z.of_nat (length l)).
  { subst j. destruct (i <? 0) eqn:E; [apply Z.ltb_lt in E|apply Z.ltb_ge in E]; lia. }
  replace (j <? 0) with false by (symmetry; apply Z.ltb_ge; lia).
  destruct (l !! Z.to_nat j) as [a|] eqn:El.
  - exists a. split; reflexivity.
  - apply lookup_ge_None in El. lia.
Qed.

Lemma list_getitem_below {A} (l : list A) (i : Z) :
  i < - Z.of_nat (length l) ->
  list_getitem l i = Raise (IndexError "list index out of range").
Proof.
  intros Hi. unfold list_getitem.
  replace (i <? 0) with true by (symmetry; apply Z.ltb_lt; lia).
  replace (i + Z.of_nat (length l) <? 0) with true by (symmetry; apply Z.ltb_lt; lia).
  reflexivity.
Qed.




(** C9, as stated, fails: with two devices enumerated, the device index
    -3 is negative and passes the upper-bound check, yet validation does
    not succeed: the list access raises [IndexError] and the process ends
    with status 1.  The same happens for -1 with no device. *)
Lemma validate_config_negative_device_raises :
  device (Demo.settings (-3) 0) < 0 /\
  (device (Demo.settings (-3) 0) >=? 2) = false /\
  validate_config (Demo.settings (-3) 0) [Demo.stick_info; Demo.throttle_info]
    (Demo.boot None [] [])
  = (Done (Raise (IndexError "list index out of range")), Demo.boot None [] []) /\
  validate_config (Demo.settings (-1) 0) [] (Demo.boot None [] [])
  = (Done (Raise (IndexError "list index out of range")), Demo.boot None [] []) /\
  exit_status (fst (validate_config (Demo.settings (-3) 0)
                      [Demo.stick_info; Demo.throttle_info] (Demo.boot None [] [])))
  = Some 1 /\
  fst (validate_config (Demo.settings (-3) 0)
         [Demo.stick_info; Demo.throttle_info] (Demo.boot None [] []))
  <> Done (Ret tt).
Proof. repeat split; try reflexivity. vm_compute. discriminate. Qed.

(** C9, amended: [validate_config] checks upper bounds only.  A device
    index [d] with [-len <= d < len] selects a device (a negative one
    selects [devices_info[len + d]], as Python indexes lists), and with a
    button index below that device's button count, so with every negative
    button index, validation returns without logging or exiting. *)
Theorem validate_config_accepts_negative (settings : Settings)
    (devices_info : list DeviceInfo) (w : world) :
  - Z.of_nat (length devices_info) <= device settings
    < Z.of_nat (length devices_info) ->
  exists joystick_info,
    list_getitem devices_info (device settings) = Ret joystick_info /\
    (device settings < 0 ->
     devices_info !! Z.to_nat (device settings + Z.of_nat (length devices_info))
     = Some joystick_info) /\
    (button settings < buttons joystick_info ->
     validate_config settings devices_info w = (Done (Ret tt), w)) /\
    (button settings < 0 -> 0 <= buttons joystick_info ->
     validate_config settings devices_info w = (Done (Ret tt), w)).
Proof.
  intros Hd. destruct (list_getitem_in_range devices_info _ Hd) as (info & Hget & Hnth).
  exists info. split; [assumption|].
  assert (Hok : button settings < buttons info ->
                validate_config settings devices_info w = (Done (Ret tt), w)).
  { intros Hb. unfold validate_config. unfold bind at 1.
    replace (device settings >=? Z.of_nat (length devices_info)) with false
      by (symmetry; rewrite Z.geb_leb; apply Z.leb_gt; lia).
    cbn [ret]. unfold bind at 1, lift. rewrite Hget.
    replace (button settings >=? buttons info) with false
      by (symmetry; rewrite Z.geb_leb; apply Z.leb_gt; lia).
    reflexivity. }
  repeat split.
  - intros Hneg. replace (device settings <? 0) with true in Hnth
      by (symmetry; apply Z.ltb_lt; lia). exact Hnth.
  - exact Hok.
  - intros Hb Hn. apply Hok. lia.
Qed.

Lemma validate_config_accepts_negative_witness :
  exists joystick_info,
    list_getitem [Demo.stick_info; Demo.throttle_info] (-1) = Ret joystick_info /\
    (-1 < 0 ->
     [Demo.stick_info; Demo.throttle_info] !! Z.to_nat (-1 + 2) = Some joystick_info) /\
    (-4 < buttons joystick_info ->
     validate_config (Demo.settings (-1) (-4)) [Demo.stick_info; Demo.throttle_info]
       (Demo.boot None [] [])
     = (Done (Ret tt), Demo.boot None [] [])) /\
    (-4 < 0 -> 0 <= buttons joystick_info ->
     validate_config (Demo.settings (-1) (-4)) [Demo.stick_info; Demo.throttle_info]
       (Demo.boot None [] [])
     = (Done (Ret tt), Demo.boot None [] [])).
Proof.
  apply (validate_config_accepts_negative (Demo.settings (-1) (-4))
           [Demo.stick_info; Demo.throttle_info] (Demo.boot None [] [])).
  cbn. lia.
Defined.

(** ** The event loop *)

Lemma polls_app (a b : list io) : polls (a ++ b) = (polls a + polls b)%nat.
Proof.
  induction a as [|e a IH]; [reflexivity|].
  destruct e; cbn [polls app]; rewrite ?IH; reflexivity.
Qed.

Lemma same_setup_refl (w : world) : same_setup w w.
Proof. repeat split. Qed.

Lemma same_setup_trans (w1 w2 w3 : world) :
  same_setup w1 w2 -> same_setup w2 w3 -> same_setup w1 w3.
Proof. unfold same_setup. intuition congruence. Qed.

Lemma screen_ok_same_setup (w w' : world) :
  same_setup w w' -> screen_ok w -> screen_ok w'.
Proof. unfold same_setup, screen_ok. intros (_ & _ & -> & ->). auto. Qed.

Lemma handle_event_other_button (settings : Settings) (joy b : Z) (w : world) :
  b <> button settings ->
  handle_event settings (JOYBUTTONUP joy b) w = (Done (Ret tt), w).
Proof.
  intros Hb. unfold handle_event, bind.
  replace (b =? button settings) with false by (symmetry; apply Z.eqb_neq; exact Hb).
  reflexivity.
Qed.

Lemma print_quit (w : world) :
  print "Quit event received." w
  = (Done (Ret tt), add_trace w [Log INFO "Quit event received."]).
Proof. reflexivity. Qed.

Lemma handle_event_quit (settings : Settings) (w : world) :
  handle_event settings QUIT w = (Done (Ret tt), add_trace w quit_records).
Proof.
  unfold handle_event. unfold bind at 1. cbn [ret].
  unfold bind at 1. unfold logging_info, logging_log, emit.
  rewrite print_quit, add_trace_add_trace. reflexivity.
Qed.

(** Whatever the event, handling it returns; it extends the trace by
    calls that are not polls, and by [quit_records] for a quit event. *)
Lemma handle_event_run (settings : Settings) (ev : event) (w : world) :
  settings_ok settings -> screen_ok w ->
  exists w' l,
    handle_event settings ev w = (Done (Ret tt), w') /\
    same_setup w w' /\ pending w' = pending w /\
    trace w' = (trace w ++ l)%list /\ polls l = O /\
    (ev = QUIT -> l = quit_records).
Proof.
  intros (Hvx & Hvy & Hux & Huy) [Hw Hh].
  destruct ev as [joy b| |ty].
  - destruct (Z.eq_dec b (button settings)) as [Heq|Hne].
    + destruct (int_of_product_c_int _ _ Hw Hvx Hux) as (x & Hx & Hcx & _).
      destruct (int_of_product_c_int _ _ Hh Hvy Huy) as (y & Hy & Hcy & _).
      unfold handle_event.
      replace (b =? button settings) with true by (symmetry; apply Z.eqb_eq; exact Heq).
      unfold bind at 1. unfold bind at 1. unfold logging_info, logging_log, emit.
      unfold bind at 1. rewrite print_button_released.
      rewrite (center_mouse_run _ _ _ x y) by assumption.
      cbn [ret]. rewrite add_trace_add_trace, add_trace_add_trace.
      eexists. eexists. split; [reflexivity|].
      repeat split; try reflexivity. intros; discriminate.
    + rewrite handle_event_other_button by assumption.
      exists w, []. rewrite app_nil_r.
      repeat split; try reflexivity. intros; discriminate.
  - rewrite handle_event_quit. exists (add_trace w quit_records), quit_records.
    repeat split; reflexivity.
  - exists w, []. rewrite app_nil_r.
    repeat split; try reflexivity. intros; discriminate.
Qed.

Lemma for_each_handle_event_run (settings : Settings) (batch : list event) (w : world) :
  settings_ok settings -> screen_ok w ->
  exists w' l,
    for_each batch (handle_event settings) w = (Done (Ret tt), w') /\
    same_setup w w' /\ pending w' = pending w /\
    trace w' = (trace w ++ l)%list /\ polls l = O /\
    (In QUIT batch -> In (Log INFO "Quit event received.") l).
Proof.
  intros Hs. revert w. induction batch as [|ev batch IH]; intros w Hw.
  - exists w, []. rewrite app_nil_r. repeat split; try reflexivity. intros [].
  - destruct (handle_event_run settings ev w Hs Hw)
      as (w1 & l1 & Hrun & Hsame & Hpend & Htr & Hp & Hq).
    destruct (IH w1 (screen_ok_same_setup _ _ Hsame Hw))
      as (w2 & l2 & Hrun2 & Hsame2 & Hpend2 & Htr2 & Hp2 & Hq2).
    exists w2, (l1 ++ l2)%list.
    cbn [for_each]. unfold bind. rewrite Hrun, Hrun2.
    split; [reflexivity|]. split; [eapply same_setup_trans; eassumption|].
    split; [congruence|]. split; [rewrite Htr2, Htr, app_assoc; reflexivity|].
    split; [rewrite polls_app, Hp, Hp2; reflexivity|].
    intros [Hin|Hin]; apply in_or_app.
    + left. rewrite (Hq Hin). left. reflexivity.
    + right. apply Hq2, Hin.
Qed.

(** One turn of the loop returns, having polled once; the head of the
    pending batches is consumed. *)
Lemma poll_once_run (settings : Settings) (w : world) :
  settings_ok settings -> screen_ok w ->
  exists w' l,
    poll_once settings w = (Done (Ret tt), w') /\
    same_setup w w' /\ pending w' = tail (pending w) /\
    trace w' = (trace w ++ l)%list /\ polls l = 1%nat /\
    (In QUIT (hd [] (pending w)) -> In (Log INFO "Quit event received.") l).
Proof.
  intros Hs Hw. unfold poll_once.
  unfold bind at 1. unfold pygame_event_pump, emit.
  unfold bind at 1. unfold pygame_event_get. unfold bind at 1. unfold emit.
  set (w0 := add_trace (add_trace w [EventPump]) [EventGet]).
  assert (Hw0 : same_setup w w0) by (repeat split).
  destruct (pending w0) as [|batch rest] eqn:Hp.
  - change (pending w = []) in Hp. rewrite Hp. cbn [hd tail].
    unfold bind at 1. cbn [for_each ret]. unfold time_sleep, emit.
    subst w0. rewrite !add_trace_add_trace.
    eexists. eexists. split; [reflexivity|].
    repeat split; try reflexivity; try assumption. intros [].
  - change (pending w = batch :: rest) in Hp. rewrite Hp. cbn [hd tail].
    assert (Hw1 : screen_ok (set_pending w0 rest)) by exact Hw.
    destruct (for_each_handle_event_run settings batch _ Hs Hw1)
      as (w2 & l2 & Hrun & Hsame & Hpend & Htr & Hpl & Hq).
    unfold bind at 1. rewrite Hrun. unfold time_sleep, emit.
    exists (add_trace w2 [Sleep 100]), ([EventPump; EventGet] ++ l2 ++ [Sleep 100])%list.
    split; [reflexivity|].
    split; [eapply same_setup_trans; [exact Hw0|]; eapply same_setup_trans; [|exact Hsame]; repeat split|].
    split; [exact Hpend|].
    split.
    { cbn [add_trace set_trace trace]. rewrite Htr. subst w0.
      cbn [set_pending add_trace set_trace trace].
      rewrite <- !app_assoc. reflexivity. }
    split.
    { rewrite !polls_app, Hpl. reflexivity. }
    intros Hin. apply in_or_app. right. apply in_or_app. left. apply Hq, Hin.
Qed.

Lemma event_loop_run (settings : Settings) (n : nat) (w : world) :
  settings_ok settings -> screen_ok w ->
  fst (event_loop n settings w) = Looping /\
  polls (trace (snd (event_loop n settings w))) = (polls (trace w) + n)%nat.
Proof.
  intros Hs. revert w. induction n as [|n IH]; intros w Hw.
  - cbn. split; [reflexivity|lia].
  - destruct (poll_once_run settings w Hs Hw)
      as (w1 & l & Hrun & Hsame & _ & Htr & Hp & _).
    unfold event_loop. cbn [while_True]. unfold bind. rewrite Hrun.
    destruct (IH w1 (screen_ok_same_setup _ _ Hsame Hw)) as [Hl Hn].
    unfold event_loop in Hl, Hn.
    destruct (while_True n (poll_once settings) w1) as [o w2].
    cbn [fst snd] in *. subst o. cbn [fst snd].
    split; [reflexivity|]. rewrite Hn, Htr, polls_app, Hp. lia.
Qed.

Lemma for_each_other_buttons (settings : Settings) (batch : list event) (w : world) :
  Forall (fun ev => exists joy b, ev = JOYBUTTONUP joy b /\ b <> button settings) batch ->
  for_each batch (handle_event settings) w = (Done (Ret tt), w).
Proof.
  induction 1 as [|ev batch (joy & b & -> & Hb) _ IH]; [reflexivity|].
  cbn [for_each]. unfold bind. rewrite handle_event_other_button by assumption.
  exact IH.
Qed.

(** C6: the release of a button other than the configured one changes
    nothing: no cursor call, no log record.  A turn of the loop that
    receives only such releases makes its routine calls (pump, get,
    sleep) and no other. *)
Theorem other_button_release_ignored (settings : Settings) (w : world)
    (batch : list event) (rest : list (list event)) :
  Forall (fun ev => exists joy b, ev = JOYBUTTONUP joy b /\ b <> button settings) batch ->
  (forall ev w', In ev batch -> handle_event settings ev w' = (Done (Ret tt), w')) /\
  (pending w = batch :: rest ->
   poll_once settings w
   = (Done (Ret tt),
      set_pending (add_trace w [EventPump; EventGet; Sleep 100]) rest)).
Proof.
  intros Hall. split.
  - intros ev w' Hin. rewrite Forall_forall in Hall.
    destruct (Hall ev) as (joy & b & -> & Hb).
    + apply list_elem_of_In, Hin.
    + now apply handle_event_other_button.
  - intros Hp. unfold poll_once.
    unfold bind at 1. unfold pygame_event_pump, emit.
    unfold bind at 1. unfold pygame_event_get. unfold bind at 1. unfold emit.
    change (pending (add_trace (add_trace w [EventPump]) [EventGet])) with (pending w).
    rewrite Hp. unfold bind at 1. rewrite for_each_other_buttons by assumption.
    unfold time_sleep, emit.
    rewrite add_trace_set_pending, !add_trace_add_trace. reflexivity.
Qed.

Lemma other_button_release_ignored_witness :
  (forall ev w', In ev [JOYBUTTONUP 0 1; JOYBUTTONUP 1 7] ->
                 handle_event (Demo.settings 0 2) ev w' = (Done (Ret tt), w')) /\
  (pending (Demo.boot None [Demo.stick] [[JOYBUTTONUP 0 1; JOYBUTTONUP 1 7]; [QUIT]])
   = [JOYBUTTONUP 0 1; JOYBUTTONUP 1 7] :: [[QUIT]] ->
   poll_once (Demo.settings 0 2)
     (Demo.boot None [Demo.stick] [[JOYBUTTONUP 0 1; JOYBUTTONUP 1 7]; [QUIT]])
   = (Done (Ret tt),
      set_pending
        (add_trace
           (Demo.boot None [Demo.stick] [[JOYBUTTONUP 0 1; JOYBUTTONUP 1 7]; [QUIT]])
           [EventPump; EventGet; Sleep 100])
        [[QUIT]])).
Proof.
  apply (other_button_release_ignored (Demo.settings 0 2)
           (Demo.boot None [Demo.stick] [[JOYBUTTONUP 0 1; JOYBUTTONUP 1 7]; [QUIT]])
           [JOYBUTTONUP 0 1; JOYBUTTONUP 1 7] [[QUIT]]).
  repeat constructor.
  - exists 0, 1. split; [reflexivity|]. cbn. lia.
  - exists 1, 7. split; [reflexivity|]. cbn. lia.
Defined.

(** C7: a quit event is logged and nothing else is done about it: the
    turn of the loop that receives it returns, the loop goes on with the
    next turn, and after any number [n] of further turns it is still
    looping, having polled [n] more times. *)
Theorem quit_event_does_not_stop_loop (settings : Settings) (w : world) (n : nat) :
  settings_ok settings -> screen_ok w ->
  In QUIT (hd [] (pending w)) ->
  handle_event settings QUIT w = (Done (Ret tt), add_trace w quit_records) /\
  exists w1 l,
    poll_once settings w = (Done (Ret tt), w1) /\
    trace w1 = (trace w ++ l)%list /\
    In (Log INFO "Quit event received.") l /\
    event_loop (S n) settings w = event_loop n settings w1 /\
    fst (event_loop n settings w1) = Looping /\
    polls (trace (snd (event_loop n settings w1))) = (polls (trace w1) + n)%nat.
Proof.
  intros Hs Hw Hq. split; [apply handle_event_quit|].
  destruct (poll_once_run settings w Hs Hw)
    as (w1 & l & Hrun & Hsame & _ & Htr & _ & Hlog).
  exists w1, l.
  destruct (event_loop_run settings n w1 Hs (screen_ok_same_setup _ _ Hsame Hw))
    as [Hloop Hpolls].
  repeat split; try assumption.
  - apply Hlog, Hq.
  - unfold event_loop. cbn [while_True]. unfold bind. rewrite Hrun. reflexivity.
Qed.

Lemma demo_settings_ok (dev btn : Z) : settings_ok (Demo.settings dev btn).
Proof. repeat split. Defined.

Lemma demo_screen_ok cfg sticks events : screen_ok (Demo.boot cfg sticks events).
Proof. split; unfold is_c_int; cbn; lia. Defined.

Lemma quit_event_does_not_stop_loop_witness :
  handle_event (Demo.settings 0 2) QUIT
    (Demo.boot None [Demo.stick] [[QUIT]; [JOYBUTTONUP 0 2]])
  = (Done (Ret tt),
     add_trace (Demo.boot None [Demo.stick] [[QUIT]; [JOYBUTTONUP 0 2]]) quit_records) /\
  exists w1 l,
    poll_once (Demo.settings 0 2)
      (Demo.boot None [Demo.stick] [[QUIT]; [JOYBUTTONUP 0 2]])
    = (Done (Ret tt), w1) /\
    trace w1 = ([] ++ l)%list /\
    In (Log INFO "Quit event received.") l /\
    event_loop 3 (Demo.settings 0 2)
      (Demo.boot None [Demo.stick] [[QUIT]; [JOYBUTTONUP 0 2]])
    = event_loop 2 (Demo.settings 0 2) w1 /\
    fst (event_loop 2 (Demo.settings 0 2) w1) = Looping /\
    polls (trace (snd (event_loop 2 (Demo.settings 0 2) w1)))
    = (polls (trace w1) + 2)%nat.
Proof.
  apply (quit_event_does_not_stop_loop (Demo.settings 0 2)
           (Demo.boot None [Demo.stick] [[QUIT]; [JOYBUTTONUP 0 2]]) 2).
  - apply demo_settings_ok.
  - apply demo_screen_ok.
  - left. reflexivity.
Defined.

(** ** [split] and [strip] *)

Lemma split_not_nil (sep : ascii) (s : string) : Str.split sep s <> [].
Proof.
  induction s as [|c s IH]; cbn [Str.split]; [discriminate|].
  destruct (Ascii.eqb c sep); [discriminate|].
  destruct (Str.split sep s); [contradiction|discriminate].
Qed.

Lemma item0_split (sep : ascii) (s : string) :
  exists first, Str.item0 (Str.split sep s) = Ret first.
Proof.
  pose proof (split_not_nil sep s) as H.
  destruct (Str.split sep s) as [|p ps]; [contradiction|].
  exists p. reflexivity.
Qed.

(** The first piece of [split] is the text before the first separator. *)
Lemma split_first (sep : ascii) (s : string) :
  exists pre ps rest,
    Str.split sep s = pre :: ps /\
    s = pre ++ rest /\
    ~ Str.has_char sep pre /\
    (rest = EmptyString \/ exists c, rest = String sep c).
Proof.
  induction s as [|c s (pre & ps & rest & Hsplit & Hs & Hno & Hrest)].
  - exists EmptyString, [], EmptyString. repeat split; auto.
  - cbn [Str.split]. destruct (Ascii.eqb_spec c sep) as [->|Hc].
    + exists EmptyString, (Str.split sep s), (String sep s).
      repeat split; eauto.
    + rewrite Hsplit. exists (String c pre), ps, rest.
      split; [reflexivity|]. split; [rewrite append_cons, <- Hs; reflexivity|].
      split; [|exact Hrest].
      unfold Str.has_char. cbn [list_ascii_of_string In].
      intros [Heq|Hin]; [congruence|contradiction].
Qed.

Lemma lstrip_spec (s : string) :
  exists lead,
    s = lead ++ Str.lstrip s /\ Str.all_space lead /\
    (forall c r, Str.lstrip s = String c r -> Str.isspace c = false).
Proof.
  induction s as [|c s (lead & Hs & Hlead & Hfirst)].
  - exists EmptyString. repeat split; [constructor|discriminate].
  - cbn [Str.lstrip]. destruct (Str.isspace c) eqn:Hc.
    + exists (String c lead). rewrite append_cons, <- Hs.
      repeat split; [|exact Hfirst].
      unfold Str.all_space. cbn [list_ascii_of_string]. constructor; assumption.
    + exists EmptyString. repeat split; [constructor|].
      intros c' r Heq. injection Heq as <- <-. exact Hc.
Qed.

Lemma append_empty_r (s : string) : s ++ EmptyString = s.
Proof. induction s as [|c s IH]; [reflexivity|]. now rewrite append_cons, IH. Qed.

Lemma is_empty_true (s : string) : Str.is_empty s = true -> s = EmptyString.
Proof. destruct s; [reflexivity|discriminate]. Qed.

Lemma rstrip_spec (s : string) :
  exists trail,
    s = Str.rstrip s ++ trail /\ Str.all_space trail /\
    (forall r c, Str.rstrip s = r ++ String c EmptyString -> Str.isspace c = false) /\
    (forall c r, Str.rstrip s = String c r -> exists r', s = String c r').
Proof.
  induction s as [|c s (trail & Hs & Htrail & Hlast & _)].
  - exists EmptyString. repeat split; try constructor.
    + intros [|] c; discriminate.
    + discriminate.
  - rewrite rstrip_cons.
    destruct (Str.isspace c && Str.is_empty (Str.rstrip s)) eqn:Hb.
    + apply andb_true_iff in Hb. destruct Hb as [Hc He].
      apply is_empty_true in He. rewrite He, append_empty_l in Hs. subst trail.
      exists (String c s). rewrite append_empty_l.
      repeat split.
      * unfold Str.all_space. cbn [list_ascii_of_string]. constructor; assumption.
      * intros [|] c'; discriminate.
      * discriminate.
    + exists trail. rewrite append_cons, <- Hs.
      repeat split; [exact Htrail| |].
      * intros r c' Heq. destruct r as [|c0 r].
        -- rewrite append_empty_l in Heq. injection Heq as <- He.
           rewrite He in Hb. cbn [Str.is_empty] in Hb.
           rewrite andb_true_r in Hb. exact Hb.
        -- rewrite append_cons in Heq. injection Heq as _ He.
           eapply Hlast. exact He.
      * intros c' r Heq. injection Heq as <- _. eauto.
Qed.

Lemma all_space_app (a b : string) :
  Str.all_space a -> Str.all_space b -> Str.all_space (a ++ b).
Proof.
  unfold Str.all_space. intros Ha Hb.
  induction a as [|c a IH]; [exact Hb|].
  rewrite append_cons. cbn [list_ascii_of_string] in *.
  inversion Ha; subst. constructor; auto.
Qed.

Lemma append_assoc (a b c : string) : (a ++ b) ++ c = a ++ (b ++ c).
Proof.
  induction a as [|x a IH]; [reflexivity|]. now rewrite !append_cons, IH.
Qed.

(** [strip] removes the spaces around a text, and only them. *)
Lemma strip_spec (s : string) :
  exists lead trail,
    s = lead ++ Str.strip s ++ trail /\
    Str.all_space lead /\ Str.all_space trail /\ no_outer_space (Str.strip s).
Proof.
  unfold Str.strip.
  destruct (lstrip_spec s) as (lead & Hs & Hlead & Hfirst).
  destruct (rstrip_spec (Str.lstrip s)) as (trail & Hl & Htrail & Hlast & Hkeep).
  exists lead, trail. split; [rewrite <- Hl; exact Hs|].
  split; [exact Hlead|]. split; [exact Htrail|].
  split; [|exact Hlast].
  intros c r Heq. destruct (Hkeep c r Heq) as [r' Hr']. eapply Hfirst. exact Hr'.
Qed.

(** ** [configparser]: the reading of a value *)

Lemma contains_has_char (c : ascii) (s : string) :
  Str.contains c s = true <-> Str.has_char c s.
Proof.
  unfold Str.has_char. induction s as [|c' s IH]; cbn [Str.contains list_ascii_of_string In].
  - split; [discriminate|tauto].
  - rewrite orb_true_iff, IH. split; (intros [H|H]; [left|right; exact H]).
    + now apply Ascii.eqb_eq.
    + now apply Ascii.eqb_eq.
Qed.

Lemma contains_false (c : ascii) (s : string) :
  ~ Str.has_char c s -> Str.contains c s = false.
Proof.
  intros H. destruct (Str.contains c s) eqn:E; [|reflexivity].
  contradiction H. now apply contains_has_char.
Qed.

(** A text without [%] is its own interpolation. *)
Lemma interpolate_scan_no_percent (deeper : string -> result string)
    (opt section rawval : string) (map : gmap string string) (v : string) :
  Str.contains "%" v = false ->
  interpolate_scan deeper opt section rawval map O v = Ret v.
Proof.
  induction v as [|c v IH]; [reflexivity|].
  cbn [Str.contains interpolate_scan]. intros H.
  apply orb_false_iff in H. destruct H as [Hc Hv].
  rewrite Hc. cbn [negb]. rewrite (IH Hv). reflexivity.
Qed.

Lemma before_get_no_percent (opt section : string) (map : gmap string string)
    (v : string) :
  Str.contains "%" v = false -> before_get opt section map v = Ret v.
Proof. intros H. unfold before_get. cbn [MAX_INTERPOLATION_DEPTH interpolate_some].
  now apply interpolate_scan_no_percent.
Qed.

(** The interpolation raises nothing but its own errors. *)
Lemma interpolate_scan_raises (deeper : string -> result string)
    (opt section rawval : string) (map : gmap string string) :
  (forall v e, deeper v = Raise e -> exists ie, e = InterpolationError ie) ->
  forall rest skip e,
    interpolate_scan deeper opt section rawval map skip rest = Raise e ->
    exists ie, e = InterpolationError ie.
Proof.
  intros Hdeep. induction rest as [|c rest IH]; intros skip e; [discriminate|].
  cbn [interpolate_scan]. destruct skip as [|skip]; [|apply IH].
  destruct (negb (Ascii.eqb c "%")).
  - destruct (interpolate_scan deeper opt section rawval map 0 rest) as [r|e0] eqn:E;
      cbn [result_bind]; [discriminate|].
    intros H. injection H as <-. eapply IH. exact E.
  - destruct rest as [|c' t]; [intros H; injection H as <-; eauto|].
    destruct (Ascii.eqb c' "%").
    + destruct (interpolate_scan deeper opt section rawval map 1 (String c' t))
        as [r|e0] eqn:E; cbn [result_bind]; [discriminate|].
      intros H. injection H as <-. eapply IH. exact E.
    + destruct (Ascii.eqb c' "("); [|intros H; injection H as <-; eauto].
      destruct (key_name t) as [[|n0 name]|]; try (intros H; injection H as <-; eauto).
      cbv zeta.
      destruct (map !! Str.lower (String n0 name)) as [v|];
        [|intros H; injection H as <-; eauto].
      destruct (if Str.contains "%" v then deeper v else Ret v) as [head|e0] eqn:Eh;
        cbn [result_bind].
      * destruct (interpolate_scan deeper opt section rawval map
                    (String.length (String n0 name) + 3) (String c' t))
          as [r|e1] eqn:E; cbn [result_bind]; [discriminate|].
        intros H. injection H as <-. eapply IH. exact E.
      * intros H. injection H as <-.
        destruct (Str.contains "%" v); [eapply Hdeep; exact Eh|discriminate].
Qed.

Lemma interpolate_some_raises (depth_left : nat) (opt section rawval : string)
    (map : gmap string string) (v : string) (e : exn) :
  interpolate_some depth_left opt section rawval map v = Raise e ->
  exists ie, e = InterpolationError ie.
Proof.
  revert v e. induction depth_left as [|d IH]; intros v e; cbn [interpolate_some].
  - intros H. injection H as <-. eauto.
  - apply interpolate_scan_raises. exact IH.
Qed.

(** [config[section][key]] raises the [KeyError] of the section, that of
    the option, or an error of the interpolation. *)
Lemma config_getitem_raises cfg (section key : string) (e : exn) :
  config_getitem cfg section key = Raise e ->
  e = KeyError section \/ e = KeyError key \/ exists ie, e = InterpolationError ie.
Proof.
  unfold config_getitem.
  destruct (section_options (default empty cfg) section) as [options|];
    [|intros H; injection H as <-; auto].
  destruct (options !! Str.lower key) as [value|]; [|intros H; injection H as <-; auto].
  intros H. right. right. eapply interpolate_some_raises. exact H.
Qed.

(** A value without [%] is read as the file holds it. *)
Lemma config_getitem_raw cfg (section key raw : string) :
  config_raw cfg section key = Some raw ->
  Str.contains "%" raw = false ->
  config_getitem cfg section key = Ret raw.
Proof.
  unfold config_raw, config_getitem.
  destruct (section_options (default empty cfg) section) as [options|]; [|discriminate].
  intros -> H. now apply before_get_no_percent.
Qed.

(** ** [load_config] *)

Section LoadConfig.

Variable py_int : string -> result Z.
Variable py_float : string -> result spec_float.

Lemma config_value_run (section key : string) (w : world) :
  config_value section key w = (Done (read_value (config_file w) section key), w).
Proof.
  unfold config_value, read_value, bind, config_get, lift.
  destruct (config_getitem (config_file w) section key) as [raw|e]; [|reflexivity].
  cbn [result_bind].
  destruct (Str.item0 (Str.split ";" raw)) as [first|e]; reflexivity.
Qed.

Ltac load_config_done :=
  cbn [result_bind ret];
  unfold bind, logging_error, logging_log, emit, sys_exit, raise, ret, exn_str,
    read_error_str;
  cbn [negb]; cbv beta iota;
  rewrite ?add_trace_add_trace; reflexivity.

Ltac destruct_exn e :=
  destruct e as [?k|?m|?m|?m|?m|?m|[?m|?m|?m|?m|?m]|?ie|?c].

(** [load_config], case by case. *)
Lemma load_config_run (w : world) :
  load_config py_int py_float w
  = match config_file w, config_error w with
    | None, None =>
        (Done (Raise (SystemExit 1)),
         add_trace w [ConfigRead CONFIG_FILE;
                      Log ERROR "Configuration file 'config.ini' not found or invalid."])
    | None, Some err =>
        (Done (Raise (ReadError err)), add_trace w [ConfigRead CONFIG_FILE])
    | Some _, _ =>
        match settings_of_config py_int py_float (config_file w) with
        | Ret s => (Done (Ret s), add_trace w [ConfigRead CONFIG_FILE])
        | Raise (KeyError k) =>
            (Done (Raise (SystemExit 1)),
             add_trace w [ConfigRead CONFIG_FILE;
                          Log ERROR ("Missing configuration key: " ++ Str.repr k)])
        | Raise (ValueError m) | Raise (ReadError (UnicodeDecodeError m)) =>
            (Done (Raise (SystemExit 1)),
             add_trace w [ConfigRead CONFIG_FILE;
                          Log ERROR ("Invalid value in configuration: " ++ m)])
        | Raise e => (Done (Raise e), add_trace w [ConfigRead CONFIG_FILE])
        end
    end.
Proof.
  unfold load_config. unfold bind at 1. unfold config_read at 1.
  unfold bind at 1. unfold emit at 1.
  change (config_file (add_trace w [ConfigRead CONFIG_FILE])) with (config_file w).
  change (config_error (add_trace w [ConfigRead CONFIG_FILE])) with (config_error w).
  destruct (config_file w) as [cfg|] eqn:Hcfg.
  - cbn [negb]. unfold bind at 1. cbn [ret].
    assert (Hc0 : config_file (add_trace w [ConfigRead CONFIG_FILE]) = Some cfg)
      by exact Hcfg.
    unfold try_except, settings_of_config.
    unfold bind at 1. unfold bind at 1. rewrite config_value_run, Hc0.
    destruct (read_value (Some cfg) "Joystick" "device") as [vd|e];
      [|destruct_exn e; load_config_done].
    cbn [result_bind]. unfold lift at 1.
    destruct (py_int vd) as [d|e]; [|destruct_exn e; load_config_done].
    cbn [result_bind].
    unfold bind at 1. unfold bind at 1. rewrite config_value_run, Hc0.
    destruct (read_value (Some cfg) "Joystick" "button") as [vb|e];
      [|destruct_exn e; load_config_done].
    cbn [result_bind]. unfold lift at 1.
    destruct (py_int vb) as [b|e]; [|destruct_exn e; load_config_done].
    cbn [result_bind].
    unfold bind at 1. unfold bind at 1. rewrite config_value_run, Hc0.
    destruct (read_value (Some cfg) "Mouse" "center_x") as [vx|e];
      [|destruct_exn e; load_config_done].
    cbn [result_bind]. unfold lift at 1.
    destruct (py_float vx) as [cx|e]; [|destruct_exn e; load_config_done].
    cbn [result_bind].
    unfold bind at 1. unfold bind at 1. rewrite config_value_run, Hc0.
    destruct (read_value (Some cfg) "Mouse" "center_y") as [vy|e];
      [|destruct_exn e; load_config_done].
    cbn [result_bind]. unfold lift at 1.
    destruct (py_float vy) as [cy|e]; [|destruct_exn e; load_config_done].
    cbn [result_bind center_x center_y].
    unfold bind at 1.
    destruct (in_unit cx && in_unit cy); load_config_done.
  - destruct (config_error w) as [err|]; [reflexivity|].
    cbn [negb]. unfold bind at 1. unfold bind at 1.
    load_config_done.
Qed.

(** Reading a value can only fail with the [KeyError] of the lookup or
    with an error of the interpolation, which is then the outcome of
    [config[section][key]] itself. *)
Lemma read_value_raises cfg (section key : string) (e : exn) :
  read_value cfg section key = Raise e ->
  config_getitem cfg section key = Raise e /\
  ((exists k, e = KeyError k) \/ (exists ie, e = InterpolationError ie)).
Proof.
  unfold read_value. intros H.
  destruct (config_getitem cfg section key) as [raw|e0] eqn:Hget.
  - cbn [result_bind] in H.
    destruct (item0_split ";" raw) as [first Hf]. rewrite Hf in H. discriminate.
  - injection H as <-. split; [reflexivity|].
    destruct (config_getitem_raises _ _ _ _ Hget) as [->|[->|[ie ->]]]; eauto.
Qed.

(** The world [load_config] leaves: the reading of the file has been
    added to the trace, and the error record, if it exits. *)
Lemma load_config_world (w w' : world) (o : outcome Settings) :
  load_config py_int py_float w = (o, w') ->
  exists l,
    w' = add_trace w (ConfigRead CONFIG_FILE :: l) /\
    (l = [] \/ exists msg, l = [Log ERROR msg] /\ o = Done (Raise (SystemExit 1))) /\
    o <> Looping.
Proof.
  rewrite load_config_run. intros H.
  destruct (config_file w) as [cfg|].
  - destruct (settings_of_config py_int py_float (Some cfg)) as [s|e].
    + injection H as <- <-. exists []. split; [reflexivity|]. split; [auto|discriminate].
    + destruct_exn e; injection H as <- <-;
        try (exists []; split; [reflexivity|]; split; [auto|discriminate]);
        (eexists; split; [reflexivity|]; split; [right; eauto|discriminate]).
  - destruct (config_error w) as [err|].
    + injection H as <- <-. exists []. split; [reflexivity|]. split; [auto|discriminate].
    + injection H as <- <-. eexists. split; [reflexivity|].
      split; [right; eauto|discriminate].
Qed.

(** When [load_config] returns, the file was parsed and the [try] block
    gave the settings. *)
Lemma load_config_ret (w w' : world) (s : Settings) :
  load_config py_int py_float w = (Done (Ret s), w') ->
  config_file w <> None /\
  settings_of_config py_int py_float (config_file w) = Ret s /\
  w' = add_trace w [ConfigRead CONFIG_FILE].
Proof.
  rewrite load_config_run. intros H.
  destruct (config_file w) as [cfg|];
    [|destruct (config_error w) as [err|]; discriminate].
  destruct (settings_of_config py_int py_float (Some cfg)) as [s0|e].
  - injection H as <- <-. repeat split. discriminate.
  - destruct_exn e; discriminate.
Qed.

(** [int(s)] and [float(s)] raise nothing but [ValueError]. *)
Hypothesis py_int_raises :
  forall s e, py_int s = Raise e -> exists m, e = ValueError m.
Hypothesis py_float_raises :
  forall s e, py_float s = Raise e -> exists m, e = ValueError m.

(** What the [try] block raises: the [KeyError] of a lookup, a
    [ValueError], or the interpolation error of one of the four values. *)
Lemma settings_of_config_raises cfg (e : exn) :
  settings_of_config py_int py_float cfg = Raise e ->
  (exists k, e = KeyError k) \/ (exists m, e = ValueError m) \/
  (exists ie section key,
     e = InterpolationError ie /\ In (section, key) required_keys /\
     config_getitem cfg section key = Raise e).
Proof.
  assert (Hread : forall section key e0,
            In (section, key) required_keys ->
            read_value cfg section key = Raise e0 ->
            (exists k, e0 = KeyError k) \/ (exists m, e0 = ValueError m) \/
            (exists ie section key,
               e0 = InterpolationError ie /\ In (section, key) required_keys /\
               config_getitem cfg section key = Raise e0)).
  { intros section key e0 Hin H.
    destruct (read_value_raises _ _ _ _ H) as [Hget [[k ->]|[ie ->]]]; [eauto|].
    right. right. exists ie, section, key. auto. }
  unfold settings_of_config. intros H.
  destruct (read_value cfg "Joystick" "device") as [vd|e1] eqn:E1;
    [|injection H as <-; apply (Hread "Joystick" "device" _ ltac:(cbn; tauto) E1)].
  cbn [result_bind] in H.
  destruct (py_int vd) as [d|e1] eqn:P1;
    [|injection H as <-; right; left; eapply py_int_raises; eassumption].
  cbn [result_bind] in H.
  destruct (read_value cfg "Joystick" "button") as [vb|e2] eqn:E2;
    [|injection H as <-; apply (Hread "Joystick" "button" _ ltac:(cbn; tauto) E2)].
  cbn [result_bind] in H.
  destruct (py_int vb) as [b|e2] eqn:P2;
    [|injection H as <-; right; left; eapply py_int_raises; eassumption].
  cbn [result_bind] in H.
  destruct (read_value cfg "Mouse" "center_x") as [vx|e3] eqn:E3;
    [|injection H as <-; apply (Hread "Mouse" "center_x" _ ltac:(cbn; tauto) E3)].
  cbn [result_bind] in H.
  destruct (py_float vx) as [cx|e3] eqn:P3;
    [|injection H as <-; right; left; eapply py_float_raises; eassumption].
  cbn [result_bind] in H.
  destruct (read_value cfg "Mouse" "center_y") as [vy|e4] eqn:E4;
    [|injection H as <-; apply (Hread "Mouse" "center_y" _ ltac:(cbn; tauto) E4)].
  cbn [result_bind] in H.
  destruct (py_float vy) as [cy|e4] eqn:P4;
    [|injection H as <-; right; left; eapply py_float_raises; eassumption].
  cbn [result_bind] in H.
  destruct (in_unit cx && in_unit cy); [discriminate|].
  injection H as <-. right. left. eauto.
Qed.

Lemma settings_of_config_ret cfg (s : Settings) :
  settings_of_config py_int py_float cfg = Ret s ->
  parsed_values py_int py_float cfg (device s) (button s) (center_x s) (center_y s) /\
  in_unit (center_x s) = true /\ in_unit (center_y s) = true.
Proof.
  unfold settings_of_config, parsed_values. intros H.
  destruct (read_value cfg "Joystick" "device") as [vd|] eqn:E1; [|discriminate].
  cbn [result_bind] in H.
  destruct (py_int vd) as [d|] eqn:P1; [|discriminate]. cbn [result_bind] in H.
  destruct (read_value cfg "Joystick" "button") as [vb|] eqn:E2; [|discriminate].
  cbn [result_bind] in H.
  destruct (py_int vb) as [b|] eqn:P2; [|discriminate]. cbn [result_bind] in H.
  destruct (read_value cfg "Mouse" "center_x") as [vx|] eqn:E3; [|discriminate].
  cbn [result_bind] in H.
  destruct (py_float vx) as [cx|] eqn:P3; [|discriminate]. cbn [result_bind] in H.
  destruct (read_value cfg "Mouse" "center_y") as [vy|] eqn:E4; [|discriminate].
  cbn [result_bind] in H.
  destruct (py_float vy) as [cy|] eqn:P4; [|discriminate]. cbn [result_bind] in H.
  destruct (in_unit cx && in_unit cy) eqn:Hu; [|discriminate].
  injection H as <-. cbn [device button center_x center_y].
  apply andb_true_iff in Hu. destruct Hu as [Hx Hy].
  split; [|split; assumption].
  exists vd, vb, vx, vy. repeat split; assumption.
Qed.

Lemma settings_of_config_range cfg (d b : Z) (cx cy : spec_float) :
  parsed_values py_int py_float cfg d b cx cy ->
  in_unit cx && in_unit cy = false ->
  settings_of_config py_int py_float cfg
  = Raise (ValueError "center_x and center_y must be between 0.0 and 1.0.").
Proof.
  intros (vd & vb & vx & vy & E1 & P1 & E2 & P2 & E3 & P3 & E4 & P4) Hu.
  unfold settings_of_config.
  rewrite E1; cbn [result_bind]; rewrite P1; cbn [result_bind].
  rewrite E2; cbn [result_bind]; rewrite P2; cbn [result_bind].
  rewrite E3; cbn [result_bind]; rewrite P3; cbn [result_bind].
  rewrite E4; cbn [result_bind]; rewrite P4; cbn [result_bind].
  rewrite Hu. reflexivity.
Qed.

(** The three ways [load_config] ends: it returns the settings; it logs
    one error and exits with code 1; or an error of [configparser] itself
    (of [config.read], or of the interpolation of one of the four values)
    goes through it, nothing being logged.  It makes no call but the
    reading of the file. *)
Lemma load_config_outcome (w : world) :
  (exists s,
     config_file w <> None /\
     settings_of_config py_int py_float (config_file w) = Ret s /\
     load_config py_int py_float w
     = (Done (Ret s), add_trace w [ConfigRead CONFIG_FILE])) \/
  (exists msg,
     (file_unreadable w \/
      config_file w <> None /\
      exists e, settings_of_config py_int py_float (config_file w) = Raise e) /\
     load_config py_int py_float w
     = (Done (Raise (SystemExit 1)),
        add_trace w [ConfigRead CONFIG_FILE; Log ERROR msg])) \/
  (exists e,
     ((exists err,
         config_file w = None /\ config_error w = Some err /\ e = ReadError err) \/
      config_file w <> None /\
      exists ie section key,
        e = InterpolationError ie /\ In (section, key) required_keys /\
        config_getitem (config_file w) section key = Raise e) /\
     load_config py_int py_float w
     = (Done (Raise e), add_trace w [ConfigRead CONFIG_FILE])).
Proof.
  rewrite load_config_run. unfold file_unreadable.
  destruct (config_file w) as [cfg|] eqn:Hcfg.
  - destruct (settings_of_config py_int py_float (Some cfg)) as [s|e] eqn:Hs.
    + left. exists s. repeat split. discriminate.
    + destruct (settings_of_config_raises _ _ Hs)
        as [[k ->]|[[m ->]|(ie & section & key & -> & Hin & Hget)]].
      * right. left. eexists. split; [right; split; [discriminate|eauto]|reflexivity].
      * right. left. eexists. split; [right; split; [discriminate|eauto]|reflexivity].
      * right. right. exists (InterpolationError ie).
        split; [|reflexivity].
        right. split; [discriminate|]. exists ie, section, key. auto.
  - destruct (config_error w) as [err|] eqn:Herr.
    + right. right. exists (ReadError err).
      split; [left; eauto|reflexivity].
    + right. left. eexists. split; [left; split; reflexivity|reflexivity].
Qed.

End LoadConfig.

(** ** [log_available_devices] and the start of [main] *)

Lemma log_available_devices_none (w : world) :
  joysticks w = [] ->
  log_available_devices w
  = (Done (Ret PyFalse),
     add_trace w [PygameInit; JoystickInit; JoystickGetCount;
                  Log INFO "No joysticks detected."]).
Proof.
  intros Hj. unfold log_available_devices, try_except.
  unfold bind at 1. unfold pygame_init, emit.
  unfold bind at 1. unfold pygame_joystick_init, emit.
  unfold bind at 1. unfold pygame_joystick_get_count. unfold bind at 1. unfold emit.
  change (joysticks (add_trace (add_trace (add_trace w [PygameInit]) [JoystickInit])
                       [JoystickGetCount])) with (joysticks w).
  rewrite Hj. cbn [length]. change (Z.of_nat 0 <? 1) with true. cbv beta iota.
  unfold bind at 1. unfold logging_info, logging_log, emit, ret.
  rewrite !add_trace_add_trace. reflexivity.
Qed.

Section Main.

Variable py_int : string -> result Z.
Variable py_float : string -> result spec_float.
Hypothesis py_int_raises :
  forall s e, py_int s = Raise e -> exists m, e = ValueError m.
Hypothesis py_float_raises :
  forall s e, py_float s = Raise e -> exists m, e = ValueError m.

Lemma main_stops_with_load_config (fuel : nat) (w w' : world) (e : exn) :
  load_config py_int py_float w = (Done (Raise e), w') ->
  main py_int py_float fuel w = (Done (Raise e), w').
Proof. intros H. unfold main. unfold bind at 1. rewrite H. reflexivity. Qed.

Lemma load_config_same_setup (w w' : world) (o : outcome Settings) :
  load_config py_int py_float w = (o, w') -> same_setup w w'.
Proof.
  intros H. destruct (load_config_world _ _ _ _ _ H) as (l & -> & _). repeat split.
Qed.

Lemma main_no_joysticks (fuel : nat) (w w1 : world) (s : Settings) :
  joysticks w = [] ->
  load_config py_int py_float w = (Done (Ret s), w1) ->
  main py_int py_float fuel w
  = (Done (Raise (SystemExit 1)),
     add_trace w1 [PygameInit; JoystickInit; JoystickGetCount;
                   Log INFO "No joysticks detected.";
                   Log INFO "Exiting: No joysticks available."]).
Proof.
  intros Hj Hload.
  assert (Hj1 : joysticks w1 = []).
  { destruct (load_config_same_setup _ _ _ Hload) as (_ & -> & _). exact Hj. }
  unfold main. unfold bind at 1. rewrite Hload.
  unfold bind at 1. rewrite (log_available_devices_none w1 Hj1).
  cbn [py_not]. unfold bind at 1. unfold bind at 1.
  unfold logging_info, logging_log, emit, sys_exit, raise.
  rewrite add_trace_add_trace. reflexivity.
Qed.

(** C5: with no joystick attached, [log_available_devices] logs
    "No joysticks detected." and returns [False]; [main] then logs that
    it exits and raises [SystemExit(1)]; whatever [load_config] did
    before, the process ends with status 1. *)
Theorem no_joysticks_exit (fuel : nat) (w : world) :
  joysticks w = [] ->
  log_available_devices w
  = (Done (Ret PyFalse),
     add_trace w [PygameInit; JoystickInit; JoystickGetCount;
                  Log INFO "No joysticks detected."]) /\
  py_not PyFalse = true /\
  (forall s w1,
     load_config py_int py_float w = (Done (Ret s), w1) ->
     main py_int py_float fuel w
     = (Done (Raise (SystemExit 1)),
        add_trace w1 [PygameInit; JoystickInit; JoystickGetCount;
                      Log INFO "No joysticks detected.";
                      Log INFO "Exiting: No joysticks available."])) /\
  exit_status (fst (main py_int py_float fuel w)) = Some 1.
Proof.
  intros Hj. split; [now apply log_available_devices_none|].
  split; [reflexivity|].
  split; [intros s w1 Hload; now apply (main_no_joysticks fuel w w1 s)|].
  destruct (load_config_outcome py_int py_float py_int_raises py_float_raises w)
    as [(s & _ & _ & Hload)|[(msg & _ & Hload)|(e & Hcause & Hload)]].
  - rewrite (main_no_joysticks fuel w _ s Hj Hload). reflexivity.
  - rewrite (main_stops_with_load_config fuel w _ _ Hload). reflexivity.
  - rewrite (main_stops_with_load_config fuel w _ _ Hload).
    destruct Hcause as [(err & _ & _ & ->)|(_ & ie & _ & _ & -> & _)]; reflexivity.
Qed.





End Main.

Lemma demo_int_raises (s : string) (e : exn) :
  Demo.int s = Raise e -> exists m, e = ValueError m.
Proof.
  unfold Demo.int. intros H.
  destruct s as [|c t]; [injection H as <-; eauto|].
  destruct (Ascii.eqb_spec c "-") as [->|Hc].
  - destruct t as [|c' t'].
    + cbn in H. injection H as <-. eauto.
    + destruct (Demo.digits 0 (String c' t')); [discriminate|].
      injection H as <-. eauto.
  - assert (Hgen : (match Demo.digits 0 (String c t) with
                    | Some n => Ret n
                    | None => Raise (ValueError
                                ("invalid literal for int() with base 10: "
                                 ++ Str.repr (String c t)))
                    end) = Raise e).
    { revert H. destruct c as [[] [] [] [] [] [] [] []]; try exact (fun H => H);
        contradiction Hc; reflexivity. }
    destruct (Demo.digits 0 (String c t)); [discriminate|].
    injection Hgen as <-. eauto.
Qed.

Lemma demo_float_raises (s : string) (e : exn) :
  Demo.float s = Raise e -> exists m, e = ValueError m.
Proof.
  unfold Demo.float. intros H.
  repeat (match type of H with
          | (if ?b then _ else _) = _ => destruct b; [discriminate|]
          end).
  injection H as <-. eauto.
Qed.

Lemma no_joysticks_exit_witness :
  log_available_devices
    (Demo.boot (Some (Demo.config "0" "2 ; trigger" "0.625" "0.5")) [] [])
  = (Done (Ret PyFalse),
     add_trace (Demo.boot (Some (Demo.config "0" "2 ; trigger" "0.625" "0.5")) [] [])
       [PygameInit; JoystickInit; JoystickGetCount;
        Log INFO "No joysticks detected."]) /\
  py_not PyFalse = true /\
  (forall s w1,
     load_config Demo.int Demo.float
       (Demo.boot (Some (Demo.config "0" "2 ; trigger" "0.625" "0.5")) [] [])
     = (Done (Ret s), w1) ->
     main Demo.int Demo.float 5
       (Demo.boot (Some (Demo.config "0" "2 ; trigger" "0.625" "0.5")) [] [])
     = (Done (Raise (SystemExit 1)),
        add_trace w1 [PygameInit; JoystickInit; JoystickGetCount;
                      Log INFO "No joysticks detected.";
                      Log INFO "Exiting: No joysticks available."])) /\
  exit_status
    (fst (main Demo.int Demo.float 5
            (Demo.boot (Some (Demo.config "0" "2 ; trigger" "0.625" "0.5")) [] [])))
  = Some 1.
Proof.
  apply (no_joysticks_exit Demo.int Demo.float demo_int_raises demo_float_raises 5
           (Demo.boot (Some (Demo.config "0" "2 ; trigger" "0.625" "0.5")) [] [])).
  reflexivity.
Defined.



(** The run of [main] on a configuration with [center_x = 1.5], a
    joystick being attached: the file is read, the error is logged, and
    the process exits; pygame is never called. *)
Example main_center_x_one_and_a_half :
  main Demo.int Demo.float 5
    (Demo.boot (Some (Demo.config "0" "2" "1.5" "0.5")) [Demo.stick] [])
  = (Done (Raise (SystemExit 1)),
     add_trace (Demo.boot (Some (Demo.config "0" "2" "1.5" "0.5")) [Demo.stick] [])
       [ConfigRead "config.ini";
        Log ERROR "Invalid value in configuration: center_x and center_y must be between 0.0 and 1.0."]).
Proof. vm_compute. reflexivity. Qed.

(** ** Inline comments *)

Section InlineComment.

Variable py_int : string -> result Z.
Variable py_float : string -> result spec_float.

(** C8, amended: whenever the reading of a value succeeds, giving the
    text [text] (the value of the file itself when it holds no [%]; its
    interpolation by [configparser] otherwise), what [load_config] hands
    to [int] or [float] is the text [v] found by cutting [text] at its
    first [;] and removing the spaces around what precedes it; the
    settings returned are the numbers parsed from these texts. *)
Theorem inline_comment_stripped (w : world) (section key text : string) :
  config_getitem (config_file w) section key = Ret text ->
  (exists pre rest lead v trail,
     text = pre ++ rest /\
     ~ Str.has_char ";" pre /\
     (rest = EmptyString \/ exists comment, rest = String ";" comment) /\
     pre = lead ++ v ++ trail /\
     Str.all_space lead /\ Str.all_space trail /\ no_outer_space v /\
     config_value section key w = (Done (Ret v), w) /\
     read_value (config_file w) section key = Ret v) /\
  (forall raw,
     config_raw (config_file w) section key = Some raw ->
     ~ Str.has_char "%" raw -> text = raw) /\
  (forall s w',
     load_config py_int py_float w = (Done (Ret s), w') ->
     parsed_values py_int py_float (config_file w)
       (device s) (button s) (center_x s) (center_y s)).
Proof.
  intros Hget. split; [|split].
  - destruct (split_first ";" text) as (pre & ps & rest & Hsplit & Hr & Hnosep & Hrest).
    destruct (strip_spec pre) as (lead & trail & Hpre & Hlead & Htrail & Hv).
    exists pre, rest, lead, (Str.strip pre), trail.
    assert (Hread : read_value (config_file w) section key = Ret (Str.strip pre)).
    { unfold read_value. rewrite Hget. cbn [result_bind]. rewrite Hsplit. reflexivity. }
    repeat split; try assumption; try apply Hv.
    rewrite config_value_run, Hread. reflexivity.
  - intros raw Hraw Hno.
    rewrite (config_getitem_raw _ _ _ _ Hraw (contains_false _ _ Hno)) in Hget.
    now injection Hget.
  - intros s w' Hload.
    destruct (load_config_ret _ _ _ _ _ Hload) as (_ & Hs & _).
    now apply settings_of_config_ret.
Qed.

End InlineComment.

Lemma inline_comment_stripped_witness :
  (exists pre rest lead v trail,
     "2 ; trigger" = pre ++ rest /\
     ~ Str.has_char ";" pre /\
     (rest = EmptyString \/ exists comment, rest = String ";" comment) /\
     pre = lead ++ v ++ trail /\
     Str.all_space lead /\ Str.all_space trail /\ no_outer_space v /\
     config_value "Joystick" "button"
       (Demo.boot (Some (Demo.config "0" "2 ; trigger" "0.625" "0.5")) [Demo.stick] [])
     = (Done (Ret v),
        Demo.boot (Some (Demo.config "0" "2 ; trigger" "0.625" "0.5")) [Demo.stick] []) /\
     read_value
       (config_file
          (Demo.boot (Some (Demo.config "0" "2 ; trigger" "0.625" "0.5")) [Demo.stick] []))
       "Joystick" "button"
     = Ret v) /\
  (forall raw,
     config_raw
       (config_file
          (Demo.boot (Some (Demo.config "0" "2 ; trigger" "0.625" "0.5")) [Demo.stick] []))
       "Joystick" "button"
     = Some raw ->
     ~ Str.has_char "%" raw -> "2 ; trigger" = raw) /\
  (forall s w',
     load_config Demo.int Demo.float
       (Demo.boot (Some (Demo.config "0" "2 ; trigger" "0.625" "0.5")) [Demo.stick] [])
     = (Done (Ret s), w') ->
     parsed_values Demo.int Demo.float
       (config_file
          (Demo.boot (Some (Demo.config "0" "2 ; trigger" "0.625" "0.5")) [Demo.stick] []))
       (device s) (button s) (center_x s) (center_y s)).
Proof.
  apply (inline_comment_stripped Demo.int Demo.float
           (Demo.boot (Some (Demo.config "0" "2 ; trigger" "0.625" "0.5")) [Demo.stick] [])
           "Joystick" "button" "2 ; trigger").
  vm_compute. reflexivity.
Defined.

(** C8, as stated, fails: not any inline comment is stripped.  The value
    [2 ; 50% of throw] has the number 2 before its [;], which [int] would
    accept, but its comment holds a [%]: the reading of the value raises
    [InterpolationSyntaxError] before the text is cut, and [load_config]
    returns no settings. *)
Lemma inline_comment_with_percent_raises :
  config_raw (Some (Demo.config "0" "2 ; 50% of throw" "0.625" "0.5")) "Joystick" "button"
  = Some "2 ; 50% of throw" /\
  result_bind (Str.item0 (Str.split ";" "2 ; 50% of throw"))
    (fun first => Ret (Str.strip first))
  = Ret "2" /\
  Demo.int "2" = Ret 2 /\
  config_value "Joystick" "button"
    (Demo.boot (Some (Demo.config "0" "2 ; 50% of throw" "0.625" "0.5")) [Demo.stick] [])
  = (Done (Raise (InterpolationError
                    (InterpolationSyntaxError "button" "Joystick" "% of throw"))),
     Demo.boot (Some (Demo.config "0" "2 ; 50% of throw" "0.625" "0.5")) [Demo.stick] []) /\
  load_config Demo.int Demo.float
    (Demo.boot (Some (Demo.config "0" "2 ; 50% of throw" "0.625" "0.5")) [Demo.stick] [])
  = (Done (Raise (InterpolationError
                    (InterpolationSyntaxError "button" "Joystick" "% of throw"))),
     add_trace
       (Demo.boot (Some (Demo.config "0" "2 ; 50% of throw" "0.625" "0.5")) [Demo.stick] [])
       [ConfigRead "config.ini"]) /\
  ~ (exists s w',
       load_config Demo.int Demo.float
         (Demo.boot (Some (Demo.config "0" "2 ; 50% of throw" "0.625" "0.5"))
            [Demo.stick] [])
       = (Done (Ret s), w')).
Proof.
  assert (Hload : load_config Demo.int Demo.float
                    (Demo.boot (Some (Demo.config "0" "2 ; 50% of throw" "0.625" "0.5"))
                       [Demo.stick] [])
                  = (Done (Raise (InterpolationError
                                    (InterpolationSyntaxError "button" "Joystick"
                                       "% of throw"))),
                     add_trace
                       (Demo.boot (Some (Demo.config "0" "2 ; 50% of throw" "0.625" "0.5"))
                          [Demo.stick] [])
                       [ConfigRead "config.ini"])) by (vm_compute; reflexivity).
  repeat split; try (vm_compute; reflexivity).
  intros (s & w' & H). rewrite Hload in H. discriminate.
Qed.

(** The same configuration, run: the button is 2, its comment gone. *)
Example load_config_with_comment :
  fst (load_config Demo.int Demo.float
         (Demo.boot (Some (Demo.config "0" "2 ; trigger" "0.625" "0.5")) [Demo.stick] []))
  = Done (Ret {| device := 0; button := 2;
                 center_x := Demo.five_eighths; center_y := Demo.half |}).
Proof. vm_compute. reflexivity. Qed.

(** A run of [main]: button 2 of the only joystick is watched; the first
    poll brings a quit event and the release of button 1, the second the
    release of button 2.  After three turns the loop is still going; the
    quit event left its two records and nothing else, button 1 nothing,
    button 2 the move through the origin. *)
Example main_run :
  (fun r => (fst r, cursor (snd r), trace (snd r)))
    (main Demo.int Demo.float 3
       (Demo.boot (Some (Demo.config "0" "2 ; trigger" "0.625" "0.5")) [Demo.stick]
          [[QUIT; JOYBUTTONUP 0 1]; [JOYBUTTONUP 0 2]]))
  = (Looping, (853, 384),
     [ ConfigRead "config.ini";
       PygameInit; JoystickInit; JoystickGetCount;
       Log INFO "1 joystick(s) detected:";
       JoystickOpen 0;
       Log INFO "Joystick 0: HOTAS with 3 button(s)";
       PygameInit; JoystickInit; JoystickOpen 0;
       Log INFO "Joystick initialized: HOTAS";
       Log INFO "Monitoring button index: 2";
       Log INFO "Listening to Events now:";
       EventPump; EventGet;
       Log INFO "Quit event received."; Log INFO "Quit event received.";
       Sleep 100;
       EventPump; EventGet;
       Log INFO "Button 2 released!"; Log INFO "Button 2 released!";
       SetCursorPos 0 0;
       Log INFO "Mouse moved to initial position: (0, 0)";
       Sleep 50;
       SetCursorPos 853 384;
       Log INFO "Mouse moved to second position: (853, 384)";
       Sleep 100;
       EventPump; EventGet; Sleep 100 ]).
Proof. vm_compute. reflexivity. Qed.

(** ** [main] with joysticks attached *)

Lemma pygame_joystick_Joystick_run (i : Z) (j : joystick_hw) (w : world) :
  0 <= i -> joysticks w !! Z.to_nat i = Some j ->
  pygame_joystick_Joystick i w = (Done (Ret j), add_trace w [JoystickOpen i]).
Proof.
  intros Hi Hj. unfold pygame_joystick_Joystick, bind, emit.
  change (joysticks (add_trace w [JoystickOpen i])) with (joysticks w).
  apply lookup_lt_Some in Hj as Hlt. rewrite Hj.
  replace (0 <=? i) with true by (symmetry; apply Z.leb_le; lia).
  replace (i <? Z.of_nat (length (joysticks w))) with true
    by (symmetry; apply Z.ltb_lt; lia).
  reflexivity.
Qed.

Lemma enumerate_devices_run (js pre : list joystick_hw) (acc : list DeviceInfo)
    (w : world) :
  joysticks w = (pre ++ js)%list ->
  exists l,
    enumerate_devices (seqZ (Z.of_nat (length pre)) (Z.of_nat (length js))) acc w
    = (Done (Ret (acc ++ devices_of js (Z.of_nat (length pre)))%list), add_trace w l) /\
    polls l = O.
Proof.
  revert pre acc w. induction js as [|j js IH]; intros pre acc w Hw.
  - exists []. cbn [length Z.of_nat devices_of]. rewrite app_nil_r, add_trace_nil.
    split; reflexivity.
  - replace (Z.of_nat (length (j :: js))) with (Z.succ (Z.of_nat (length js)))
      by (cbn [length]; lia).
    rewrite seqZ_cons by lia.
    replace (Z.pred (Z.succ (Z.of_nat (length js)))) with (Z.of_nat (length js)) by lia.
    cbn [enumerate_devices devices_of].
    unfold bind at 1.
    rewrite (pygame_joystick_Joystick_run _ j).
    2: lia.
    2: { rewrite Hw, Nat2Z.id. rewrite lookup_app_r by lia.
         replace (length pre - length pre)%nat with O by lia. reflexivity. }
    unfold bind at 1. unfold logging_info, logging_log, emit.
    rewrite add_trace_add_trace.
    destruct (IH (pre ++ [j])%list
                (acc ++ [{| index := Z.of_nat (length pre); name := hw_name j;
                            buttons := hw_buttons j |}])%list
                (add_trace w
                   [JoystickOpen (Z.of_nat (length pre));
                    Log INFO ("Joystick " ++ Str.of_Z (Z.of_nat (length pre)) ++ ": "
                              ++ hw_name j ++ " with " ++ Str.of_Z (hw_buttons j)
                              ++ " button(s)")]))
      as (l & Hrun & Hp).
    { change (joysticks (add_trace w _)) with (joysticks w).
      rewrite Hw, <- app_assoc. reflexivity. }
    rewrite length_app in Hrun. cbn [length] in Hrun.
    replace (Z.of_nat (length pre + 1)) with (Z.succ (Z.of_nat (length pre))) in Hrun by lia.
    replace (Z.of_nat (length pre) + 1) with (Z.succ (Z.of_nat (length pre))) by lia.
    cbn [app]. rewrite Hrun, add_trace_add_trace, <- app_assoc.
    eexists. split; [reflexivity|].
    rewrite !polls_app, Hp. reflexivity.
Qed.

Lemma log_available_devices_some (w : world) :
  joysticks w <> [] ->
  exists l,
    log_available_devices w
    = (Done (Ret (PyList (devices_of (joysticks w) 0))), add_trace w l) /\
    polls l = O.
Proof.
  intros Hne.
  destruct (enumerate_devices_run (joysticks w) [] []
              (add_trace w
                 [PygameInit; JoystickInit; JoystickGetCount;
                  Log INFO (Str.of_Z (Z.of_nat (length (joysticks w)))
                            ++ " joystick(s) detected:")]))
    as (l & Hrun & Hp); [reflexivity|].
  cbn [length app] in Hrun. change (Z.of_nat 0) with 0 in Hrun.
  unfold log_available_devices, try_except.
  unfold bind at 1. unfold pygame_init, emit.
  unfold bind at 1. unfold pygame_joystick_init, emit.
  unfold bind at 1. unfold pygame_joystick_get_count. unfold bind at 1. unfold emit.
  change (joysticks (add_trace (add_trace (add_trace w [PygameInit]) [JoystickInit])
                       [JoystickGetCount])) with (joysticks w).
  replace (Z.of_nat (length (joysticks w)) <? 1) with false
    by (symmetry; apply Z.ltb_ge; destruct (joysticks w); [contradiction|cbn [length]; lia]).
  unfold bind at 1. unfold logging_info, logging_log, emit.
  rewrite !add_trace_add_trace. cbn [app].
  unfold bind at 1. rewrite Hrun. cbn [ret]. rewrite add_trace_add_trace.
  eexists. split; [reflexivity|].
  cbn [polls app]. exact Hp.
Qed.

Lemma validate_config_world (settings : Settings) (l : list DeviceInfo) (w w' : world) :
  validate_config settings l w = (Done (Ret tt), w) ->
  validate_config settings l w' = (Done (Ret tt), w').
Proof.
  unfold validate_config, bind, lift, logging_error, logging_log, emit, sys_exit, raise, ret.
  destruct (device settings >=? Z.of_nat (length l)); [discriminate|].
  destruct (list_getitem l (device settings)) as [info|]; [|discriminate].
  destruct (button settings >=? buttons info); [discriminate|]. reflexivity.
Qed.

Section MainLoop.

Variable py_int : string -> result Z.
Variable py_float : string -> result spec_float.

(** Once the configuration is loaded and validated against the attached
    joysticks, [main] never comes back: whatever the events, quit events
    among them, it is still in its loop after any number of turns. *)
Lemma main_keeps_looping (fuel : nat) (w w1 : world) (s : Settings) (j : joystick_hw) :
  load_config py_int py_float w = (Done (Ret s), w1) ->
  settings_ok s -> screen_ok w ->
  validate_config s (devices_of (joysticks w) 0) w = (Done (Ret tt), w) ->
  0 <= device s -> joysticks w !! Z.to_nat (device s) = Some j ->
  fst (main py_int py_float fuel w) = Looping /\
  (polls (trace (snd (main py_int py_float fuel w))) = polls (trace w) + fuel)%nat.
Proof.
  intros Hload Hs Hw Hval Hd Hj.
  pose proof (load_config_same_setup _ _ _ _ _ Hload) as Hsame1.
  assert (Htr1 : trace w1 = (trace w ++ [ConfigRead CONFIG_FILE])%list).
  { destruct (load_config_ret _ _ _ _ _ Hload) as (_ & _ & ->). reflexivity. }
  assert (Hjs : joysticks w1 = joysticks w) by apply Hsame1.
  assert (Hne : joysticks w1 <> []).
  { rewrite Hjs. intros Hnil. rewrite Hnil in Hj. discriminate. }
  destruct (log_available_devices_some w1 Hne) as (l & Hlog & Hpl).
  assert (Hpy : py_not (PyList (devices_of (joysticks w) 0)) = false).
  { destruct (joysticks w); [discriminate|reflexivity]. }
  set (w3 := add_trace w1
               ((l ++ [PygameInit; JoystickInit]) ++
                [JoystickOpen (device s);
                 Log INFO ("Joystick initialized: " ++ hw_name j);
                 Log INFO ("Monitoring button index: " ++ Str.of_Z (button s));
                 Log INFO "Listening to Events now:"])%list).
  assert (Hsame3 : same_setup w w3).
  { eapply same_setup_trans; [exact Hsame1|]. repeat split. }
  assert (Hmain : main py_int py_float fuel w
                  = (Looping, snd (event_loop fuel s w3))).
  { unfold main. unfold bind at 1. rewrite Hload.
    unfold bind at 1. rewrite Hlog, Hjs, Hpy.
    unfold bind at 1. cbn [ret].
    unfold bind at 1. rewrite (validate_config_world _ _ _ _ Hval).
    unfold bind at 1. unfold pygame_init, emit.
    unfold bind at 1. unfold pygame_joystick_init, emit.
    rewrite !add_trace_add_trace.
    unfold try_finally, try_except.
    unfold bind at 1.
    rewrite (pygame_joystick_Joystick_run _ j) by
      (try exact Hd; change (joysticks (add_trace w1 _)) with (joysticks w1);
       rewrite Hjs; exact Hj).
    unfold bind at 1. unfold bind at 1. unfold bind at 1.
    unfold logging_info, logging_log, emit. rewrite !add_trace_add_trace.
    cbn [app]. fold w3.
    destruct (event_loop_run s fuel w3 Hs (screen_ok_same_setup _ _ Hsame3 Hw))
      as [Hloop _].
    destruct (event_loop fuel s w3) as [o w4]. cbn [fst snd] in *.
    subst o. reflexivity. }
  rewrite Hmain. cbn [fst snd]. split; [reflexivity|].
  destruct (event_loop_run s fuel w3 Hs (screen_ok_same_setup _ _ Hsame3 Hw))
    as [_ Hpolls].
  rewrite Hpolls. subst w3. cbn [add_trace set_trace trace].
  rewrite Htr1, !polls_app, Hpl. cbn [polls]. lia.
Qed.

End MainLoop.

(** * Further properties of the script *)

(** ** Products by a power of two *)

Lemma digits2_pos_unique (q : positive) (k : Z) :
  2 ^ (k - 1) <= Zpos q < 2 ^ k -> Zpos (digits2_pos q) = k.
Proof.
  intros [Hlo Hhi].
  pose proof (digits2_pos_upper q) as Hu. pose proof (digits2_pos_lower q) as Hl.
  assert (Hk : 0 < k).
  { destruct (Z_lt_le_dec 0 k) as [|Hle]; [assumption|].
    exfalso. destruct (Z.eq_dec k 0) as [->|Hne].
    - change (2 ^ 0) with 1 in Hhi. lia.
    - rewrite (Z.pow_neg_r 2 k) in Hhi by lia. lia. }
  destruct (Z_lt_le_dec (Zpos (digits2_pos q)) k) as [Hlt|Hge].
  - exfalso.
    assert (2 ^ Zpos (digits2_pos q) <= 2 ^ (k - 1)) by (apply Z.pow_le_mono_r; lia).
    lia.
  - destruct (Z_lt_le_dec k (Zpos (digits2_pos q))) as [Hlt|Hle]; [|lia].
    exfalso.
    assert (2 ^ k <= 2 ^ (Zpos (digits2_pos q) - 1)) by (apply Z.pow_le_mono_r; lia).
    lia.
Qed.

Lemma digits2_pos_shift (q : positive) (k : Z) (r : positive) :
  0 <= k -> Zpos r = Zpos q * 2 ^ k ->
  Zpos (digits2_pos r) = Zpos (digits2_pos q) + k.
Proof.
  intros Hk Hr. apply digits2_pos_unique. rewrite Hr.
  pose proof (digits2_pos_upper q) as Hu. pose proof (digits2_pos_lower q) as Hl.
  assert (Hp : 0 < 2 ^ k) by (apply Z.pow_pos_nonneg; lia).
  replace (Zpos (digits2_pos q) + k - 1) with ((Zpos (digits2_pos q) - 1) + k) by lia.
  rewrite !Z.pow_add_r by lia. nia.
Qed.

(** The rounding of [m * 2^e] is exact when the [s] low bits it drops
    are zero: the result is [(m / 2^s) * 2^(e + s)]. *)
Lemma binary_round_aux_exact (sx : bool) (m : positive) (e s : Z) (q : positive) :
  s = fexp Float.prec Float.emax (Zpos (digits2_pos m) + e) - e ->
  0 <= s -> Zpos m = Zpos q * 2 ^ s -> e + s <= Float.emax - Float.prec ->
  binary_round_aux Float.prec Float.emax sx (Zpos m) e loc_Exact
  = S754_finite sx q (e + s).
Proof.
  intros Hs Hs0 Hm Hmax.
  assert (Hq : Zpos m / 2 ^ s = Zpos q).
  { rewrite Hm. apply Z.div_mul. apply Z.pow_nonzero; lia. }
  assert (Hdq : Zpos (digits2_pos m) = Zpos (digits2_pos q) + s)
    by (apply digits2_pos_shift; assumption).
  assert (Hstep2 : shr_fexp Float.prec Float.emax (Zpos q) (e + s) loc_Exact
                   = (Build_shr_record (Zpos q) false false, e + s)).
  { unfold shr_fexp, shr. cbn [Zdigits2 shr_record_of_loc].
    replace (Zpos (digits2_pos q) + (e + s)) with (Zpos (digits2_pos m) + e) by lia.
    replace (fexp Float.prec Float.emax (Zpos (digits2_pos m) + e) - (e + s)) with 0 by lia.
    reflexivity. }
  unfold binary_round_aux.
  assert (Hstep1 : shr_fexp Float.prec Float.emax (Zpos m) e loc_Exact
                   = (Build_shr_record (Zpos q) false false, e + s)).
  { unfold shr_fexp, shr. cbn [Zdigits2 shr_record_of_loc]. rewrite <- Hs.
    destruct s as [|p|p]; [| |lia].
    - rewrite Z.pow_0_r in Hm. replace (e + 0) with e by lia.
      f_equal. f_equal. lia.
    - rewrite iter_pos_nat.
      assert (Hk : Z.of_nat (Pos.to_nat p) = Zpos p) by apply positive_nat_Z.
      pose proof (shr_iter_m (Pos.to_nat p) (Build_shr_record (Zpos m) false false)
                    ltac:(cbn; lia)) as Hsm.
      cbn [shr_m] in Hsm. rewrite Hk, Hq in Hsm.
      assert (Hmod : Zpos m mod 2 ^ Z.of_nat (Pos.to_nat p) = 0).
      { rewrite Hk, Hm. apply Z.mod_mul. apply Z.pow_nonzero; lia. }
      destruct (shr_iter_exact (Pos.to_nat p) (Zpos m) ltac:(lia) Hmod) as [Hr Hst].
      destruct (Nat.iter (Pos.to_nat p) shr_1 (Build_shr_record (Zpos m) false false))
        as [qm qr qs].
      cbn [shr_m shr_r shr_s] in *. subst. reflexivity. }
  rewrite Hstep1. cbn [shr_m loc_of_shr_record round_nearest_even].
  rewrite Hstep2. cbn [shr_m].
  replace (e + s <=? Float.emax - Float.prec) with true
    by (symmetry; apply Z.leb_le; assumption).
  reflexivity.
Qed.

(** The float of a screen metric: exact, with a 53-bit mantissa. *)
Lemma of_int_exact (sx : bool) (p : positive) :
  Zpos p < 2 ^ 53 ->
  exists mz ez,
    binary_round Float.prec Float.emax sx p 0 = S754_finite sx mz ez /\
    Zpos (digits2_pos mz) = 53 /\ -52 <= ez <= 0 /\
    Zpos mz = Zpos p * 2 ^ (- ez).
Proof.
  intros Hp. unfold binary_round, shl_align.
  pose proof (digits2_pos_upper p) as Hu. pose proof (digits2_pos_lower p) as Hl.
  assert (Hd : 1 <= Zpos (digits2_pos p) <= 53).
  { split; [lia|]. apply digits2_pos_le; lia. }
  assert (Hf : fexp Float.prec Float.emax (Zpos (digits2_pos p) + 0)
               = Zpos (digits2_pos p) - 53).
  { unfold fexp, SpecFloat.emin, Float.prec, Float.emax. lia. }
  rewrite Hf.
  destruct (Zpos (digits2_pos p) - 53 - 0) as [|d|d] eqn:Hs; [|lia|].
  - exists p, 0.
    rewrite (binary_round_aux_exact sx p 0 0 p).
    + replace (0 + 0) with 0 by lia. repeat split; try lia.
    + unfold fexp, SpecFloat.emin, Float.prec, Float.emax. lia.
    + lia.
    + rewrite Z.pow_0_r. lia.
    + unfold Float.emax, Float.prec. lia.
  - assert (Hmz : Zpos (Pos.iter xO p d) = Zpos p * 2 ^ Zpos d) by apply pos_iter_xO.
    assert (Hdz : Zpos (digits2_pos (Pos.iter xO p d)) = 53).
    { rewrite (digits2_pos_shift p (Zpos d) _ ltac:(lia) Hmz). lia. }
    exists (Pos.iter xO p d), (Zpos (digits2_pos p) - 53).
    rewrite (binary_round_aux_exact sx _ _ 0 (Pos.iter xO p d)).
    + replace (Zpos (digits2_pos p) - 53 + 0) with (Zpos (digits2_pos p) - 53) by lia.
      repeat split; try lia.
      rewrite Hmz. f_equal. f_equal. lia.
    + rewrite Hdz. unfold fexp, SpecFloat.emin, Float.prec, Float.emax. lia.
    + lia.
    + rewrite Z.pow_0_r. lia.
    + unfold Float.emax, Float.prec. lia.
Qed.

(** [int(n * 2^-k)] is [n] divided by [2^k], the quotient truncated
    toward zero. *)
Lemma int_of_product_pow2 (n k : Z) :
  is_c_int n -> 0 <= k <= 1022 ->
  int_of_product n (pow2_fraction k) = Ret (Z.quot n (2 ^ k)).
Proof.
  intros Hn Hk. unfold is_c_int in Hn.
  assert (Hpk : 0 < 2 ^ k) by (apply Z.pow_pos_nonneg; lia).
  unfold int_of_product, Float.int_mul, Float.of_int, binary_normalize.
  destruct n as [|p|p].
  - cbn [result_bind Float.mul SFmul pow2_fraction Float.to_int]. cbn [xorb].
    rewrite Z.quot_0_l by lia. reflexivity.
  - destruct (of_int_exact false p ltac:(change (2 ^ 53) with 9007199254740992; lia))
      as (mz & ez & Hof & Hdz & Hez & Hmz).
    rewrite Hof. cbn [result_bind]. unfold Float.mul, pow2_fraction. cbn [SFmul xorb].
    rewrite (binary_round_aux_exact false _ _ 52 mz).
    + cbn [Float.to_int cond_Zopp]. f_equal.
      replace (ez + (-52 - k) + 52) with (- (k - ez)) by lia.
      rewrite Z.shiftl_div_pow2 by lia. rewrite Z.opp_involutive.
      rewrite Hmz. replace (k - ez) with (k + - ez) by lia.
      rewrite Z.pow_add_r by lia.
      assert (0 < 2 ^ (- ez)) by (apply Z.pow_pos_nonneg; lia).
      rewrite Z.div_mul_cancel_r by lia.
      rewrite Z.quot_div_nonneg by lia. reflexivity.
    + rewrite (digits2_pos_shift mz 52 (mz * 4503599627370496))
        by (try lia; rewrite Pos2Z.inj_mul; reflexivity).
      rewrite Hdz. unfold fexp, SpecFloat.emin, Float.prec, Float.emax. lia.
    + lia.
    + rewrite Pos2Z.inj_mul. reflexivity.
    + unfold Float.emax, Float.prec. lia.
  - destruct (of_int_exact true p ltac:(change (2 ^ 53) with 9007199254740992; lia))
      as (mz & ez & Hof & Hdz & Hez & Hmz).
    rewrite Hof. cbn [result_bind]. unfold Float.mul, pow2_fraction. cbn [SFmul xorb].
    rewrite (binary_round_aux_exact true _ _ 52 mz).
    + cbn [Float.to_int cond_Zopp]. f_equal.
      replace (ez + (-52 - k) + 52) with (- (k - ez)) by lia.
      rewrite Z.shiftl_div_pow2 by lia. rewrite Z.opp_involutive.
      rewrite Hmz. replace (k - ez) with (k + - ez) by lia.
      rewrite Z.pow_add_r by lia.
      assert (0 < 2 ^ (- ez)) by (apply Z.pow_pos_nonneg; lia).
      rewrite Z.div_mul_cancel_r by lia.
      change (Zneg p) with (- Zpos p). rewrite Z.quot_opp_l by lia.
      rewrite Z.quot_div_nonneg by lia. reflexivity.
    + rewrite (digits2_pos_shift mz 52 (mz * 4503599627370496))
        by (try lia; rewrite Pos2Z.inj_mul; reflexivity).
      rewrite Hdz. unfold fexp, SpecFloat.emin, Float.prec, Float.emax. lia.
    + lia.
    + rewrite Pos2Z.inj_mul. reflexivity.
    + unfold Float.emax, Float.prec. lia.
Qed.
Example int_of_product_pow2_demo :
  int_of_product 1367 (pow2_fraction 1) = Ret 683 /\
  int_of_product (-1367) (pow2_fraction 1) = Ret (-683) /\
  int_of_product 1366 (pow2_fraction 0) = Ret 1366 /\
  Float.valid (pow2_fraction 1022) = true /\ pow2_fraction 0 = Float.one /\
  pow2_fraction 1 = Demo.half.
Proof. repeat split; vm_compute; reflexivity. Qed.

(** ** More about [center_mouse] *)

Lemma quot_pow2_c_int (n k : Z) : is_c_int n -> 0 <= k -> is_c_int (Z.quot n (2 ^ k)).
Proof.
  unfold is_c_int. intros Hn Hk.
  assert (Hp : 0 < 2 ^ k) by (apply Z.pow_pos_nonneg; lia).
  destruct (Z_le_gt_dec 0 n) as [H|H].
  - pose proof (Z.quot_pos n (2 ^ k) H Hp).
    pose proof (Z.quot_le_upper_bound n (2 ^ k) n Hp ltac:(nia)). lia.
  - replace n with (- (- n)) by lia. rewrite Z.quot_opp_l by lia.
    pose proof (Z.quot_pos (- n) (2 ^ k) ltac:(lia) Hp).
    pose proof (Z.quot_le_upper_bound (- n) (2 ^ k) (- n) Hp ltac:(nia)). lia.
Qed.

(** X1: with the fractions [2^-kx] and [2^-ky] (1.0, 0.5, 0.25, ...) the
    target is exactly [(width quot 2^kx, height quot 2^ky)]: the fraction
    1.0 sends the cursor to [x = width], one column past the last one, and
    0.5 to the integer half of the metric. *)
Theorem center_mouse_power_of_two (kx ky : Z) (w : world) :
  0 <= kx <= 1022 -> 0 <= ky <= 1022 ->
  is_c_int (screen_width w) -> is_c_int (screen_height w) ->
  center_mouse (pow2_fraction kx) (pow2_fraction ky) w
  = (Done (Ret tt),
     set_cursor
       (add_trace w
          (center_mouse_calls (Z.quot (screen_width w) (2 ^ kx))
                              (Z.quot (screen_height w) (2 ^ ky))))
       (Z.quot (screen_width w) (2 ^ kx), Z.quot (screen_height w) (2 ^ ky))).
Proof.
  intros Hkx Hky Hw Hh.
  apply center_mouse_run; try (apply int_of_product_pow2; assumption);
    apply quot_pow2_c_int; (assumption || lia).
Qed.

Lemma center_mouse_power_of_two_witness :
  center_mouse (pow2_fraction 1) (pow2_fraction 0) (Demo.boot None [] [])
  = (Done (Ret tt),
     set_cursor
       (add_trace (Demo.boot None [] [])
          (center_mouse_calls (Z.quot 1366 (2 ^ 1)) (Z.quot 768 (2 ^ 0))))
       (Z.quot 1366 (2 ^ 1), Z.quot 768 (2 ^ 0))).
Proof.
  apply (center_mouse_power_of_two 1 0 (Demo.boot None [] []));
    try lia; unfold is_c_int; cbn; lia.
Defined.

Lemma int_of_product_raises (n : Z) (x : spec_float) (e : exn) :
  int_of_product n x = Raise e ->
  exists msg, e = ValueError msg \/ e = OverflowError msg.
Proof.
  unfold int_of_product, Float.int_mul, Float.of_int.
  assert (Hto : forall y, Float.to_int y = Raise e ->
                exists msg, e = ValueError msg \/ e = OverflowError msg).
  { intros y Hy. destruct y; cbn [Float.to_int] in Hy;
      try discriminate; injection Hy as <-; eauto. }
  destruct (binary_normalize Float.prec Float.emax n 0 false) as [s|s| |s m ex];
    cbn [result_bind]; intros H; try (eapply Hto; exact H).
  injection H as <-. eauto.
Qed.

(** X2: the three ways [center_mouse] ends, whatever its arguments.  It
    returns after exactly its five calls, the target being a pair of C
    [int]s; or it raises a [ValueError] or an [OverflowError] from the
    conversions, and then before the first [SetCursorPos]: the world is as
    it was; or the target is computed and does not fit the C [int]s of
    [SetCursorPos]: then the cursor has been moved to the origin, the
    record written and the pause made when the second call raises
    [OverflowError], and the cursor is left at the origin.  A NaN fraction
    is a case of the second kind. *)
Theorem center_mouse_outcomes (fx fy : spec_float) (w : world) :
  ((exists x y,
      int_of_product (screen_width w) fx = Ret x /\
      int_of_product (screen_height w) fy = Ret y /\
      is_c_int x /\ is_c_int y /\
      center_mouse fx fy w
      = (Done (Ret tt), set_cursor (add_trace w (center_mouse_calls x y)) (x, y))) \/
   (exists e msg,
      (e = ValueError msg \/ e = OverflowError msg) /\
      center_mouse fx fy w = (Done (Raise e), w)) \/
   (exists x y msg,
      int_of_product (screen_width w) fx = Ret x /\
      int_of_product (screen_height w) fy = Ret y /\
      ~ (is_c_int x /\ is_c_int y) /\
      center_mouse fx fy w
      = (Done (Raise (OverflowError msg)),
         set_cursor
           (add_trace w [SetCursorPos 0 0;
                         Log INFO "Mouse moved to initial position: (0, 0)";
                         Sleep 50])
           (0, 0)))) /\
  (is_c_int (screen_width w) ->
   center_mouse S754_nan fy w
   = (Done (Raise (ValueError "cannot convert float NaN to integer")), w)).
Proof.
  split.
  - destruct (int_of_product (screen_width w) fx) as [x|e] eqn:Hx.
    + destruct (int_of_product (screen_height w) fy) as [y|e] eqn:Hy.
      * destruct (fits_c_int x && fits_c_int y) eqn:Hfit.
        -- left. apply andb_true_iff in Hfit. destruct Hfit as [Hcx Hcy].
           apply fits_c_int_spec in Hcx. apply fits_c_int_spec in Hcy.
           exists x, y. split; [reflexivity|]. split; [reflexivity|].
           split; [exact Hcx|]. split; [exact Hcy|]. now apply center_mouse_run.
        -- right. right. exists x, y. eexists.
           split; [reflexivity|]. split; [reflexivity|]. split.
           ++ intros [Hcx Hcy]. apply fits_c_int_spec in Hcx. apply fits_c_int_spec in Hcy.
              rewrite Hcx, Hcy in Hfit. discriminate.
           ++ unfold center_mouse.
              unfold bind at 1. cbn [GetSystemMetrics_CXSCREEN].
              unfold bind at 1. cbn [GetSystemMetrics_CYSCREEN].
              unfold bind at 1. unfold lift at 1. rewrite Hx.
              unfold bind at 1. unfold lift at 1. rewrite Hy.
              unfold bind at 1.
              rewrite win32api_SetCursorPos_run by (unfold is_c_int; lia).
              unfold bind at 1. rewrite print_initial_position.
              unfold bind at 1. unfold time_sleep, emit.
              unfold bind at 1. unfold win32api_SetCursorPos. rewrite Hfit.
              rewrite ?add_trace_set_cursor, ?add_trace_add_trace.
              rewrite ?add_trace_set_cursor, ?add_trace_add_trace.
              reflexivity.
      * right. left. destruct (int_of_product_raises _ _ _ Hy) as [msg Hmsg].
        exists e, msg. split; [exact Hmsg|].
        unfold center_mouse, bind, GetSystemMetrics_CXSCREEN,
          GetSystemMetrics_CYSCREEN, lift.
        rewrite Hx, Hy. reflexivity.
    + right. left. destruct (int_of_product_raises _ _ _ Hx) as [msg Hmsg].
      exists e, msg. split; [exact Hmsg|].
      unfold center_mouse, bind, GetSystemMetrics_CXSCREEN,
        GetSystemMetrics_CYSCREEN, lift.
      rewrite Hx. reflexivity.
  - intros Hw.
    assert (Habs : Z.abs (screen_width w) < 2 ^ 53).
    { unfold is_c_int in Hw. change (2 ^ 53) with 9007199254740992. lia. }
    destruct (of_int_bound _ Habs) as (fn & Hfn & Hb).
    assert (Hx : int_of_product (screen_width w) S754_nan
                 = Raise (ValueError "cannot convert float NaN to integer")).
    { unfold int_of_product, Float.int_mul. rewrite Hfn. cbn [result_bind].
      destruct fn; reflexivity. }
    unfold center_mouse, bind, GetSystemMetrics_CXSCREEN,
      GetSystemMetrics_CYSCREEN, lift.
    rewrite Hx. reflexivity.
Qed.

Lemma center_mouse_outcomes_witness :
  ((exists x y,
      int_of_product 1366 Demo.three_halves = Ret x /\
      int_of_product 768 S754_nan = Ret y /\
      is_c_int x /\ is_c_int y /\
      center_mouse Demo.three_halves S754_nan (Demo.boot None [] [])
      = (Done (Ret tt),
         set_cursor (add_trace (Demo.boot None [] []) (center_mouse_calls x y)) (x, y))) \/
   (exists e msg,
      (e = ValueError msg \/ e = OverflowError msg) /\
      center_mouse Demo.three_halves S754_nan (Demo.boot None [] [])
      = (Done (Raise e), Demo.boot None [] [])) \/
   (exists x y msg,
      int_of_product 1366 Demo.three_halves = Ret x /\
      int_of_product 768 S754_nan = Ret y /\
      ~ (is_c_int x /\ is_c_int y) /\
      center_mouse Demo.three_halves S754_nan (Demo.boot None [] [])
      = (Done (Raise (OverflowError msg)),
         set_cursor
           (add_trace (Demo.boot None [] [])
              [SetCursorPos 0 0;
               Log INFO "Mouse moved to initial position: (0, 0)";
               Sleep 50])
           (0, 0)))) /\
  (is_c_int 1366 ->
   center_mouse S754_nan S754_nan (Demo.boot None [] [])
   = (Done (Raise (ValueError "cannot convert float NaN to integer")),
      Demo.boot None [] [])).
Proof.
  exact (center_mouse_outcomes Demo.three_halves S754_nan (Demo.boot None [] [])).
Defined.

(** The third case of X2, run: with the factor [2^31 = 4503599627370496 * 2^-21] the target of a
    1366 x 768 screen is beyond the C [int]s; the cursor goes to the
    origin and stays there. *)
Example center_mouse_left_at_origin :
  Float.valid (S754_finite false 4503599627370496 (-21)) = true /\
  int_of_product 1366 (S754_finite false 4503599627370496 (-21)) = Ret 2933462663168 /\
  center_mouse (S754_finite false 4503599627370496 (-21)) Demo.half (Demo.boot None [] [])
  = (Done (Raise (OverflowError "Python int too large to convert to C long")),
     set_cursor
       (add_trace (Demo.boot None [] [])
          [SetCursorPos 0 0;
           Log INFO "Mouse moved to initial position: (0, 0)";
           Sleep 50])
       (0, 0)).
Proof. repeat split; vm_compute; reflexivity. Qed.

(** ** More about the event loop *)

Lemma moves_app (a b : list io) : moves (a ++ b) = (moves a + moves b)%nat.
Proof.
  induction a as [|e a IH]; [reflexivity|].
  destruct e; cbn [moves app]; rewrite ?IH; reflexivity.
Qed.

Lemma records_app (a b : list io) : records (a ++ b) = (records a + records b)%nat.
Proof.
  induction a as [|e a IH]; [reflexivity|].
  destruct e; cbn [records app]; rewrite ?IH; reflexivity.
Qed.

Lemma slept_app (a b : list io) : slept (a ++ b) = slept a + slept b.
Proof.
  induction a as [|e a IH]; [reflexivity|].
  destruct e; cbn [slept app]; rewrite ?IH; lia.
Qed.

Lemma releases_app (b : Z) (l1 l2 : list event) :
  releases b (l1 ++ l2) = (releases b l1 + releases b l2)%nat.
Proof.
  induction l1 as [|e l1 IH]; [reflexivity|].
  destruct e as [joy b'| |ty]; cbn [releases app]; rewrite ?IH; try reflexivity.
  destruct (b' =? b); reflexivity.
Qed.

Lemma quits_app (l1 l2 : list event) :
  quits (l1 ++ l2) = (quits l1 + quits l2)%nat.
Proof.
  induction l1 as [|e l1 IH]; [reflexivity|].
  destruct e; cbn [quits app]; rewrite ?IH; reflexivity.
Qed.

Lemma set_cursor_same (w : world) : set_cursor w (cursor w) = w.
Proof. destruct w. reflexivity. Qed.

Lemma set_pending_same (w : world) : set_pending w (pending w) = w.
Proof. destruct w. reflexivity. Qed.

Lemma set_cursor_add_trace_nil (w : world) :
  set_cursor (add_trace w []) (cursor w) = w.
Proof. rewrite add_trace_nil. apply set_cursor_same. Qed.

(** The calls made for one release of the configured button [b] when the
    target is [(x, y)]. *)
Lemma handle_event_release (settings : Settings) (joy : Z) (w : world) (x y : Z) :
  int_of_product (screen_width w) (center_x settings) = Ret x ->
  int_of_product (screen_height w) (center_y settings) = Ret y ->
  is_c_int x -> is_c_int y ->
  handle_event settings (JOYBUTTONUP joy (button settings)) w
  = (Done (Ret tt),
     set_cursor
       (add_trace w
          ([Log INFO ("Button " ++ Str.of_Z (button settings) ++ " released!");
            Log INFO ("Button " ++ Str.of_Z (button settings) ++ " released!")]
           ++ center_mouse_calls x y))
       (x, y)).
Proof.
  intros Hx Hy Hcx Hcy. unfold handle_event.
  rewrite Z.eqb_refl.
  unfold bind at 1. unfold bind at 1. unfold logging_info, logging_log, emit.
  unfold bind at 1. rewrite print_button_released.
  rewrite (center_mouse_run _ _ _ x y) by assumption.
  cbn [ret]. rewrite !add_trace_add_trace. reflexivity.
Qed.

Section Accounting.

Variable settings : Settings.
Variables width height x y : Z.
Hypothesis target_x : int_of_product width (center_x settings) = Ret x.
Hypothesis target_y : int_of_product height (center_y settings) = Ret y.
Hypothesis target_x_int : is_c_int x.
Hypothesis target_y_int : is_c_int y.

Lemma cursor_after_add (n m : nat) (c : Z * Z) :
  cursor_after (x, y) m (cursor_after (x, y) n c) = cursor_after (x, y) (n + m) c.
Proof. destruct n, m; reflexivity. Qed.

Lemma handle_event_effect (ev : event) (w : world) :
  screen_width w = width -> screen_height w = height ->
  exists l,
    handle_event settings ev w
    = (Done (Ret tt),
       set_cursor (add_trace w l)
         (cursor_after (x, y) (releases (button settings) [ev]) (cursor w))) /\
    polls l = O /\
    moves l = (2 * releases (button settings) [ev])%nat /\
    slept l = 50 * Z.of_nat (releases (button settings) [ev]) /\
    records l = (4 * releases (button settings) [ev] + 2 * quits [ev])%nat.
Proof.
  intros Hw Hh. destruct ev as [joy b| |ty].
  - cbn [releases quits]. destruct (Z.eqb_spec b (button settings)) as [->|Hne].
    + eexists. rewrite (handle_event_release settings joy w x y)
        by (rewrite ?Hw, ?Hh; assumption).
      split; [reflexivity|]. repeat split.
    + exists []. rewrite handle_event_other_button by assumption.
      cbn [cursor_after]. rewrite set_cursor_add_trace_nil. repeat split.
  - exists quit_records. rewrite handle_event_quit.
    cbn [releases quits cursor_after].
    split; [|repeat split].
    rewrite <- (set_cursor_same (add_trace w quit_records)) at 1. reflexivity.
  - exists []. cbn [releases quits cursor_after].
    rewrite set_cursor_add_trace_nil. repeat split.
Qed.

Lemma for_each_effect (batch : list event) (w : world) :
  screen_width w = width -> screen_height w = height ->
  exists l,
    for_each batch (handle_event settings) w
    = (Done (Ret tt),
       set_cursor (add_trace w l)
         (cursor_after (x, y) (releases (button settings) batch) (cursor w))) /\
    polls l = O /\
    moves l = (2 * releases (button settings) batch)%nat /\
    slept l = 50 * Z.of_nat (releases (button settings) batch) /\
    records l = (4 * releases (button settings) batch + 2 * quits batch)%nat.
Proof.
  revert w. induction batch as [|ev batch IH]; intros w Hw Hh.
  - exists []. cbn [for_each releases quits cursor_after ret].
    rewrite set_cursor_add_trace_nil. repeat split.
  - destruct (handle_event_effect ev w Hw Hh) as (l1 & Hrun & Hp1 & Hm1 & Hs1 & Hr1).
    set (w1 := set_cursor (add_trace w l1)
                 (cursor_after (x, y) (releases (button settings) [ev]) (cursor w))) in *.
    destruct (IH w1 Hw Hh) as (l2 & Hrun2 & Hp2 & Hm2 & Hs2 & Hr2).
    exists (l1 ++ l2)%list.
    cbn [for_each]. unfold bind. rewrite Hrun, Hrun2.
    change (ev :: batch) with ([ev] ++ batch)%list.
    rewrite releases_app, quits_app, <- cursor_after_add.
    split.
    { subst w1. rewrite add_trace_set_cursor, add_trace_add_trace, set_cursor_set_cursor.
      reflexivity. }
    rewrite polls_app, moves_app, slept_app, records_app, Hp1, Hp2, Hm1, Hm2, Hs1, Hs2,
      Hr1, Hr2.
    repeat split; lia.
Qed.

Lemma poll_once_effect (w : world) :
  screen_width w = width -> screen_height w = height ->
  exists l,
    poll_once settings w
    = (Done (Ret tt),
       set_pending
         (set_cursor (add_trace w l)
            (cursor_after (x, y) (releases (button settings) (hd [] (pending w))) (cursor w)))
         (tail (pending w))) /\
    polls l = 1%nat /\
    moves l = (2 * releases (button settings) (hd [] (pending w)))%nat /\
    slept l = 100 + 50 * Z.of_nat (releases (button settings) (hd [] (pending w))) /\
    records l = (4 * releases (button settings) (hd [] (pending w))
                 + 2 * quits (hd [] (pending w)))%nat.
Proof.
  intros Hw Hh. unfold poll_once.
  unfold bind at 1. unfold pygame_event_pump, emit.
  unfold bind at 1. unfold pygame_event_get. unfold bind at 1. unfold emit.
  rewrite add_trace_add_trace.
  change (pending (add_trace w ([EventPump] ++ [EventGet]))) with (pending w).
  set (w0 := add_trace w ([EventPump] ++ [EventGet])).
  destruct (for_each_effect (hd [] (pending w)) (set_pending w0 (tail (pending w))) Hw Hh)
    as (l & Hrun & Hp & Hm & Hs & Hr).
  exists ([EventPump; EventGet] ++ l ++ [Sleep 100])%list.
  split.
  - destruct (pending w) as [|batch rest] eqn:Hpend; cbn [hd tail] in *.
    + assert (Hnil : forall v, pending v = [] -> set_pending v [] = v).
      { intros [] Hv. cbn in Hv. subst. reflexivity. }
      rewrite (Hnil w0 Hpend) in Hrun.
      unfold bind at 1. rewrite Hrun. unfold time_sleep, emit. subst w0.
      rewrite add_trace_set_cursor, !add_trace_add_trace.
      rewrite Hnil by exact Hpend.
      rewrite <- app_assoc. reflexivity.
    + unfold bind at 1. rewrite Hrun. unfold time_sleep, emit. subst w0.
      rewrite !add_trace_set_cursor, !add_trace_set_pending, !add_trace_add_trace.
      rewrite <- app_assoc. reflexivity.
  - rewrite !polls_app, !moves_app, !slept_app, !records_app, Hp, Hm, Hs, Hr.
    cbn [polls moves slept records]. repeat split; lia.
Qed.

Lemma event_loop_effect (n : nat) (w : world) :
  screen_width w = width -> screen_height w = height ->
  exists l,
    event_loop n settings w
    = (Looping,
       set_pending
         (set_cursor (add_trace w l)
            (cursor_after (x, y) (releases (button settings) (concat (firstn n (pending w))))
                          (cursor w)))
         (skipn n (pending w))) /\
    polls l = n /\
    moves l = (2 * releases (button settings) (concat (firstn n (pending w))))%nat /\
    slept l = 100 * Z.of_nat n
              + 50 * Z.of_nat (releases (button settings) (concat (firstn n (pending w)))) /\
    records l = (4 * releases (button settings) (concat (firstn n (pending w)))
                 + 2 * quits (concat (firstn n (pending w))))%nat.
Proof.
  revert w. induction n as [|n IH]; intros w Hw Hh.
  - exists []. cbn [firstn skipn concat releases quits cursor_after].
    unfold event_loop. cbn [while_True].
    rewrite set_cursor_add_trace_nil, set_pending_same. repeat split.
  - destruct (poll_once_effect w Hw Hh) as (l1 & Hrun & Hp1 & Hm1 & Hs1 & Hr1).
    set (w1 := set_pending
                 (set_cursor (add_trace w l1)
                    (cursor_after (x, y) (releases (button settings) (hd [] (pending w)))
                       (cursor w)))
                 (tail (pending w))) in *.
    destruct (IH w1 Hw Hh) as (l2 & Hrun2 & Hp2 & Hm2 & Hs2 & Hr2).
    exists (l1 ++ l2)%list.
    unfold event_loop in *. cbn [while_True]. unfold bind. rewrite Hrun, Hrun2.
    assert (Hcat : concat (firstn (S n) (pending w))
                   = (hd [] (pending w) ++ concat (firstn n (tail (pending w))))%list).
    { destruct (pending w) as [|batch rest]; cbn [firstn concat hd tail].
      - rewrite firstn_nil. reflexivity.
      - reflexivity. }
    assert (Hskip : skipn (S n) (pending w) = skipn n (tail (pending w))).
    { destruct (pending w) as [|batch rest]; cbn [skipn tail]; [|reflexivity].
      rewrite skipn_nil. reflexivity. }
    rewrite Hcat, Hskip, releases_app, quits_app, <- cursor_after_add.
    change (pending w1) with (tail (pending w)) in *.
    change (cursor w1)
      with (cursor_after (x, y) (releases (button settings) (hd [] (pending w))) (cursor w)) in *.
    split.
    { subst w1. f_equal.
      rewrite add_trace_set_pending, add_trace_set_cursor, add_trace_add_trace.
      reflexivity. }
    rewrite polls_app, moves_app, slept_app, records_app, Hp1, Hp2, Hm1, Hm2, Hs1, Hs2,
      Hr1, Hr2.
    repeat split; lia.
Qed.

End Accounting.

(** X3: the release of the configured button, on whichever joystick it
    happens (the event's joystick is not looked at), is logged twice (by
    [logging.info] and by the redirected [print]) and followed by the
    calls of [center_mouse]; the cursor ends at the target. *)
Theorem configured_button_release_moves (settings : Settings) (joy : Z) (w : world) :
  settings_ok settings -> screen_ok w ->
  exists x y,
    int_of_product (screen_width w) (center_x settings) = Ret x /\
    int_of_product (screen_height w) (center_y settings) = Ret y /\
    handle_event settings (JOYBUTTONUP joy (button settings)) w
    = (Done (Ret tt),
       set_cursor
         (add_trace w
            [ Log INFO ("Button " ++ Str.of_Z (button settings) ++ " released!");
              Log INFO ("Button " ++ Str.of_Z (button settings) ++ " released!");
              SetCursorPos 0 0;
              Log INFO "Mouse moved to initial position: (0, 0)";
              Sleep 50;
              SetCursorPos x y;
              Log INFO ("Mouse moved to second position: (" ++ Str.of_Z x ++ ", "
                        ++ Str.of_Z y ++ ")") ])
         (x, y)).
Proof.
  intros (Hvx & Hvy & Hux & Huy) [Hw Hh].
  destruct (int_of_product_c_int _ _ Hw Hvx Hux) as (x & Hx & Hcx & _).
  destruct (int_of_product_c_int _ _ Hh Hvy Huy) as (y & Hy & Hcy & _).
  exists x, y. split; [exact Hx|]. split; [exact Hy|].
  now apply handle_event_release.
Qed.

Lemma configured_button_release_moves_witness :
  exists x y,
    int_of_product 1366 Demo.five_eighths = Ret x /\
    int_of_product 768 Demo.half = Ret y /\
    handle_event (Demo.settings 0 2) (JOYBUTTONUP 7 2) (Demo.boot None [Demo.stick] [])
    = (Done (Ret tt),
       set_cursor
         (add_trace (Demo.boot None [Demo.stick] [])
            [ Log INFO ("Button " ++ Str.of_Z 2 ++ " released!");
              Log INFO ("Button " ++ Str.of_Z 2 ++ " released!");
              SetCursorPos 0 0;
              Log INFO "Mouse moved to initial position: (0, 0)";
              Sleep 50;
              SetCursorPos x y;
              Log INFO ("Mouse moved to second position: (" ++ Str.of_Z x ++ ", "
                        ++ Str.of_Z y ++ ")") ])
         (x, y)).
Proof.
  apply (configured_button_release_moves (Demo.settings 0 2) 7
           (Demo.boot None [Demo.stick] [])).
  - apply demo_settings_ok.
  - apply demo_screen_ok.
Defined.

(** X4: what [n] turns of the loop add up to.  The loop is still going;
    it has consumed the first [n] pending batches of events, polled [n]
    times, slept 100 ms per turn and 50 ms per release of the configured
    button, called [SetCursorPos] twice per such release and never
    otherwise, and written four records per release and two per quit
    event.  The cursor is at the target if there was a release, and where
    it was if there was none. *)
Theorem event_loop_accounting (settings : Settings) (n : nat) (w : world) :
  settings_ok settings -> screen_ok w ->
  exists x y l,
    int_of_product (screen_width w) (center_x settings) = Ret x /\
    int_of_product (screen_height w) (center_y settings) = Ret y /\
    event_loop n settings w
    = (Looping,
       set_pending
         (set_cursor (add_trace w l)
            (cursor_after (x, y)
               (releases (button settings) (concat (firstn n (pending w))))
               (cursor w)))
         (skipn n (pending w))) /\
    polls l = n /\
    moves l = (2 * releases (button settings) (concat (firstn n (pending w))))%nat /\
    slept l = 100 * Z.of_nat n
              + 50 * Z.of_nat (releases (button settings) (concat (firstn n (pending w)))) /\
    records l = (4 * releases (button settings) (concat (firstn n (pending w)))
                 + 2 * quits (concat (firstn n (pending w))))%nat.
Proof.
  intros (Hvx & Hvy & Hux & Huy) [Hw Hh].
  destruct (int_of_product_c_int _ _ Hw Hvx Hux) as (x & Hx & Hcx & _).
  destruct (int_of_product_c_int _ _ Hh Hvy Huy) as (y & Hy & Hcy & _).
  destruct (event_loop_effect settings _ _ x y Hx Hy Hcx Hcy n w eq_refl eq_refl)
    as (l & Hrun & Hrest).
  exists x, y, l. split; [exact Hx|]. split; [exact Hy|]. split; [exact Hrun|exact Hrest].
Qed.

Lemma event_loop_accounting_witness :
  exists x y l,
    int_of_product 1366 Demo.five_eighths = Ret x /\
    int_of_product 768 Demo.half = Ret y /\
    event_loop 3 (Demo.settings 0 2)
      (Demo.boot None [Demo.stick] [[QUIT; JOYBUTTONUP 0 1]; [JOYBUTTONUP 1 2]])
    = (Looping,
       set_pending
         (set_cursor
            (add_trace
               (Demo.boot None [Demo.stick] [[QUIT; JOYBUTTONUP 0 1]; [JOYBUTTONUP 1 2]]) l)
            (cursor_after (x, y)
               (releases 2
                  (concat (firstn 3 [[QUIT; JOYBUTTONUP 0 1]; [JOYBUTTONUP 1 2]])))
               (100, 100)))
         (skipn 3 [[QUIT; JOYBUTTONUP 0 1]; [JOYBUTTONUP 1 2]])) /\
    polls l = 3%nat /\
    moves l
    = (2 * releases 2 (concat (firstn 3 [[QUIT; JOYBUTTONUP 0 1]; [JOYBUTTONUP 1 2]])))%nat /\
    slept l
    = 100 * Z.of_nat 3
      + 50 * Z.of_nat
               (releases 2 (concat (firstn 3 [[QUIT; JOYBUTTONUP 0 1]; [JOYBUTTONUP 1 2]]))) /\
    records l
    = (4 * releases 2 (concat (firstn 3 [[QUIT; JOYBUTTONUP 0 1]; [JOYBUTTONUP 1 2]]))
       + 2 * quits (concat (firstn 3 [[QUIT; JOYBUTTONUP 0 1]; [JOYBUTTONUP 1 2]])))%nat.
Proof.
  apply (event_loop_accounting (Demo.settings 0 2) 3
           (Demo.boot None [Demo.stick] [[QUIT; JOYBUTTONUP 0 1]; [JOYBUTTONUP 1 2]])).
  - apply demo_settings_ok.
  - apply demo_screen_ok.
Defined.

(** ** [LogRedirect.write] and the redirected [print] *)

Lemma lstrip_all_space (s : string) :
  Str.all_space s -> Str.lstrip s = EmptyString.
Proof.
  unfold Str.all_space. induction s as [|c s IH]; [reflexivity|].
  cbn [list_ascii_of_string Str.lstrip]. intros H. inversion H as [|? ? Hc Hs]; subst.
  rewrite Hc. apply IH, Hs.
Qed.

Lemma strip_empty_iff (s : string) :
  Str.is_empty (Str.strip s) = true <-> Str.all_space s.
Proof.
  split.
  - intros He. apply is_empty_true in He.
    destruct (strip_spec s) as (lead & trail & Hs & Hlead & Htrail & _).
    rewrite He, append_empty_l in Hs. rewrite Hs. now apply all_space_app.
  - intros Hs. unfold Str.strip. rewrite (lstrip_all_space s Hs). reflexivity.
Qed.

(** X5: [LogRedirect.write] logs a message with the spaces around it
    removed, as one record, and logs nothing at all for a message made of
    spaces only (the empty one, a lone line end); so the redirected
    [print] leaves exactly one record for a text that is not blank and
    none for a blank one. *)
Theorem LogRedirect_write_strips (lv : level) (message : string) (w : world) :
  exists lead v trail,
    message = lead ++ v ++ trail /\
    Str.all_space lead /\ Str.all_space trail /\ no_outer_space v /\
    (Str.is_empty v = true <-> Str.all_space message) /\
    LogRedirect_write lv message w
    = (Done (Ret tt), if Str.is_empty v then w else add_trace w [Log lv v]) /\
    print message w
    = (Done (Ret tt), if Str.is_empty v then w else add_trace w [Log INFO v]).
Proof.
  destruct (strip_spec message) as (lead & trail & Hs & Hlead & Htrail & Hv).
  exists lead, (Str.strip message), trail.
  split; [exact Hs|]. split; [exact Hlead|]. split; [exact Htrail|].
  split; [exact Hv|]. split; [apply strip_empty_iff|].
  assert (Hw : forall lv', LogRedirect_write lv' message w
               = (Done (Ret tt),
                  if Str.is_empty (Str.strip message) then w
                  else add_trace w [Log lv' (Str.strip message)])).
  { intros lv'. unfold LogRedirect_write.
    destruct (Str.is_empty (Str.strip message)); reflexivity. }
  split; [apply Hw|].
  unfold print, bind. rewrite Hw.
  destruct (Str.is_empty (Str.strip message)); reflexivity.
Qed.

Lemma LogRedirect_write_strips_witness :
  exists lead v trail,
    "  ready
" = lead ++ v ++ trail /\
    Str.all_space lead /\ Str.all_space trail /\ no_outer_space v /\
    (Str.is_empty v = true <-> Str.all_space "  ready
") /\
    LogRedirect_write ERROR "  ready
" (Demo.boot None [] [])
    = (Done (Ret tt),
       if Str.is_empty v then Demo.boot None [] []
       else add_trace (Demo.boot None [] []) [Log ERROR v]) /\
    print "  ready
" (Demo.boot None [] [])
    = (Done (Ret tt),
       if Str.is_empty v then Demo.boot None [] []
       else add_trace (Demo.boot None [] []) [Log INFO v]).
Proof.
  exact (LogRedirect_write_strips ERROR "  ready
" (Demo.boot None [] [])).
Defined.

(** ** More about [load_config] *)

Section LoadConfigMore.

Variable py_int : string -> result Z.
Variable py_float : string -> result spec_float.
Hypothesis py_int_raises :
  forall s e, py_int s = Raise e -> exists m, e = ValueError m.
Hypothesis py_float_raises :
  forall s e, py_float s = Raise e -> exists m, e = ValueError m.

(** X6: [load_config] has three outcomes and no other.  It returns
    settings, which are the four values of the file parsed and whose
    centres both lie in [0.0, 1.0]; or it writes one error record and
    raises [SystemExit(1)]; or an error of [configparser] itself goes
    through it, nothing being written: what [config.read] raised on a
    file that does not parse, or the interpolation error of one of the
    four values.  In every case its only other call is the reading of
    [config.ini]. *)
Theorem load_config_outcomes (w : world) :
  (exists s,
     load_config py_int py_float w
     = (Done (Ret s), add_trace w [ConfigRead "config.ini"]) /\
     config_file w <> None /\
     parsed_values py_int py_float (config_file w)
       (device s) (button s) (center_x s) (center_y s) /\
     in_unit (center_x s) = true /\ in_unit (center_y s) = true) \/
  (exists msg,
     load_config py_int py_float w
     = (Done (Raise (SystemExit 1)),
        add_trace w [ConfigRead "config.ini"; Log ERROR msg])) \/
  (exists e,
     load_config py_int py_float w
     = (Done (Raise e), add_trace w [ConfigRead "config.ini"]) /\
     ((exists err,
         config_file w = None /\ config_error w = Some err /\ e = ReadError err) \/
      (exists ie section key,
         e = InterpolationError ie /\ In (section, key) required_keys /\
         config_getitem (config_file w) section key = Raise e))).
Proof.
  destruct (load_config_outcome py_int py_float py_int_raises py_float_raises w)
    as [(s & Hcfg & Hs & Hload)|[(msg & _ & Hload)|(e & Hcause & Hload)]].
  - left. exists s. split; [exact Hload|]. split; [exact Hcfg|].
    now apply settings_of_config_ret.
  - right. left. exists msg. exact Hload.
  - right. right. exists e. split; [exact Hload|].
    destruct Hcause as [Herr|(_ & Hint)]; [left; exact Herr|right; exact Hint].
Qed.

End LoadConfigMore.

Lemma load_config_outcomes_witness :
  (exists s,
     load_config Demo.int Demo.float
       (Demo.boot (Some (Demo.config "0" "2 ; trigger" "0.625" "0.5")) [] [])
     = (Done (Ret s),
        add_trace (Demo.boot (Some (Demo.config "0" "2 ; trigger" "0.625" "0.5")) [] [])
          [ConfigRead "config.ini"]) /\
     config_file (Demo.boot (Some (Demo.config "0" "2 ; trigger" "0.625" "0.5")) [] [])
     <> None /\
     parsed_values Demo.int Demo.float
       (config_file (Demo.boot (Some (Demo.config "0" "2 ; trigger" "0.625" "0.5")) [] []))
       (device s) (button s) (center_x s) (center_y s) /\
     in_unit (center_x s) = true /\ in_unit (center_y s) = true) \/
  (exists msg,
     load_config Demo.int Demo.float
       (Demo.boot (Some (Demo.config "0" "2 ; trigger" "0.625" "0.5")) [] [])
     = (Done (Raise (SystemExit 1)),
        add_trace (Demo.boot (Some (Demo.config "0" "2 ; trigger" "0.625" "0.5")) [] [])
          [ConfigRead "config.ini"; Log ERROR msg])) \/
  (exists e,
     load_config Demo.int Demo.float
       (Demo.boot (Some (Demo.config "0" "2 ; trigger" "0.625" "0.5")) [] [])
     = (Done (Raise e),
        add_trace (Demo.boot (Some (Demo.config "0" "2 ; trigger" "0.625" "0.5")) [] [])
          [ConfigRead "config.ini"]) /\
     ((exists err,
         config_file (Demo.boot (Some (Demo.config "0" "2 ; trigger" "0.625" "0.5")) [] [])
         = None /\
         config_error (Demo.boot (Some (Demo.config "0" "2 ; trigger" "0.625" "0.5")) [] [])
         = Some err /\ e = ReadError err) \/
      (exists ie section key,
         e = InterpolationError ie /\ In (section, key) required_keys /\
         config_getitem
           (config_file
              (Demo.boot (Some (Demo.config "0" "2 ; trigger" "0.625" "0.5")) [] []))
           section key
         = Raise e))).
Proof.
  exact (load_config_outcomes Demo.int Demo.float demo_int_raises demo_float_raises
           (Demo.boot (Some (Demo.config "0" "2 ; trigger" "0.625" "0.5")) [] [])).
Defined.

(** The three outcomes of X6, run: settings; an exit after the record of
    a file that cannot be opened; the error of a file without section
    header and that of a reference to an option that does not exist,
    which go through unlogged. *)
Example load_config_outcomes_run :
  fst (load_config Demo.int Demo.float
         (Demo.boot (Some (Demo.config "0" "2 ; trigger" "0.625" "0.5")) [] []))
  = Done (Ret (Demo.settings 0 2)) /\
  load_config Demo.int Demo.float (Demo.boot None [] [])
  = (Done (Raise (SystemExit 1)),
     add_trace (Demo.boot None [] [])
       [ConfigRead "config.ini";
        Log ERROR "Configuration file 'config.ini' not found or invalid."]) /\
  load_config Demo.int Demo.float
    (demo_malformed (MissingSectionHeaderError "File contains no section headers."))
  = (Done (Raise (ReadError (MissingSectionHeaderError "File contains no section headers."))),
     add_trace
       (demo_malformed (MissingSectionHeaderError "File contains no section headers."))
       [ConfigRead "config.ini"]) /\
  load_config Demo.int Demo.float
    (Demo.boot (Some (Demo.config "0" "%(Trigger)s" "0.625" "0.5")) [] [])
  = (Done (Raise (InterpolationError
                    (InterpolationMissingOptionError "button" "Joystick" "%(Trigger)s"
                       "trigger"))),
     add_trace (Demo.boot (Some (Demo.config "0" "%(Trigger)s" "0.625" "0.5")) [] [])
       [ConfigRead "config.ini"]).
Proof. repeat split; vm_compute; reflexivity. Qed.

Section LoadConfigEdges.

Variable py_int : string -> result Z.
Variable py_float : string -> result spec_float.

Lemma never_in_unit_false (x : spec_float) : never_in_unit x -> in_unit x = false.
Proof.
  destruct x as [s|s| |[] m e]; cbn [never_in_unit]; intros H; try contradiction;
    try reflexivity.
  destruct s; reflexivity.
Qed.

Lemma load_config_of_settings (w : world) cfg (r : result Settings) :
  config_file w = Some cfg ->
  settings_of_config py_int py_float (Some cfg) = r ->
  load_config py_int py_float w
  = match r with
    | Ret s => (Done (Ret s), add_trace w [ConfigRead CONFIG_FILE])
    | Raise (KeyError k) =>
        (Done (Raise (SystemExit 1)),
         add_trace w [ConfigRead CONFIG_FILE;
                      Log ERROR ("Missing configuration key: " ++ Str.repr k)])
    | Raise (ValueError m) | Raise (ReadError (UnicodeDecodeError m)) =>
        (Done (Raise (SystemExit 1)),
         add_trace w [ConfigRead CONFIG_FILE;
                      Log ERROR ("Invalid value in configuration: " ++ m)])
    | Raise e => (Done (Raise e), add_trace w [ConfigRead CONFIG_FILE])
    end.
Proof. intros Hcfg <-. rewrite load_config_run, Hcfg. reflexivity. Qed.

(** X7: the special floats.  When the file parses, the four values read
    and a centre is a NaN, an infinity or negative, [load_config] rejects
    it with the range error, as it does 1.5: the chained comparison is
    false on a NaN.  Negative zero passes the test, [0.0 <= -0.0] being
    true. *)
Theorem load_config_special_floats (w : world) (d b : Z) (cx cy : spec_float) :
  config_file w <> None ->
  parsed_values py_int py_float (config_file w) d b cx cy ->
  (never_in_unit cx \/ never_in_unit cy ->
   load_config py_int py_float w
   = (Done (Raise (SystemExit 1)),
      add_trace w
        [ConfigRead "config.ini";
         Log ERROR "Invalid value in configuration: center_x and center_y must be between 0.0 and 1.0."])) /\
  (cx = S754_zero true -> in_unit cy = true ->
   load_config py_int py_float w
   = (Done (Ret {| device := d; button := b; center_x := S754_zero true; center_y := cy |}),
      add_trace w [ConfigRead "config.ini"])).
Proof.
  intros Hcfg Hp.
  destruct (config_file w) as [cfg|] eqn:Hc; [|contradiction].
  split.
  - intros Hbad.
    assert (Hu : in_unit cx && in_unit cy = false).
    { destruct Hbad as [H|H]; apply never_in_unit_false in H; rewrite H;
        [reflexivity|apply andb_false_r]. }
    rewrite (load_config_of_settings w cfg _ Hc
               (settings_of_config_range py_int py_float _ _ _ _ _ Hp Hu)).
    reflexivity.
  - intros -> Hy.
    assert (Hs : settings_of_config py_int py_float (Some cfg)
                 = Ret {| device := d; button := b; center_x := S754_zero true;
                          center_y := cy |}).
    { destruct Hp as (vd & vb & vx & vy & E1 & P1 & E2 & P2 & E3 & P3 & E4 & P4).
      unfold settings_of_config.
      rewrite E1; cbn [result_bind]; rewrite P1; cbn [result_bind].
      rewrite E2; cbn [result_bind]; rewrite P2; cbn [result_bind].
      rewrite E3; cbn [result_bind]; rewrite P3; cbn [result_bind].
      rewrite E4; cbn [result_bind]; rewrite P4; cbn [result_bind].
      rewrite Hy. reflexivity. }
    rewrite (load_config_of_settings w cfg _ Hc Hs). reflexivity.
Qed.

Lemma config_getitem_no_section (cfg : gmap string (gmap string string))
    (section key : string) :
  String.eqb section DEFAULTSECT = false -> cfg !! section = None ->
  config_getitem (Some cfg) section key = Raise (KeyError section).
Proof.
  intros Hd Hsec. unfold config_getitem, section_options.
  change (default empty (Some cfg)) with cfg. rewrite Hd, Hsec. reflexivity.
Qed.

Lemma config_getitem_no_option (cfg : gmap string (gmap string string))
    (section key : string) (options : gmap string string) :
  section_options cfg section = Some options -> options !! Str.lower key = None ->
  config_getitem (Some cfg) section key = Raise (KeyError key).
Proof.
  intros Hsec Hkey. unfold config_getitem.
  change (default empty (Some cfg)) with cfg. rewrite Hsec, Hkey. reflexivity.
Qed.

(** X8: in a file that parses, the first thing wrong decides how
    [load_config] ends, [device] being read first: a file without the
    section [Joystick] is reported as the missing key ['Joystick']; a
    section in which [device] is neither an option nor a default as the
    missing key ['device']; a [device] whose text reads and that [int]
    refuses with that [ValueError]'s text; and a [device] whose value
    does not interpolate makes [load_config] raise that error unlogged:
    whatever the other options hold. *)
Theorem load_config_first_error (w : world) (cfg : gmap string (gmap string string)) :
  config_file w = Some cfg ->
  (cfg !! "Joystick" = None ->
   load_config py_int py_float w
   = (Done (Raise (SystemExit 1)),
      add_trace w [ConfigRead "config.ini";
                   Log ERROR "Missing configuration key: 'Joystick'"])) /\
  (forall options,
     section_options cfg "Joystick" = Some options -> options !! "device" = None ->
     load_config py_int py_float w
     = (Done (Raise (SystemExit 1)),
        add_trace w [ConfigRead "config.ini";
                     Log ERROR "Missing configuration key: 'device'"])) /\
  (forall v m,
     read_value (Some cfg) "Joystick" "device" = Ret v ->
     py_int v = Raise (ValueError m) ->
     load_config py_int py_float w
     = (Done (Raise (SystemExit 1)),
        add_trace w [ConfigRead "config.ini";
                     Log ERROR ("Invalid value in configuration: " ++ m)])) /\
  (forall ie,
     config_getitem (Some cfg) "Joystick" "device" = Raise (InterpolationError ie) ->
     load_config py_int py_float w
     = (Done (Raise (InterpolationError ie)), add_trace w [ConfigRead "config.ini"])).
Proof.
  intros Hc. split; [|split; [|split]].
  - intros Hsec.
    assert (Hs : settings_of_config py_int py_float (Some cfg) = Raise (KeyError "Joystick")).
    { unfold settings_of_config, read_value.
      rewrite (config_getitem_no_section cfg "Joystick" "device" eq_refl Hsec).
      reflexivity. }
    rewrite (load_config_of_settings w cfg _ Hc Hs). reflexivity.
  - intros options Hsec Hkey.
    assert (Hs : settings_of_config py_int py_float (Some cfg) = Raise (KeyError "device")).
    { unfold settings_of_config, read_value.
      rewrite (config_getitem_no_option cfg "Joystick" "device" options Hsec Hkey).
      reflexivity. }
    rewrite (load_config_of_settings w cfg _ Hc Hs). reflexivity.
  - intros v m Hv Hm.
    assert (Hs : settings_of_config py_int py_float (Some cfg) = Raise (ValueError m)).
    { unfold settings_of_config. rewrite Hv. cbn [result_bind]. rewrite Hm. reflexivity. }
    rewrite (load_config_of_settings w cfg _ Hc Hs). reflexivity.
  - intros ie Hget.
    assert (Hs : settings_of_config py_int py_float (Some cfg)
                 = Raise (InterpolationError ie)).
    { unfold settings_of_config, read_value. rewrite Hget. reflexivity. }
    rewrite (load_config_of_settings w cfg _ Hc Hs). reflexivity.
Qed.

End LoadConfigEdges.

Lemma load_config_special_floats_witness :
  (never_in_unit S754_nan \/ never_in_unit Demo.half ->
   load_config Demo.int demo_float_special
     (Demo.boot (Some (Demo.config "0" "2" "nan" "0.5")) [Demo.stick] [])
   = (Done (Raise (SystemExit 1)),
      add_trace (Demo.boot (Some (Demo.config "0" "2" "nan" "0.5")) [Demo.stick] [])
        [ConfigRead "config.ini";
         Log ERROR "Invalid value in configuration: center_x and center_y must be between 0.0 and 1.0."])) /\
  (S754_nan = S754_zero true -> in_unit Demo.half = true ->
   load_config Demo.int demo_float_special
     (Demo.boot (Some (Demo.config "0" "2" "nan" "0.5")) [Demo.stick] [])
   = (Done (Ret {| device := 0; button := 2; center_x := S754_zero true;
                   center_y := Demo.half |}),
      add_trace (Demo.boot (Some (Demo.config "0" "2" "nan" "0.5")) [Demo.stick] [])
        [ConfigRead "config.ini"])).
Proof.
  apply (load_config_special_floats Demo.int demo_float_special
           (Demo.boot (Some (Demo.config "0" "2" "nan" "0.5")) [Demo.stick] [])
           0 2 S754_nan Demo.half).
  - discriminate.
  - exists "0", "2", "nan", "0.5". repeat split; vm_compute; reflexivity.
Defined.

(** The two halves of X7, run: a NaN centre is refused, a negative zero
    accepted. *)
Example load_config_nan_and_negative_zero :
  fst (load_config Demo.int demo_float_special
         (Demo.boot (Some (Demo.config "0" "2" "nan" "0.5")) [Demo.stick] []))
  = Done (Raise (SystemExit 1)) /\
  fst (load_config Demo.int demo_float_special
         (Demo.boot (Some (Demo.config "0" "2" "-0.0" "0.5")) [Demo.stick] []))
  = Done (Ret {| device := 0; button := 2; center_x := S754_zero true;
                 center_y := Demo.half |}).
Proof. split; vm_compute; reflexivity. Qed.

Lemma load_config_first_error_witness :
  load_config Demo.int Demo.float
    (Demo.boot (Some {[ "Mouse" := {[ "center_x" := "0.5"; "center_y" := "0.5" ]} ]})
       [Demo.stick] [])
  = (Done (Raise (SystemExit 1)),
     add_trace
       (Demo.boot (Some {[ "Mouse" := {[ "center_x" := "0.5"; "center_y" := "0.5" ]} ]})
          [Demo.stick] [])
       [ConfigRead "config.ini"; Log ERROR "Missing configuration key: 'Joystick'"]) /\
  load_config Demo.int Demo.float
    (Demo.boot (Some {[ "Joystick" := {[ "button" := "two" ]} ]}) [Demo.stick] [])
  = (Done (Raise (SystemExit 1)),
     add_trace
       (Demo.boot (Some {[ "Joystick" := {[ "button" := "two" ]} ]}) [Demo.stick] [])
       [ConfigRead "config.ini"; Log ERROR "Missing configuration key: 'device'"]) /\
  load_config Demo.int Demo.float
    (Demo.boot (Some (Demo.config "two" "2%" "0.5" "0.5")) [Demo.stick] [])
  = (Done (Raise (SystemExit 1)),
     add_trace (Demo.boot (Some (Demo.config "two" "2%" "0.5" "0.5")) [Demo.stick] [])
       [ConfigRead "config.ini";
        Log ERROR ("Invalid value in configuration: "
                   ++ "invalid literal for int() with base 10: 'two'")]) /\
  load_config Demo.int Demo.float
    (Demo.boot (Some (Demo.config "5%" "two" "0.5" "0.5")) [Demo.stick] [])
  = (Done (Raise (InterpolationError (InterpolationSyntaxError "device" "Joystick" "%"))),
     add_trace (Demo.boot (Some (Demo.config "5%" "two" "0.5" "0.5")) [Demo.stick] [])
       [ConfigRead "config.ini"]).
Proof.
  split; [|split; [|split]].
  - apply (proj1 (load_config_first_error Demo.int Demo.float
                    (Demo.boot
                       (Some {[ "Mouse" := {[ "center_x" := "0.5"; "center_y" := "0.5" ]} ]})
                       [Demo.stick] [])
                    _ eq_refl)).
    vm_compute. reflexivity.
  - apply (proj1 (proj2 (load_config_first_error Demo.int Demo.float
                           (Demo.boot (Some {[ "Joystick" := {[ "button" := "two" ]} ]})
                              [Demo.stick] [])
                           _ eq_refl))
             (union {[ "button" := "two" ]} empty)).
    + reflexivity.
    + vm_compute. reflexivity.
  - apply (proj1 (proj2 (proj2 (load_config_first_error Demo.int Demo.float
                                  (Demo.boot (Some (Demo.config "two" "2%" "0.5" "0.5"))
                                     [Demo.stick] [])
                                  _ eq_refl)))
             "two").
    + vm_compute. reflexivity.
    + reflexivity.
  - apply (proj2 (proj2 (proj2 (load_config_first_error Demo.int Demo.float
                                  (Demo.boot (Some (Demo.config "5%" "two" "0.5" "0.5"))
                                     [Demo.stick] [])
                                  _ eq_refl)))).
    vm_compute. reflexivity.
Defined.

(** ** More about the cleaning of a value *)

Lemma has_char_app (c : ascii) (a b : string) :
  Str.has_char c (a ++ b) <-> Str.has_char c a \/ Str.has_char c b.
Proof.
  unfold Str.has_char. induction a as [|x a IH].
  - rewrite append_empty_l. cbn [list_ascii_of_string In]. tauto.
  - rewrite append_cons. cbn [list_ascii_of_string In]. tauto.
Qed.

Lemma all_space_no_semicolon (s : string) :
  Str.all_space s -> ~ Str.has_char ";" s.
Proof.
  unfold Str.all_space, Str.has_char. induction s as [|c s IH].
  - intros _ [].
  - cbn [list_ascii_of_string In]. intros H [Heq|Hin].
    + inversion H; subst. discriminate.
    + inversion H; subst. now apply IH.
Qed.

Lemma split_no_sep (sep : ascii) (s : string) :
  ~ Str.has_char sep s -> Str.split sep s = [s].
Proof.
  unfold Str.has_char. induction s as [|c s IH]; [reflexivity|].
  cbn [list_ascii_of_string In Str.split]. intros Hno.
  destruct (Ascii.eqb_spec c sep) as [->|Hc]; [exfalso; apply Hno; left; reflexivity|].
  rewrite IH by (intros Hin; apply Hno; right; exact Hin). reflexivity.
Qed.

Lemma split_app_sep (sep : ascii) (pre rest : string) :
  ~ Str.has_char sep pre ->
  Str.split sep (pre ++ String sep rest) = pre :: Str.split sep rest.
Proof.
  unfold Str.has_char. induction pre as [|c pre IH].
  - intros _. rewrite append_empty_l. cbn [Str.split]. rewrite Ascii.eqb_refl. reflexivity.
  - cbn [list_ascii_of_string In]. intros Hno. rewrite append_cons. cbn [Str.split].
    destruct (Ascii.eqb_spec c sep) as [->|Hc]; [exfalso; apply Hno; left; reflexivity|].
    rewrite IH by (intros Hin; apply Hno; right; exact Hin). reflexivity.
Qed.

Lemma lstrip_app_space (lead s : string) :
  Str.all_space lead -> Str.lstrip (lead ++ s) = Str.lstrip s.
Proof.
  unfold Str.all_space. induction lead as [|c lead IH].
  - intros _. now rewrite append_empty_l.
  - cbn [list_ascii_of_string]. intros H. inversion H as [|? ? Hc Hl]; subst.
    rewrite append_cons. cbn [Str.lstrip]. rewrite Hc. now apply IH.
Qed.

Lemma rstrip_all_space (s : string) :
  Str.all_space s -> Str.rstrip s = EmptyString.
Proof.
  unfold Str.all_space. induction s as [|c s IH]; [reflexivity|].
  cbn [list_ascii_of_string]. intros H. inversion H as [|? ? Hc Hl]; subst.
  rewrite rstrip_cons, (IH Hl), Hc. reflexivity.
Qed.

Lemma rstrip_app_space (v trail : string) :
  Str.all_space trail -> Str.rstrip (v ++ trail) = Str.rstrip v.
Proof.
  intros Ht. induction v as [|c v IH].
  - rewrite append_empty_l. now apply rstrip_all_space.
  - rewrite append_cons, !rstrip_cons, IH. reflexivity.
Qed.

Lemma rstrip_keeps (v : string) :
  (forall r c, v = r ++ String c EmptyString -> Str.isspace c = false) ->
  Str.rstrip v = v.
Proof.
  induction v as [|c v IH]; [reflexivity|]. intros Hlast.
  rewrite rstrip_cons, IH.
  - destruct v as [|c' v'].
    + rewrite (Hlast EmptyString c) by reflexivity. reflexivity.
    + cbn [Str.is_empty]. rewrite andb_false_r. reflexivity.
  - intros r c' Hv. apply (Hlast (String c r) c'). rewrite append_cons, Hv. reflexivity.
Qed.

Lemma strip_padded (lead v trail : string) :
  Str.all_space lead -> Str.all_space trail -> no_outer_space v ->
  Str.strip (lead ++ v ++ trail) = v.
Proof.
  intros Hl Ht [Hfirst Hlast]. unfold Str.strip.
  rewrite lstrip_app_space by assumption.
  destruct v as [|c r].
  - rewrite append_empty_l, (lstrip_all_space trail Ht). reflexivity.
  - rewrite append_cons. cbn [Str.lstrip]. rewrite (Hfirst c r eq_refl).
    rewrite <- append_cons, rstrip_app_space by assumption.
    now apply rstrip_keeps.
Qed.

(** X9: the text read for a key is found this way and no other: if the
    text that [config[section][key]] returns (the value of the file
    itself when it holds no [%], its interpolation otherwise) is the text
    [v], without [;] and without a space at either end, placed between
    spaces and followed by nothing or by [;] and anything, then [v] is
    what is read.  A clean value is read unchanged; a value that is only
    a comment reads as the empty text. *)
Theorem read_value_of_padded cfg (section key text lead v trail rest : string) :
  config_getitem cfg section key = Ret text ->
  text = lead ++ v ++ trail ++ rest ->
  Str.all_space lead -> Str.all_space trail ->
  no_outer_space v -> ~ Str.has_char ";" v ->
  rest = EmptyString \/ (exists comment, rest = String ";" comment) ->
  read_value cfg section key = Ret v /\
  (forall w, config_file w = cfg -> config_value section key w = (Done (Ret v), w)) /\
  (forall raw,
     config_raw cfg section key = Some raw -> ~ Str.has_char "%" raw -> text = raw).
Proof.
  intros Hget Htext Hl Ht Hv Hno Hrest.
  assert (Hpre : ~ Str.has_char ";" (lead ++ v ++ trail)).
  { rewrite !has_char_app. intros [H|[H|H]].
    - now apply (all_space_no_semicolon lead).
    - now apply Hno.
    - now apply (all_space_no_semicolon trail). }
  assert (Hread : read_value cfg section key = Ret v).
  { unfold read_value. rewrite Hget. cbn [result_bind].
    replace text with ((lead ++ v ++ trail) ++ rest)
      by (rewrite Htext, !append_assoc; reflexivity).
    destruct Hrest as [->|[comment ->]].
    - rewrite append_empty_r, split_no_sep by assumption.
      cbn [Str.item0 result_bind]. now rewrite strip_padded.
    - rewrite split_app_sep by assumption.
      cbn [Str.item0 result_bind]. now rewrite strip_padded. }
  split; [exact Hread|]. split.
  - intros w <-. rewrite config_value_run, Hread. reflexivity.
  - intros raw Hraw Hpc.
    rewrite (config_getitem_raw _ _ _ _ Hraw (contains_false _ _ Hpc)) in Hget.
    now injection Hget.
Qed.

Lemma read_value_of_padded_witness :
  read_value (Some (Demo.config "0" " 2  ; 50%% of throw ; right hand" "0.625" "0.5"))
    "Joystick" "button"
  = Ret "2" /\
  (forall w,
     config_file w
     = Some (Demo.config "0" " 2  ; 50%% of throw ; right hand" "0.625" "0.5") ->
     config_value "Joystick" "button" w = (Done (Ret "2"), w)) /\
  (forall raw,
     config_raw (Some (Demo.config "0" " 2  ; 50%% of throw ; right hand" "0.625" "0.5"))
       "Joystick" "button"
     = Some raw ->
     ~ Str.has_char "%" raw -> " 2  ; 50% of throw ; right hand" = raw).
Proof.
  apply (read_value_of_padded
           (Some (Demo.config "0" " 2  ; 50%% of throw ; right hand" "0.625" "0.5"))
           "Joystick" "button" " 2  ; 50% of throw ; right hand"
           " " "2" "  " "; 50% of throw ; right hand").
  - vm_compute. reflexivity.
  - reflexivity.
  - repeat constructor.
  - repeat constructor.
  - split.
    + intros c r H. injection H as <- _. reflexivity.
    + intros [|c0 r] c H.
      * injection H as <-. reflexivity.
      * rewrite append_cons in H. injection H as _ H. destruct r; discriminate.
  - unfold Str.has_char. cbn. intros [H|[]]. discriminate.
  - right. eexists. reflexivity.
Defined.

(** ** More about [log_available_devices] *)

Lemma enumerate_devices_trace (js pre : list joystick_hw) (acc : list DeviceInfo)
    (w : world) :
  joysticks w = (pre ++ js)%list ->
  enumerate_devices (seqZ (Z.of_nat (length pre)) (Z.of_nat (length js))) acc w
  = (Done (Ret (acc ++ devices_of js (Z.of_nat (length pre)))%list),
     add_trace w (enumerate_calls js (Z.of_nat (length pre)))).
Proof.
  revert pre acc w. induction js as [|j js IH]; intros pre acc w Hw.
  - cbn [length Z.of_nat devices_of enumerate_calls]. rewrite app_nil_r, add_trace_nil.
    reflexivity.
  - replace (Z.of_nat (length (j :: js))) with (Z.succ (Z.of_nat (length js)))
      by (cbn [length]; lia).
    rewrite seqZ_cons by lia.
    replace (Z.pred (Z.succ (Z.of_nat (length js)))) with (Z.of_nat (length js)) by lia.
    cbn [enumerate_devices devices_of enumerate_calls].
    unfold bind at 1.
    rewrite (pygame_joystick_Joystick_run _ j).
    2: lia.
    2: { rewrite Hw, Nat2Z.id. rewrite lookup_app_r by lia.
         replace (length pre - length pre)%nat with O by lia. reflexivity. }
    unfold bind at 1. unfold logging_info, logging_log, emit.
    rewrite add_trace_add_trace. cbn [app].
    pose proof (IH (pre ++ [j])%list
                (acc ++ [{| index := Z.of_nat (length pre); name := hw_name j;
                            buttons := hw_buttons j |}])%list
                (add_trace w
                   [JoystickOpen (Z.of_nat (length pre));
                    Log INFO ("Joystick " ++ Str.of_Z (Z.of_nat (length pre)) ++ ": "
                              ++ hw_name j ++ " with " ++ Str.of_Z (hw_buttons j)
                              ++ " button(s)")])) as Hrun.
    rewrite length_app in Hrun. cbn [length] in Hrun.
    replace (Z.of_nat (length pre + 1)) with (Z.succ (Z.of_nat (length pre))) in Hrun by lia.
    replace (Z.of_nat (length pre) + 1) with (Z.succ (Z.of_nat (length pre))) by lia.
    rewrite Hrun.
    + rewrite add_trace_add_trace, <- app_assoc. reflexivity.
    + change (joysticks (add_trace w _)) with (joysticks w).
      rewrite Hw, <- app_assoc. reflexivity.
Qed.

Lemma devices_of_length (js : list joystick_hw) (start : Z) :
  length (devices_of js start) = length js.
Proof.
  revert start. induction js as [|j js IH]; intros start; [reflexivity|].
  cbn [devices_of length]. now rewrite IH.
Qed.

Lemma devices_of_lookup (js : list joystick_hw) (start : Z) (i : nat) (j : joystick_hw) :
  js !! i = Some j ->
  devices_of js start !! i
  = Some {| index := start + Z.of_nat i; name := hw_name j; buttons := hw_buttons j |}.
Proof.
  revert start i. induction js as [|j0 js IH]; intros start i Hi; [discriminate|].
  destruct i as [|i]; cbn [devices_of].
  - injection Hi as <-. cbn [Z.of_nat]. rewrite Z.add_0_r. reflexivity.
  - cbn in Hi.
    change (devices_of js (start + 1) !! i
            = Some {| index := start + Z.of_nat (S i); name := hw_name j;
                      buttons := hw_buttons j |}).
    rewrite (IH (start + 1) i Hi).
    replace (start + 1 + Z.of_nat i) with (start + Z.of_nat (S i)) by lia.
    reflexivity.
Qed.

Lemma records_enumerate_calls (js : list joystick_hw) (start : Z) :
  records (enumerate_calls js start) = length js.
Proof.
  revert start. induction js as [|j js IH]; intros start; [reflexivity|].
  cbn [enumerate_calls records length]. now rewrite IH.
Qed.

Lemma log_available_devices_trace (w : world) :
  joysticks w <> [] ->
  log_available_devices w
  = (Done (Ret (PyList (devices_of (joysticks w) 0))),
     add_trace w (enumeration_calls (joysticks w))).
Proof.
  intros Hne. unfold enumeration_calls.
  pose proof (enumerate_devices_trace (joysticks w) [] []
                (add_trace w
                   [PygameInit; JoystickInit; JoystickGetCount;
                    Log INFO (Str.of_Z (Z.of_nat (length (joysticks w)))
                              ++ " joystick(s) detected:")]) eq_refl) as Hrun.
  cbn [length app] in Hrun. change (Z.of_nat 0) with 0 in Hrun.
  unfold log_available_devices, try_except.
  unfold bind at 1. unfold pygame_init, emit.
  unfold bind at 1. unfold pygame_joystick_init, emit.
  unfold bind at 1. unfold pygame_joystick_get_count. unfold bind at 1. unfold emit.
  change (joysticks (add_trace (add_trace (add_trace w [PygameInit]) [JoystickInit])
                       [JoystickGetCount])) with (joysticks w).
  replace (Z.of_nat (length (joysticks w)) <? 1) with false
    by (symmetry; apply Z.ltb_ge; destruct (joysticks w); [contradiction|cbn [length]; lia]).
  unfold bind at 1. unfold logging_info, logging_log, emit.
  rewrite !add_trace_add_trace. cbn [app].
  unfold bind at 1. rewrite Hrun. cbn [ret]. rewrite add_trace_add_trace.
  reflexivity.
Qed.

(** X10: with [n >= 1] joysticks attached, [log_available_devices]
    returns a list of [n] entries, the [i]-th holding the index [i] and
    the name and button count of the [i]-th joystick; the list is truthy.
    It opens each joystick once, in order, and writes [n + 1] records:
    the count, then one line per joystick. *)
Theorem log_available_devices_lists_all (w : world) :
  joysticks w <> [] ->
  log_available_devices w
  = (Done (Ret (PyList (devices_of (joysticks w) 0))),
     add_trace w
       ([PygameInit; JoystickInit; JoystickGetCount;
         Log INFO (Str.of_Z (Z.of_nat (length (joysticks w))) ++ " joystick(s) detected:")]
        ++ enumerate_calls (joysticks w) 0)) /\
  length (devices_of (joysticks w) 0) = length (joysticks w) /\
  (forall i j,
     joysticks w !! i = Some j ->
     devices_of (joysticks w) 0 !! i
     = Some {| index := Z.of_nat i; name := hw_name j; buttons := hw_buttons j |}) /\
  py_not (PyList (devices_of (joysticks w) 0)) = false /\
  records (enumerate_calls (joysticks w) 0) = length (joysticks w).
Proof.
  intros Hne. split; [|split; [apply devices_of_length|split; [|split]]].
  - now apply log_available_devices_trace.
  - intros i j Hi. rewrite (devices_of_lookup _ 0 i j Hi). repeat f_equal.
  - destruct (joysticks w); [contradiction|reflexivity].
  - apply records_enumerate_calls.
Qed.

Lemma log_available_devices_lists_all_witness :
  log_available_devices (Demo.boot None [Demo.stick; Demo.throttle] [])
  = (Done (Ret (PyList (devices_of [Demo.stick; Demo.throttle] 0))),
     add_trace (Demo.boot None [Demo.stick; Demo.throttle] [])
       ([PygameInit; JoystickInit; JoystickGetCount;
         Log INFO (Str.of_Z (Z.of_nat (length [Demo.stick; Demo.throttle]))
                   ++ " joystick(s) detected:")]
        ++ enumerate_calls [Demo.stick; Demo.throttle] 0)) /\
  length (devices_of [Demo.stick; Demo.throttle] 0) = length [Demo.stick; Demo.throttle] /\
  (forall i j,
     [Demo.stick; Demo.throttle] !! i = Some j ->
     devices_of [Demo.stick; Demo.throttle] 0 !! i
     = Some {| index := Z.of_nat i; name := hw_name j; buttons := hw_buttons j |}) /\
  py_not (PyList (devices_of [Demo.stick; Demo.throttle] 0)) = false /\
  records (enumerate_calls [Demo.stick; Demo.throttle] 0)
  = length [Demo.stick; Demo.throttle].
Proof.
  apply (log_available_devices_lists_all (Demo.boot None [Demo.stick; Demo.throttle] [])).
  discriminate.
Defined.

(** The list of X10 on the two joysticks of the examples. *)
Example devices_of_demo :
  devices_of [Demo.stick; Demo.throttle] 0 = [Demo.stick_info; Demo.throttle_info].
Proof. reflexivity. Qed.

(** ** More about [validate_config] *)

Lemma list_getitem_ret {A} (l : list A) (i : Z) (a : A) :
  list_getitem l i = Ret a -> - Z.of_nat (length l) <= i.
Proof.
  intros H. destruct (Z_le_gt_dec (- Z.of_nat (length l)) i) as [|Hlt]; [assumption|].
  rewrite list_getitem_below in H by lia. discriminate.
Qed.

Lemma validate_config_ok (settings : Settings) (devices_info : list DeviceInfo)
    (w : world) (joystick_info : DeviceInfo) :
  device settings < Z.of_nat (length devices_info) ->
  list_getitem devices_info (device settings) = Ret joystick_info ->
  button settings < buttons joystick_info ->
  validate_config settings devices_info w = (Done (Ret tt), w).
Proof.
  intros Hd Hget Hb. unfold validate_config. unfold bind at 1.
  replace (device settings >=? Z.of_nat (length devices_info)) with false
    by (symmetry; rewrite Z.geb_leb; apply Z.leb_gt; lia).
  cbn [ret]. unfold bind at 1, lift. rewrite Hget.
  replace (button settings >=? buttons joystick_info) with false
    by (symmetry; rewrite Z.geb_leb; apply Z.leb_gt; lia).
  reflexivity.
Qed.

(** The three ways [validate_config] ends. *)
Lemma validate_config_cases (settings : Settings) (devices_info : list DeviceInfo)
    (w : world) :
  (exists joystick_info,
     - Z.of_nat (length devices_info) <= device settings
       < Z.of_nat (length devices_info) /\
     list_getitem devices_info (device settings) = Ret joystick_info /\
     button settings < buttons joystick_info /\
     validate_config settings devices_info w = (Done (Ret tt), w)) \/
  (exists msg,
     validate_config settings devices_info w
     = (Done (Raise (SystemExit 1)), add_trace w [Log ERROR msg])) \/
  (device settings < - Z.of_nat (length devices_info) /\
   validate_config settings devices_info w
   = (Done (Raise (IndexError "list index out of range")), w)).
Proof.
  unfold validate_config.
  destruct (Z_lt_ge_dec (device settings) (Z.of_nat (length devices_info))) as [Hlt|Hge].
  - destruct (Z_le_gt_dec (- Z.of_nat (length devices_info)) (device settings))
      as [Hlo|Hlo].
    + destruct (list_getitem_in_range devices_info _ (conj Hlo Hlt)) as (info & Hget & _).
      destruct (Z_lt_ge_dec (button settings) (buttons info)) as [Hb|Hb].
      * left. exists info. repeat split; try assumption.
        unfold bind at 1.
        replace (device settings >=? Z.of_nat (length devices_info)) with false
          by (symmetry; rewrite Z.geb_leb; apply Z.leb_gt; lia).
        cbn [ret]. unfold bind at 1, lift. rewrite Hget.
        replace (button settings >=? buttons info) with false
          by (symmetry; rewrite Z.geb_leb; apply Z.leb_gt; lia).
        reflexivity.
      * right. left. eexists.
        unfold bind at 1.
        replace (device settings >=? Z.of_nat (length devices_info)) with false
          by (symmetry; rewrite Z.geb_leb; apply Z.leb_gt; lia).
        cbn [ret]. unfold bind at 1, lift. rewrite Hget.
        replace (button settings >=? buttons info) with true
          by (symmetry; apply Z.geb_le; lia).
        reflexivity.
    + right. right. split; [lia|].
      unfold bind at 1.
      replace (device settings >=? Z.of_nat (length devices_info)) with false
        by (symmetry; rewrite Z.geb_leb; apply Z.leb_gt; lia).
      cbn [ret]. unfold bind at 1, lift. rewrite list_getitem_below by lia.
      reflexivity.
  - right. left. eexists.
    unfold bind at 1.
    replace (device settings >=? Z.of_nat (length devices_info)) with true
      by (symmetry; apply Z.geb_le; lia).
    reflexivity.
Qed.

(** X11: [validate_config] accepts the settings exactly when the device
    index selects an entry of the list, counting from the end when it is
    negative, and the button index is below that entry's button count (a
    button index equal to the count is refused).  When it accepts it
    leaves no trace; otherwise it writes at most one record. *)
Theorem validate_config_accepts_iff (settings : Settings)
    (devices_info : list DeviceInfo) (w : world) :
  (fst (validate_config settings devices_info w) = Done (Ret tt) <->
   exists joystick_info,
     - Z.of_nat (length devices_info) <= device settings
       < Z.of_nat (length devices_info) /\
     list_getitem devices_info (device settings) = Ret joystick_info /\
     button settings < buttons joystick_info) /\
  (fst (validate_config settings devices_info w) = Done (Ret tt) ->
   snd (validate_config settings devices_info w) = w) /\
  exists l,
    snd (validate_config settings devices_info w) = add_trace w l /\
    (length l <= 1)%nat /\ records l = length l.
Proof.
  destruct (validate_config_cases settings devices_info w)
    as [(info & Hd & Hget & Hb & Hrun)|[(msg & Hrun)|(Hd & Hrun)]]; rewrite Hrun;
    cbn [fst snd].
  - split; [|split].
    + split; [intros _; exists info; auto|reflexivity].
    + reflexivity.
    + exists []. rewrite add_trace_nil. repeat split. cbn. lia.
  - split; [|split].
    + split; [discriminate|].
      intros (info & Hd & Hget & Hb). exfalso.
      pose proof (validate_config_ok settings devices_info w info
                    (proj2 Hd) Hget Hb) as Hok.
      rewrite Hrun in Hok. discriminate.
    + discriminate.
    + exists [Log ERROR msg]. repeat split. cbn. lia.
  - split; [|split].
    + split; [discriminate|]. intros (info & Hd' & _). lia.
    + discriminate.
    + exists []. rewrite add_trace_nil. repeat split. cbn. lia.
Qed.

Lemma validate_config_accepts_iff_witness :
  (fst (validate_config (Demo.settings 0 3) [Demo.stick_info; Demo.throttle_info]
          (Demo.boot None [] []))
   = Done (Ret tt) <->
   exists joystick_info,
     - Z.of_nat (length [Demo.stick_info; Demo.throttle_info]) <= device (Demo.settings 0 3)
       < Z.of_nat (length [Demo.stick_info; Demo.throttle_info]) /\
     list_getitem [Demo.stick_info; Demo.throttle_info] (device (Demo.settings 0 3))
     = Ret joystick_info /\
     button (Demo.settings 0 3) < buttons joystick_info) /\
  (fst (validate_config (Demo.settings 0 3) [Demo.stick_info; Demo.throttle_info]
          (Demo.boot None [] []))
   = Done (Ret tt) ->
   snd (validate_config (Demo.settings 0 3) [Demo.stick_info; Demo.throttle_info]
          (Demo.boot None [] []))
   = Demo.boot None [] []) /\
  exists l,
    snd (validate_config (Demo.settings 0 3) [Demo.stick_info; Demo.throttle_info]
           (Demo.boot None [] []))
    = add_trace (Demo.boot None [] []) l /\
    (length l <= 1)%nat /\ records l = length l.
Proof.
  exact (validate_config_accepts_iff (Demo.settings 0 3)
           [Demo.stick_info; Demo.throttle_info] (Demo.boot None [] [])).
Defined.

(** A button index equal to the button count is refused: the joystick of
    the examples has 3 buttons, numbered 0 to 2. *)
Example validate_config_button_equal_to_count :
  fst (validate_config (Demo.settings 0 3) [Demo.stick_info] (Demo.boot None [] []))
  = Done (Raise (SystemExit 1)) /\
  fst (validate_config (Demo.settings 0 2) [Demo.stick_info] (Demo.boot None [] []))
  = Done (Ret tt).
Proof. split; reflexivity. Qed.

(** ** More about [main] *)

Lemma validate_config_fst_world (settings : Settings) (l : list DeviceInfo) (w w' : world) :
  fst (validate_config settings l w) = fst (validate_config settings l w').
Proof.
  unfold validate_config, bind, lift, logging_error, logging_log, emit, sys_exit, raise, ret.
  destruct (device settings >=? Z.of_nat (length l)); [reflexivity|].
  destruct (list_getitem l (device settings)) as [info|]; [|reflexivity].
  destruct (button settings >=? buttons info); reflexivity.
Qed.

Lemma not_in_enumerate_calls (e : io) (js : list joystick_hw) (start : Z) :
  (forall i, e <> JoystickOpen i) -> (forall lv m, e <> Log lv m) ->
  ~ In e (enumerate_calls js start).
Proof.
  intros Ho Hl. revert start. induction js as [|j js IH]; intros start; [intros []|].
  cbn [enumerate_calls In]. intros [H|[H|H]].
  - now apply (Ho start).
  - eapply Hl. symmetry. exact H.
  - now apply (IH (start + 1)).
Qed.

Lemma polls_enumerate_calls (js : list joystick_hw) (start : Z) :
  polls (enumerate_calls js start) = O.
Proof.
  revert start. induction js as [|j js IH]; intros start; [reflexivity|].
  cbn [enumerate_calls polls]. apply IH.
Qed.

Lemma moves_enumerate_calls (js : list joystick_hw) (start : Z) :
  moves (enumerate_calls js start) = O.
Proof.
  revert start. induction js as [|j js IH]; intros start; [reflexivity|].
  cbn [enumerate_calls moves]. apply IH.
Qed.

Section MainMore.

Variable py_int : string -> result Z.
Variable py_float : string -> result spec_float.

(** [main] up to the validation, when the configuration loads and a
    joystick is attached. *)
Lemma main_validation_fails (fuel : nat) (w w1 w3 : world) (s : Settings) (e : exn) :
  load_config py_int py_float w = (Done (Ret s), w1) ->
  joysticks w <> [] ->
  validate_config s (devices_of (joysticks w) 0)
    (add_trace w1 (enumeration_calls (joysticks w)))
  = (Done (Raise e), w3) ->
  main py_int py_float fuel w = (Done (Raise e), w3).
Proof.
  intros Hload Hne Hval.
  pose proof (load_config_same_setup _ _ _ _ _ Hload) as (_ & Hjs & _).
  assert (Hne1 : joysticks w1 <> []) by (rewrite Hjs; exact Hne).
  unfold main. unfold bind at 1. rewrite Hload.
  unfold bind at 1. rewrite (log_available_devices_trace w1 Hne1), Hjs.
  replace (py_not (PyList (devices_of (joysticks w) 0))) with false
    by (destruct (joysticks w); [contradiction|reflexivity]).
  unfold bind at 1. cbn [ret]. unfold bind at 1. rewrite Hval. reflexivity.
Qed.

Lemma pygame_joystick_Joystick_negative (i : Z) (w : world) :
  i < 0 ->
  pygame_joystick_Joystick i w
  = (Done (Raise (PygameError "Invalid joystick device number")),
     add_trace w [JoystickOpen i]).
Proof.
  intros Hi. unfold pygame_joystick_Joystick, bind, emit.
  replace (0 <=? i) with false by (symmetry; apply Z.leb_gt; lia).
  reflexivity.
Qed.

Lemma main_open_fails (fuel : nat) (w w1 : world) (s : Settings) :
  load_config py_int py_float w = (Done (Ret s), w1) ->
  joysticks w <> [] ->
  fst (validate_config s (devices_of (joysticks w) 0) w) = Done (Ret tt) ->
  device s < 0 ->
  main py_int py_float fuel w
  = (Done (Ret tt),
     add_trace w1
       (enumeration_calls (joysticks w)
        ++ failed_open_calls (device s) "Invalid joystick device number")).
Proof.
  intros Hload Hne Hval Hd.
  pose proof (load_config_same_setup _ _ _ _ _ Hload) as (_ & Hjs & _).
  assert (Hne1 : joysticks w1 <> []) by (rewrite Hjs; exact Hne).
  set (w2 := add_trace w1 (enumeration_calls (joysticks w))).
  assert (Hval2 : validate_config s (devices_of (joysticks w) 0) w2 = (Done (Ret tt), w2)).
  { rewrite (validate_config_fst_world _ _ w w2) in Hval.
    destruct (validate_config_cases s (devices_of (joysticks w) 0) w2)
      as [(info & _ & _ & _ & Hrun)|[(msg & Hrun)|(_ & Hrun)]];
      rewrite Hrun in Hval; [exact Hrun|discriminate|discriminate]. }
  unfold main. unfold bind at 1. rewrite Hload.
  unfold bind at 1. rewrite (log_available_devices_trace w1 Hne1), Hjs.
  replace (py_not (PyList (devices_of (joysticks w) 0))) with false
    by (destruct (joysticks w); [contradiction|reflexivity]).
  unfold bind at 1. cbn [ret]. unfold bind at 1. fold w2. rewrite Hval2.
  unfold bind at 1. unfold pygame_init, emit.
  unfold bind at 1. unfold pygame_joystick_init, emit.
  unfold try_finally, try_except.
  unfold bind at 1. rewrite pygame_joystick_Joystick_negative by exact Hd.
  cbn [is_Exception exn_str].
  unfold logging_error, logging_log, emit.
  unfold bind at 1. unfold pygame_quit, emit. unfold logging_info, logging_log, emit.
  subst w2. rewrite !add_trace_add_trace. reflexivity.
Qed.

End MainMore.

Lemma in_enumeration_calls_init (js : list joystick_hw) :
  In PygameInit (enumeration_calls js) /\ ~ In PygameQuit (enumeration_calls js) /\
  polls (enumeration_calls js) = O /\ moves (enumeration_calls js) = O.
Proof.
  unfold enumeration_calls. repeat split.
  - left. reflexivity.
  - intros Hin. apply in_app_or in Hin. destruct Hin as [Hin|Hin].
    + cbn [In] in Hin. repeat (destruct Hin as [Hin|Hin]; [discriminate|]). exact Hin.
    + revert Hin. apply not_in_enumerate_calls; discriminate.
  - rewrite polls_app, polls_enumerate_calls. reflexivity.
  - rewrite moves_app, moves_enumerate_calls. reflexivity.
Qed.

Section MainEndings.

Variable py_int : string -> result Z.
Variable py_float : string -> result spec_float.

(** X12: when [main] stops before its loop with a configuration that
    loaded (no joystick attached, or the device or button index refused
    by [validate_config]), it ends with exit status 1 and has called
    [pygame.init] but never [pygame.quit]: these exits are outside the
    [try ... finally] that quits pygame.  No event was polled and the
    cursor was never moved. *)
Theorem main_startup_exit_skips_quit (fuel : nat) (w w1 : world) (s : Settings) :
  load_config py_int py_float w = (Done (Ret s), w1) ->
  joysticks w = [] \/
  fst (validate_config s (devices_of (joysticks w) 0) w) <> Done (Ret tt) ->
  exists e l,
    main py_int py_float fuel w = (Done (Raise e), add_trace w1 l) /\
    exit_status (Done (Raise e)) = Some 1 /\
    In PygameInit l /\ ~ In PygameQuit l /\ polls l = O /\ moves l = O.
Proof.
  intros Hload Hfail.
  destruct (joysticks w) as [|j0 js0] eqn:Hjs.
  - exists (SystemExit 1). eexists.
    split; [apply (main_no_joysticks py_int py_float fuel w w1 s Hjs Hload)|].
    split; [reflexivity|]. split; [left; reflexivity|].
    split; [|split; reflexivity].
    cbn [In]. intros H. repeat (destruct H as [H|H]; [discriminate|]). exact H.
  - destruct Hfail as [Hnil|Hval]; [discriminate|].
    assert (Hne : joysticks w <> []) by (rewrite Hjs; discriminate).
    destruct (in_enumeration_calls_init (j0 :: js0)) as (Hinit & Hquit & Hpolls & Hmoves).
    set (w2 := add_trace w1 (enumeration_calls (j0 :: js0))).
    rewrite (validate_config_fst_world _ _ w w2) in Hval.
    destruct (validate_config_cases s (devices_of (j0 :: js0) 0) w2)
      as [(info & _ & _ & _ & Hrun)|[(msg & Hrun)|(_ & Hrun)]].
    + rewrite Hrun in Hval. contradiction Hval. reflexivity.
    + exists (SystemExit 1), (enumeration_calls (j0 :: js0) ++ [Log ERROR msg])%list.
      split.
      { rewrite <- Hjs, <- add_trace_add_trace.
        apply (main_validation_fails py_int py_float fuel w w1 _ s _ Hload Hne).
        rewrite Hjs. exact Hrun. }
      split; [reflexivity|]. split; [apply in_or_app; left; exact Hinit|].
      split.
      { intros Hin. apply in_app_or in Hin. destruct Hin as [Hin|[Hin|[]]];
          [now apply Hquit|discriminate]. }
      rewrite polls_app, moves_app, Hpolls, Hmoves. split; reflexivity.
    + exists (IndexError "list index out of range"), (enumeration_calls (j0 :: js0)).
      split.
      { rewrite <- Hjs.
        apply (main_validation_fails py_int py_float fuel w w1 _ s _ Hload Hne).
        rewrite Hjs. exact Hrun. }
      split; [reflexivity|]. repeat split; assumption.
Qed.

(** X13: a negative device index that [validate_config] accepts (it
    counts from the end of the list) cannot be opened by
    [pygame.joystick.Joystick]: the error raised inside the [try] block
    is caught and logged, pygame is quit, "Pygame exited cleanly." is
    written and [main] returns normally, so the process ends with status
    0 without having polled a single event. *)
Theorem main_negative_device_returns (fuel : nat) (w w1 : world) (s : Settings) :
  load_config py_int py_float w = (Done (Ret s), w1) ->
  joysticks w <> [] ->
  fst (validate_config s (devices_of (joysticks w) 0) w) = Done (Ret tt) ->
  device s < 0 ->
  exists msg,
    main py_int py_float fuel w
    = (Done (Ret tt),
       add_trace w1
         (enumeration_calls (joysticks w)
          ++ [ PygameInit; JoystickInit; JoystickOpen (device s);
               Log ERROR ("An unexpected error occurred: " ++ msg);
               PygameQuit;
               Log INFO "Pygame exited cleanly." ])) /\
    exit_status (fst (main py_int py_float fuel w)) = Some 0 /\
    polls (trace (snd (main py_int py_float fuel w))) = polls (trace w1) /\
    moves (trace (snd (main py_int py_float fuel w))) = moves (trace w1).
Proof.
  intros Hload Hne Hval Hd.
  pose proof (main_open_fails py_int py_float fuel w w1 s Hload Hne Hval Hd) as Hrun.
  exists "Invalid joystick device number".
  rewrite Hrun. split; [reflexivity|]. split; [reflexivity|].
  destruct (in_enumeration_calls_init (joysticks w)) as (_ & _ & Hpolls & Hmoves).
  cbn [snd add_trace set_trace trace].
  rewrite !polls_app, !moves_app, Hpolls, Hmoves. cbn. split; lia.
Qed.

(** [float(s)] returns binary64 values. *)
Hypothesis py_float_valid :
  forall s x, py_float s = Ret x -> Float.valid x = true.

Lemma load_config_settings_ok (w w1 : world) (s : Settings) :
  load_config py_int py_float w = (Done (Ret s), w1) -> settings_ok s.
Proof.
  intros Hload.
  destruct (load_config_ret _ _ _ _ _ Hload) as (_ & Hs & _).
  destruct (settings_of_config_ret _ _ _ _ Hs)
    as ((vd & vb & vx & vy & _ & _ & _ & _ & _ & Px & _ & Py) & Hx & Hy).
  repeat split; try assumption; eapply py_float_valid; eassumption.
Qed.

(** A device index that is validated and not negative names an attached
    joystick. *)
Lemma validated_device_attached (s : Settings) (w : world) :
  fst (validate_config s (devices_of (joysticks w) 0) w) = Done (Ret tt) ->
  0 <= device s ->
  validate_config s (devices_of (joysticks w) 0) w = (Done (Ret tt), w) /\
  exists j, joysticks w !! Z.to_nat (device s) = Some j.
Proof.
  intros Hval Hd.
  destruct (validate_config_cases s (devices_of (joysticks w) 0) w)
    as [(info & Hrange & _ & _ & Hrun)|[(msg & Hrun)|(_ & Hrun)]];
    rewrite Hrun in Hval; try discriminate.
  split; [exact Hrun|].
  rewrite devices_of_length in Hrange.
  destruct (joysticks w !! Z.to_nat (device s)) as [j|] eqn:Hj; [eauto|].
  apply lookup_ge_None in Hj. lia.
Qed.

(** X14: when the configuration loads, [validate_config] accepts it and
    the device index is not negative, [main] opens the joystick, enters
    its loop and never leaves it: after any number of turns it is still
    looping, one poll per turn, whatever the events. *)
Theorem main_loops_after_validation (fuel : nat) (w w1 : world) (s : Settings) :
  load_config py_int py_float w = (Done (Ret s), w1) ->
  screen_ok w ->
  fst (validate_config s (devices_of (joysticks w) 0) w) = Done (Ret tt) ->
  0 <= device s ->
  fst (main py_int py_float fuel w) = Looping /\
  (polls (trace (snd (main py_int py_float fuel w))) = polls (trace w) + fuel)%nat.
Proof.
  intros Hload Hw Hval Hd.
  destruct (validated_device_attached s w Hval Hd) as (Hrun & j & Hj).
  apply (main_keeps_looping py_int py_float fuel w w1 s j); try assumption.
  eapply load_config_settings_ok. exact Hload.
Qed.

End MainEndings.

Lemma demo_float_valid (s : string) (x : spec_float) :
  Demo.float s = Ret x -> Float.valid x = true.
Proof.
  unfold Demo.float. intros H.
  repeat (match type of H with
          | (if ?b then _ else _) = _ =>
              destruct b; [injection H as <-; reflexivity|]
          end).
  discriminate.
Qed.

Lemma main_startup_exit_skips_quit_witness :
  exists e l,
    main Demo.int Demo.float 4
      (Demo.boot (Some (Demo.config "2" "0" "0.625" "0.5")) [Demo.stick] [[QUIT]])
    = (Done (Raise e),
       add_trace
         (add_trace
            (Demo.boot (Some (Demo.config "2" "0" "0.625" "0.5")) [Demo.stick] [[QUIT]])
            [ConfigRead "config.ini"])
         l) /\
    exit_status (Done (Raise e)) = Some 1 /\
    In PygameInit l /\ ~ In PygameQuit l /\ polls l = O /\ moves l = O.
Proof.
  apply (main_startup_exit_skips_quit Demo.int Demo.float 4
           (Demo.boot (Some (Demo.config "2" "0" "0.625" "0.5")) [Demo.stick] [[QUIT]])
           _ (Demo.settings 2 0)).
  - vm_compute. reflexivity.
  - right. vm_compute. discriminate.
Defined.

Lemma main_negative_device_returns_witness :
  exists msg,
    main Demo.int Demo.float 4
      (Demo.boot (Some (Demo.config "-1" "0" "0.625" "0.5")) [Demo.stick] [[QUIT]])
    = (Done (Ret tt),
       add_trace
         (add_trace
            (Demo.boot (Some (Demo.config "-1" "0" "0.625" "0.5")) [Demo.stick] [[QUIT]])
            [ConfigRead "config.ini"])
         (enumeration_calls [Demo.stick]
          ++ [ PygameInit; JoystickInit; JoystickOpen (-1);
               Log ERROR ("An unexpected error occurred: " ++ msg);
               PygameQuit;
               Log INFO "Pygame exited cleanly." ])) /\
    exit_status
      (fst (main Demo.int Demo.float 4
              (Demo.boot (Some (Demo.config "-1" "0" "0.625" "0.5")) [Demo.stick] [[QUIT]])))
    = Some 0 /\
    polls (trace (snd (main Demo.int Demo.float 4
             (Demo.boot (Some (Demo.config "-1" "0" "0.625" "0.5")) [Demo.stick] [[QUIT]]))))
    = polls [ConfigRead "config.ini"] /\
    moves (trace (snd (main Demo.int Demo.float 4
             (Demo.boot (Some (Demo.config "-1" "0" "0.625" "0.5")) [Demo.stick] [[QUIT]]))))
    = moves [ConfigRead "config.ini"].
Proof.
  apply (main_negative_device_returns Demo.int Demo.float 4
           (Demo.boot (Some (Demo.config "-1" "0" "0.625" "0.5")) [Demo.stick] [[QUIT]])
           (add_trace
              (Demo.boot (Some (Demo.config "-1" "0" "0.625" "0.5")) [Demo.stick] [[QUIT]])
              [ConfigRead "config.ini"])
           (Demo.settings (-1) 0)).
  - vm_compute. reflexivity.
  - discriminate.
  - vm_compute. reflexivity.
  - cbn. lia.
Defined.

Lemma main_loops_after_validation_witness :
  fst (main Demo.int Demo.float 4
         (Demo.boot (Some (Demo.config "0" "2" "0.625" "0.5")) [Demo.stick] [[QUIT]]))
  = Looping /\
  (polls (trace (snd (main Demo.int Demo.float 4
            (Demo.boot (Some (Demo.config "0" "2" "0.625" "0.5")) [Demo.stick] [[QUIT]]))))
   = polls [] + 4)%nat.
Proof.
  apply (main_loops_after_validation Demo.int Demo.float demo_float_valid 4
           (Demo.boot (Some (Demo.config "0" "2" "0.625" "0.5")) [Demo.stick] [[QUIT]])
           (add_trace
              (Demo.boot (Some (Demo.config "0" "2" "0.625" "0.5")) [Demo.stick] [[QUIT]])
              [ConfigRead "config.ini"])
           (Demo.settings 0 2)).
  - vm_compute. reflexivity.
  - apply demo_screen_ok.
  - vm_compute. reflexivity.
  - cbn. lia.
Defined.

(** ** [initialize_logging] *)

Lemma handler_eqb_refl (h : Logging.handler) : Logging.handler_eqb h h = true.
Proof.
  destruct h as [f m t|i]; cbn [Logging.handler_eqb].
  - now rewrite !String.eqb_refl.
  - apply Z.eqb_refl.
Qed.

(** Removing the handlers one by one, in the order of the list, empties
    the list: each one is found at its head. *)
Lemma remove_handlers_fold (l : list Logging.handler) (st : Logging.state) :
  Logging.root_handlers st = l ->
  fold_left (fun st h => Logging.removeHandler h st) l st
  = {| Logging.root_handlers := [];
       Logging.root_level := Logging.root_level st;
       Logging.files := Logging.files st;
       Logging.open_files := Logging.open_files st |}.
Proof.
  revert st. induction l as [|h l IH]; intros st Hst.
  - destruct st as [hs lv fs os]. cbn in *. subst hs. reflexivity.
  - cbn [fold_left].
    assert (Hrm : Logging.removeHandler h st
                  = {| Logging.root_handlers := l;
                       Logging.root_level := Logging.root_level st;
                       Logging.files := Logging.files st;
                       Logging.open_files := Logging.open_files st |}).
    { unfold Logging.removeHandler. rewrite Hst.
      cbn [existsb Logging.remove_first]. rewrite handler_eqb_refl. reflexivity. }
    rewrite Hrm. rewrite IH by reflexivity. reflexivity.
Qed.

(** [initialize_logging], case by case. *)
Lemma initialize_logging_run (st : Logging.state) :
  Logging.initialize_logging st
  = if Logging.os_path_exists LOG_FILE st
       && (existsb (String.eqb LOG_FILE) (Logging.open_files st)
           || existsb (Logging.holds LOG_FILE) (Logging.loop_variable st)) then
      Raise (PermissionError
               "[WinError 32] The process cannot access the file because it is being used by another process: 'center_mouse.log'")
    else
      Ret {| Logging.root_handlers :=
               [Logging.FileHandler "center_mouse.log" "w" Logging.LOG_FORMAT];
             Logging.root_level := Some INFO;
             Logging.files := <["center_mouse.log" := []]> (Logging.files st);
             Logging.open_files := Logging.open_files st |}.
Proof.
  unfold Logging.initialize_logging, Logging.remove_all_handlers.
  rewrite (remove_handlers_fold _ st eq_refl).
  unfold Logging.os_path_exists, Logging.os_remove, Logging.is_open.
  cbn [Logging.files Logging.root_handlers Logging.root_level Logging.open_files app].
  destruct (bool_decide (is_Some (Logging.files st !! LOG_FILE))); cbn [andb].
  - destruct (existsb (String.eqb LOG_FILE) (Logging.open_files st)
              || existsb (Logging.holds LOG_FILE) (Logging.loop_variable st));
      [reflexivity|].
    cbn [result_bind]. unfold Logging.basicConfig.
    cbn [Logging.root_handlers Logging.files Logging.open_files].
    change (String.eqb "w" "w") with true. cbv iota.
    change LOG_FILE with "center_mouse.log". rewrite insert_delete_eq. reflexivity.
  - reflexivity.
Qed.

Lemma existsb_eqb_in (f : string) (l : list string) :
  existsb (String.eqb f) l = true <-> In f l.
Proof.
  rewrite existsb_exists. split.
  - intros (x & Hin & Heq). apply String.eqb_eq in Heq. now subst.
  - intros Hin. exists f. split; [exact Hin|apply String.eqb_refl].
Qed.

(** X16: whatever handlers the root logger had (the same one several
    times, even) and whatever the files held, when [center_mouse.log]
    does not exist, or is held open neither by someone else nor by the
    last handler of the root logger (the one the loop variable still
    refers to), [initialize_logging] leaves the root logger with exactly
    one handler, the file handler of [center_mouse.log], and the level
    [INFO]; the log file exists and is empty, and every other file is as
    it was.  It cannot be run a second time: the handler it installed is
    then removed and not closed, [os.remove] fails on the file it holds
    open, and [initialize_logging] raises [PermissionError]. *)
Theorem initialize_logging_fresh (st : Logging.state) :
  Logging.files st !! "center_mouse.log" = None
  \/ (~ In "center_mouse.log" (Logging.open_files st) /\
      forall h, last (Logging.root_handlers st) = Some h ->
                Logging.holds "center_mouse.log" h = false) ->
  exists st',
    Logging.initialize_logging st = Ret st' /\
    Logging.root_handlers st'
    = [Logging.FileHandler "center_mouse.log" "w" Logging.LOG_FORMAT] /\
    Logging.root_level st' = Some INFO /\
    Logging.files st' !! "center_mouse.log" = Some [] /\
    (forall f, f <> "center_mouse.log" ->
               Logging.files st' !! f = Logging.files st !! f) /\
    Logging.open_files st' = Logging.open_files st /\
    exists msg, Logging.initialize_logging st' = Raise (PermissionError msg).
Proof.
  intros Hfree.
  assert (Hcond : Logging.os_path_exists LOG_FILE st
                  && (existsb (String.eqb LOG_FILE) (Logging.open_files st)
                      || existsb (Logging.holds LOG_FILE) (Logging.loop_variable st))
                  = false).
  { destruct Hfree as [Hnone|[Hclosed Hlast]].
    - unfold Logging.os_path_exists. change LOG_FILE with "center_mouse.log".
      rewrite Hnone. rewrite bool_decide_eq_false_2 by (intros [x Hx]; discriminate).
      reflexivity.
    - apply andb_false_iff. right. apply orb_false_iff. split.
      + destruct (existsb (String.eqb LOG_FILE) (Logging.open_files st)) eqn:Ho;
          [|reflexivity].
        contradiction Hclosed. now apply existsb_eqb_in.
      + unfold Logging.loop_variable.
        destruct (last (Logging.root_handlers st)) as [h|]; [|reflexivity].
        cbn [existsb]. change LOG_FILE with "center_mouse.log".
        rewrite (Hlast h eq_refl). reflexivity. }
  eexists. split; [rewrite initialize_logging_run, Hcond; reflexivity|].
  cbn [Logging.root_handlers Logging.root_level Logging.files Logging.open_files].
  split; [reflexivity|]. split; [reflexivity|].
  split; [apply lookup_insert_eq|].
  split; [intros f Hf; apply lookup_insert_ne; congruence|].
  split; [reflexivity|].
  eexists. rewrite initialize_logging_run.
  unfold Logging.os_path_exists, Logging.loop_variable.
  cbn [Logging.files Logging.root_handlers last existsb Logging.holds].
  change LOG_FILE with "center_mouse.log".
  rewrite lookup_insert_eq, String.eqb_refl.
  rewrite bool_decide_eq_true_2 by (eexists; reflexivity).
  cbn [andb orb]. rewrite orb_true_r. reflexivity.
Qed.

(** X16 run on a logger with a handler installed twice and an old log
    that nobody holds open: [basicConfig] alone would do nothing there;
    and on the logger this leaves, where it fails. *)
Example initialize_logging_demo :
  let st := {| Logging.root_handlers := [Logging.OtherHandler 7; Logging.OtherHandler 7];
               Logging.root_level := None;
               Logging.files := {[ "center_mouse.log" := ["old line"] ]};
               Logging.open_files := [] |} in
  Logging.basicConfig LOG_FILE INFO Logging.LOG_FORMAT "w" st = st /\
  (exists st',
     Logging.initialize_logging st = Ret st' /\
     Logging.root_handlers st'
     = [Logging.FileHandler "center_mouse.log" "w" Logging.LOG_FORMAT] /\
     Logging.files st' !! "center_mouse.log" = Some [] /\
     Logging.initialize_logging st'
     = Raise (PermissionError
                "[WinError 32] The process cannot access the file because it is being used by another process: 'center_mouse.log'")).
Proof.
  split; [reflexivity|]. eexists. split; [vm_compute; reflexivity|].
  repeat split; vm_compute; reflexivity.
Qed.

(** A file handler of the log that is not the last handler of the list is
    referred to by nothing once the loop is over: its stream is closed,
    and the old log can be removed. *)
Example initialize_logging_handler_not_last :
  exists st',
    Logging.initialize_logging
      {| Logging.root_handlers :=
           [Logging.FileHandler "center_mouse.log" "a" "%(message)s";
            Logging.OtherHandler 7];
         Logging.root_level := Some ERROR;
         Logging.files := {[ "center_mouse.log" := ["old line"] ]};
         Logging.open_files := [] |}
    = Ret st' /\
    Logging.root_handlers st'
    = [Logging.FileHandler "center_mouse.log" "w" Logging.LOG_FORMAT] /\
    Logging.root_level st' = Some INFO.
Proof. eexists. split; [vm_compute; reflexivity|]. split; reflexivity. Qed.

(** ** What [main] never does *)

Section MainSafety.

Variable py_int : string -> result Z.
Variable py_float : string -> result spec_float.

Lemma load_config_quiet (w w' : world) (o : outcome Settings) :
  load_config py_int py_float w = (o, w') ->
  exists l, w' = add_trace w l /\ polls l = O /\ moves l = O.
Proof.
  intros H. destruct (load_config_world _ _ _ _ _ H) as (l & -> & Hl & _).
  eexists. split; [reflexivity|].
  destruct Hl as [->|(msg & -> & _)]; split; reflexivity.
Qed.

(** X17: [main] polls no event and moves no cursor unless the
    configuration has loaded, a joystick is attached, [validate_config]
    has accepted the settings and the device index is not negative: in
    every other case both counts are what they were when it started. *)
Theorem main_acts_only_when_valid (fuel : nat) (w : world) :
  polls (trace (snd (main py_int py_float fuel w))) <> polls (trace w) \/
  moves (trace (snd (main py_int py_float fuel w))) <> moves (trace w) ->
  exists s w1,
    load_config py_int py_float w = (Done (Ret s), w1) /\
    joysticks w <> [] /\
    fst (validate_config s (devices_of (joysticks w) 0) w) = Done (Ret tt) /\
    0 <= device s.
Proof.
  intros Hacts.
  destruct (load_config py_int py_float w) as [o w1] eqn:Hload.
  destruct (load_config_quiet w w1 o Hload) as (l1 & Hw1 & Hp1 & Hm1).
  assert (Hquiet : forall r l,
            main py_int py_float fuel w = (r, add_trace w1 l) ->
            polls l = O -> moves l = O -> False).
  { intros r l Hmain Hp Hm. rewrite Hmain in Hacts. subst w1.
    cbn [snd add_trace set_trace trace] in Hacts.
    rewrite !polls_app, !moves_app, Hp1, Hm1, Hp, Hm in Hacts. lia. }
  destruct o as [[s|e]|].
  - destruct (joysticks w) as [|j0 js0] eqn:Hjs.
    + exfalso. eapply Hquiet.
      * apply (main_no_joysticks py_int py_float fuel w w1 s Hjs Hload).
      * reflexivity.
      * reflexivity.
    + assert (Hne : joysticks w <> []) by (rewrite Hjs; discriminate).
      destruct (in_enumeration_calls_init (joysticks w)) as (_ & _ & Hpe & Hme).
      set (w2 := add_trace w1 (enumeration_calls (joysticks w))).
      destruct (validate_config_cases s (devices_of (joysticks w) 0) w2)
        as [(info & _ & _ & _ & Hrun)|[(msg & Hrun)|(_ & Hrun)]].
      * assert (Hval : fst (validate_config s (devices_of (joysticks w) 0) w)
                       = Done (Ret tt)).
        { rewrite (validate_config_fst_world _ _ w w2), Hrun. reflexivity. }
        destruct (Z_lt_ge_dec (device s) 0) as [Hneg|Hpos].
        -- exfalso. eapply Hquiet.
           ++ apply (main_open_fails py_int py_float fuel w w1 s Hload Hne Hval Hneg).
           ++ rewrite polls_app, Hpe. reflexivity.
           ++ rewrite moves_app, Hme. reflexivity.
        -- exists s, w1. rewrite <- Hjs. repeat split; try assumption. lia.
      * exfalso. eapply Hquiet.
        -- rewrite (main_validation_fails py_int py_float fuel w w1 _ s _ Hload Hne Hrun).
           subst w2. rewrite add_trace_add_trace. reflexivity.
        -- rewrite polls_app, Hpe. reflexivity.
        -- rewrite moves_app, Hme. reflexivity.
      * exfalso. eapply Hquiet.
        -- rewrite (main_validation_fails py_int py_float fuel w w1 _ s _ Hload Hne Hrun).
           reflexivity.
        -- exact Hpe.
        -- exact Hme.
  - exfalso. eapply (Hquiet _ []).
    + rewrite (main_stops_with_load_config py_int py_float fuel w w1 e Hload).
      rewrite add_trace_nil. reflexivity.
    + reflexivity.
    + reflexivity.
  - exfalso. destruct (load_config_world _ _ _ _ _ Hload) as (l & _ & _ & Hno).
    now apply Hno.
Qed.

End MainSafety.

Lemma main_acts_only_when_valid_witness :
  exists s w1,
    load_config Demo.int Demo.float
      (Demo.boot (Some (Demo.config "0" "2" "0.625" "0.5")) [Demo.stick] [[JOYBUTTONUP 0 2]])
    = (Done (Ret s), w1) /\
    joysticks
      (Demo.boot (Some (Demo.config "0" "2" "0.625" "0.5")) [Demo.stick] [[JOYBUTTONUP 0 2]])
    <> [] /\
    fst (validate_config s
           (devices_of
              (joysticks
                 (Demo.boot (Some (Demo.config "0" "2" "0.625" "0.5")) [Demo.stick]
                    [[JOYBUTTONUP 0 2]])) 0)
           (Demo.boot (Some (Demo.config "0" "2" "0.625" "0.5")) [Demo.stick]
              [[JOYBUTTONUP 0 2]]))
    = Done (Ret tt) /\
    0 <= device s.
Proof.
  apply (main_acts_only_when_valid Demo.int Demo.float 2
           (Demo.boot (Some (Demo.config "0" "2" "0.625" "0.5")) [Demo.stick]
              [[JOYBUTTONUP 0 2]])).
  right. vm_compute. discriminate.
Defined.

Lemma initialize_logging_fresh_witness :
  exists st',
    Logging.initialize_logging
      {| Logging.root_handlers := [Logging.OtherHandler 7; Logging.OtherHandler 7];
         Logging.root_level := None;
         Logging.files := {[ "center_mouse.log" := ["old line"]; "notes.txt" := ["kept"] ]};
         Logging.open_files := ["notes.txt"] |}
    = Ret st' /\
    Logging.root_handlers st'
    = [Logging.FileHandler "center_mouse.log" "w" Logging.LOG_FORMAT] /\
    Logging.root_level st' = Some INFO /\
    Logging.files st' !! "center_mouse.log" = Some [] /\
    (forall f, f <> "center_mouse.log" ->
               Logging.files st' !! f
               = Logging.files
                   {| Logging.root_handlers :=
                        [Logging.OtherHandler 7; Logging.OtherHandler 7];
                      Logging.root_level := None;
                      Logging.files :=
                        {[ "center_mouse.log" := ["old line"]; "notes.txt" := ["kept"] ]};
                      Logging.open_files := ["notes.txt"] |} !! f) /\
    Logging.open_files st'
    = Logging.open_files
        {| Logging.root_handlers := [Logging.OtherHandler 7; Logging.OtherHandler 7];
           Logging.root_level := None;
           Logging.files :=
             {[ "center_mouse.log" := ["old line"]; "notes.txt" := ["kept"] ]};
           Logging.open_files := ["notes.txt"] |} /\
    exists msg, Logging.initialize_logging st' = Raise (PermissionError msg).
Proof.
  apply (initialize_logging_fresh
           {| Logging.root_handlers := [Logging.OtherHandler 7; Logging.OtherHandler 7];
              Logging.root_level := None;
              Logging.files :=
                {[ "center_mouse.log" := ["old line"]; "notes.txt" := ["kept"] ]};
              Logging.open_files := ["notes.txt"] |}).
  right. split.
  - cbn [Logging.open_files In]. intros [H|[]]. discriminate.
  - cbn [Logging.root_handlers last]. intros h H. injection H as <-. reflexivity.
Defined.
